(** * Realtime speech service: WAV framing, voice resolution, session client
      and the synthesis / recognition orchestrators

    Shallow embedding of [server/src/services/realtimeService.ts] and of the
    [/synthesize] route of [server/src/routes/speechRealtime.ts]; line
    numbers refer to these two files.

    Conventions
    - a Node [Buffer] is a [list byte];
    - a JavaScript [number] that the code uses as an integer is a [Z]; the
      range checks of the [Buffer] writers are written out;
    - a synchronous exception is the [Throw] case of [Result]; the result of
      an asynchronous function is an [Outcome];
    - the transport is a script: a list of socket occurrences, each with its
      arrival time; wall-clock time is a [Z] of milliseconds that advances
      with the timers and the arrivals, and a timer may fire late by a lag
      that the world carries;
    - a loop that waits is given a fuel, and a run that exhausts it is
      [Pending];
    - the closures registered as event handlers are named constructors, and
      the variables they capture, together with the locals of the running
      function, form the record [Vars].

    Part I holds the definitions: the embedding, then the vocabulary of the
    statements and the concrete scripts. Part II holds the properties. *)

From Stdlib Require Import ZArith List String Ascii Bool Lia.
From Stdlib.Strings Require Import Byte.
From stdpp Require Import base option list strings gmap.

Local Open Scope string_scope.
Local Open Scope list_scope.
Local Open Scope Z_scope.

(* ===================================================================== *)
(** * Part I: definitions                                                  *)
(* ===================================================================== *)

(** ** JavaScript exceptions *)

(** A thrown value: an [Error] instance of one of three classes, or a value
    that is not an [Error] at all (a handler that rethrows the event object
    it was given). *)
Inductive JsError : Type :=
| Error (message : string)
| RangeError (message : string)
| TypeError (message : string)
| NonError.

(** [error instanceof Error ? error.message : 'Unknown error'] *)
Definition message (e : JsError) : string :=
  match e with
  | Error m | RangeError m | TypeError m => m
  | NonError => "Unknown error"
  end.

Inductive Result (A : Type) : Type :=
| Ok (a : A)
| Throw (e : JsError).
Arguments Ok {A} a.
Arguments Throw {A} e.

#[global] Instance Result_ret : MRet Result := fun A a => Ok a.
#[global] Instance Result_bind : MBind Result := fun A B f r =>
  match r with
  | Ok a => f a
  | Throw e => Throw e
  end.

(** ** Node [Buffer] *)

Module Buf.

Definition Buffer : Type := list byte.

(** [Buffer.alloc(n)]: [n] zero bytes. *)
Definition alloc (n : nat) : Buffer := repeat x00 n.

(** In-place overwrite of [bs] at [offset]; bytes that do not fit are
    dropped, as [buf.write] does. The length never changes. *)
Fixpoint write_at (bs : list byte) (offset : nat) (buf : Buffer) : Buffer :=
  match buf with
  | [] => []
  | b :: buf' =>
      match offset with
      | S k => b :: write_at bs k buf'
      | O =>
          match bs with
          | [] => buf
          | x :: bs' => x :: write_at bs' O buf'
          end
      end
  end.

Definition bytes_of_string (s : string) : list byte :=
  map byte_of_ascii (list_ascii_of_string s).

(** [buf.write(s, offset)] for an ASCII string. *)
Definition write (s : string) (offset : nat) (buf : Buffer) : Buffer :=
  write_at (bytes_of_string s) offset buf.

(** The low 8 bits of [v], as [buf[i] = v] stores them. *)
Definition byte_of_Z (v : Z) : byte :=
  match Byte.of_N (Z.to_N (v mod 256)) with
  | Some b => b
  | None => x00
  end.

(** [n] bytes of [v], least significant first ([value >>> 8] each step). *)
Fixpoint le_bytes (n : nat) (v : Z) : list byte :=
  match n with
  | O => []
  | S k => byte_of_Z v :: le_bytes k (Z.shiftr v 8)
  end.

Definition out_of_range : JsError := RangeError "ERR_OUT_OF_RANGE".

(** [writeU_IntNLE]: [checkInt] first tests the value against [0, max],
    then the offset against the buffer; both throw a [RangeError]. *)
Definition writeUIntLE (nbytes : nat) (value : Z) (offset : nat)
    (buf : Buffer) : Result Buffer :=
  if (0 <=? value) && (value <? 2 ^ (8 * Z.of_nat nbytes)) then
    if (offset + nbytes <=? length buf)%nat then
      Ok (write_at (le_bytes nbytes value) offset buf)
    else Throw out_of_range
  else Throw out_of_range.

Definition writeUInt32LE := writeUIntLE 4.
Definition writeUInt16LE := writeUIntLE 2.

(** The same writers given [x / 8]. JavaScript's division is exact, so the
    value that [checkInt] tests against [0, max] is the quotient itself,
    which need not be an integer: [x / 8 <= max] is [x <= 8 * max]. What is
    stored of an accepted value is its integer part. *)
Definition writeUIntLE_eighth (nbytes : nat) (x : Z) (offset : nat)
    (buf : Buffer) : Result Buffer :=
  if (0 <=? x) && (x <=? 8 * (2 ^ (8 * Z.of_nat nbytes) - 1)) then
    if (offset + nbytes <=? length buf)%nat then
      Ok (write_at (le_bytes nbytes (x / 8)) offset buf)
    else Throw out_of_range
  else Throw out_of_range.

Definition writeUInt32LE_eighth := writeUIntLE_eighth 4.
Definition writeUInt16LE_eighth := writeUIntLE_eighth 2.

(** Value of a little-endian byte string. *)
Fixpoint Z_of_le (bs : list byte) : Z :=
  match bs with
  | [] => 0
  | b :: bs' => Z.of_N (Byte.to_N b) + 256 * Z_of_le bs'
  end.

(** [buf.subarray(offset, offset + n)] *)
Definition slice (offset n : nat) (buf : Buffer) : list byte :=
  firstn n (skipn offset buf).

(** [readUIntNLE(offset)]; [None] when the field runs past the end. *)
Definition readUIntLE (nbytes offset : nat) (buf : Buffer) : option Z :=
  let bs := slice offset nbytes buf in
  if (length bs =? nbytes)%nat then Some (Z_of_le bs) else None.

Definition readUInt32LE := readUIntLE 4.
Definition readUInt16LE := readUIntLE 2.

(** [Buffer.concat(list)] *)
Definition concat (l : list Buffer) : Buffer := List.concat l.

End Buf.

(** ** WAV framer ([createWavHeader], lines 16-44)

    The arguments are taken as integers. The byte rate and the block align
    are quotients by 8, which JavaScript computes exactly: the writers
    range-check the quotient as it is and store its integer part, which is
    [Z.div] on the non-negative values that pass. *)

Module Wav.
Import Buf.

Definition createWavHeader
    (dataLength sampleRate numChannels bitsPerSample : Z) : Result Buffer :=
  let header := alloc 44 in
  (* RIFF chunk descriptor *)
  let header := write "RIFF" 0 header in
  header ← writeUInt32LE (36 + dataLength) 4 header;
  let header := write "WAVE" 8 header in
  (* fmt sub-chunk *)
  let header := write "fmt " 12 header in
  header ← writeUInt32LE 16 16 header;
  header ← writeUInt16LE 1 20 header;
  header ← writeUInt16LE numChannels 22 header;
  header ← writeUInt32LE sampleRate 24 header;
  header ← writeUInt32LE_eighth (sampleRate * numChannels * bitsPerSample) 28 header;
  header ← writeUInt16LE_eighth (numChannels * bitsPerSample) 32 header;
  header ← writeUInt16LE bitsPerSample 34 header;
  (* data sub-chunk *)
  let header := write "data" 36 header in
  header ← writeUInt32LE dataLength 40 header;
  mret header.

(** The framing step of the synthesis path (lines 464-465):
    [Buffer.concat([createWavHeader(pcm.length, ...), pcm])]. *)
Definition frame (pcm : Buffer) (sampleRate numChannels bitsPerSample : Z)
    : Result Buffer :=
  wavHeader ← createWavHeader (Z.of_nat (length pcm))
                sampleRate numChannels bitsPerSample;
  mret (concat [wavHeader; pcm]).

(** Every header field fits the width it is written with; the byte rate
    and the block align are compared as the exact quotients they are. *)
Definition fields_fit (dataLength sampleRate numChannels bitsPerSample : Z)
    : Prop :=
  0 <= dataLength /\ 36 + dataLength < 2 ^ 32 /\
  0 <= sampleRate < 2 ^ 32 /\
  0 <= numChannels < 2 ^ 16 /\
  0 <= bitsPerSample < 2 ^ 16 /\
  sampleRate * numChannels * bitsPerSample <= 8 * (2 ^ 32 - 1) /\
  numChannels * bitsPerSample <= 8 * (2 ^ 16 - 1).

(** The canonical 44-byte RIFF/WAVE header, field by field. *)
Definition canonical_header (dataLength sampleRate numChannels bitsPerSample : Z)
    : Buffer :=
  bytes_of_string "RIFF" ++ le_bytes 4 (36 + dataLength) ++
  bytes_of_string "WAVE" ++ bytes_of_string "fmt " ++
  le_bytes 4 16 ++ le_bytes 2 1 ++ le_bytes 2 numChannels ++
  le_bytes 4 sampleRate ++
  le_bytes 4 (sampleRate * numChannels * bitsPerSample / 8) ++
  le_bytes 2 (numChannels * bitsPerSample / 8) ++
  le_bytes 2 bitsPerSample ++
  bytes_of_string "data" ++ le_bytes 4 dataLength.

End Wav.

(** ** Voice resolution ([VOICE_MAP], lines 63-83; selection, lines 390-396) *)

Module Voice.

(** What a property read on the mapping object can produce. *)
Inductive JsValue : Type :=
| JUndefined
| JString (s : string)
| JFunction (name : string)
| JObject.

(** The own properties of the object literal. *)
Definition VOICE_MAP : gmap string string :=
  list_to_map
    [ (* Gender-based mapping *)
      ("Male", "echo"); ("Female", "alloy");
      (* Azure Speech SDK voice name mapping *)
      ("JennyNeural", "alloy"); ("GuyNeural", "echo");
      ("AriaNeural", "nova"); ("DavisNeural", "onyx");
      ("JaneNeural", "shimmer"); ("JasonNeural", "fable");
      (* Direct OpenAI voice names *)
      ("alloy", "alloy"); ("echo", "echo"); ("fable", "fable");
      ("onyx", "onyx"); ("nova", "nova"); ("shimmer", "shimmer") ].

(** [VOICE_MAP] is a plain object literal, so a read of a key that is not
    an own property continues on [Object.prototype]. *)
Definition object_prototype_methods : list string :=
  [ "constructor"; "hasOwnProperty"; "isPrototypeOf";
    "propertyIsEnumerable"; "toLocaleString"; "toString"; "valueOf";
    "__defineGetter__"; "__defineSetter__";
    "__lookupGetter__"; "__lookupSetter__" ].

Definition object_prototype (key : string) : JsValue :=
  if bool_decide (key = "__proto__") then JObject
  else if bool_decide (key ∈ object_prototype_methods) then JFunction key
  else JUndefined.

(** [VOICE_MAP[key]] *)
Definition get (key : string) : JsValue :=
  match VOICE_MAP !! key with
  | Some token => JString token
  | None => object_prototype key
  end.

(** JavaScript truthiness. *)
Definition truthy (v : JsValue) : bool :=
  match v with
  | JUndefined => false
  | JString s => negb (String.eqb s "")
  | JFunction _ | JObject => true
  end.

(** [x && VOICE_MAP[x]] *)
Definition mapped (p : option string) : bool :=
  match p with
  | Some s => truthy (JString s) && truthy (get s)
  | None => false
  end.

Definition default_voice : string := "alloy".

(** Lines 390-396 (the same text is at lines 508-514). *)
Definition selectVoice (voiceName voiceGender : option string) : JsValue :=
  let selectedVoice := JString default_voice in
  if mapped voiceName then get (default "" voiceName)
  else if mapped voiceGender then get (default "" voiceGender)
  else selectedVoice.

(** The six voices of the destination provider. *)
Definition tokens : list string :=
  [ "alloy"; "echo"; "fable"; "onyx"; "nova"; "shimmer" ].

Definition valid_token (v : JsValue) : Prop :=
  exists t, v = JString t /\ t ∈ tokens.

(** A property name that the mapping object inherits. *)
Definition inherited (key : string) : Prop :=
  key = "__proto__" \/ key ∈ object_prototype_methods.

(** An argument that is absent, a key of the table, or a string that is
    not an inherited property name. *)
Definition own_or_absent (p : option string) : Prop :=
  forall key, p = Some key -> VOICE_MAP !! key = None -> ~ inherited key.

(** The resolution order in the words of the specification: exact match
    on the name, else exact match on the gender fallback, else the default
    token. *)
Definition resolve (name genderFallback : option string) : string :=
  match name ≫= (VOICE_MAP !!.) with
  | Some token => token
  | None =>
      match genderFallback ≫= (VOICE_MAP !!.) with
      | Some token => token
      | None => "alloy"
      end
  end.

End Voice.

(** ** Base64 ([Buffer.from(s, 'base64')], used at line 412)

    The decoder is the platform's, not the repository's. It is written here
    after Node's documented behaviour: characters outside the alphabet are
    skipped, both the standard and the URL-safe alphabet are accepted,
    decoding stops at the first [=], and a trailing group of two or three
    characters yields one or two bytes. *)

Module Base64.
Import Buf.

Definition alphabet : string :=
  "ABCDEFGHIJKLMNOPQRSTUVWXYZabcdefghijklmnopqrstuvwxyz0123456789+/".

Definition unbase64 (c : ascii) : option nat :=
  let n := nat_of_ascii c in
  (if (65 <=? n) && (n <=? 90) then Some (n - 65)
   else if (97 <=? n) && (n <=? 122) then Some (n - 71)
   else if (48 <=? n) && (n <=? 57) then Some (n + 4)
   else if (n =? 43) || (n =? 45) then Some 62
   else if (n =? 47) || (n =? 95) then Some 63
   else None)%nat.

Definition pad : ascii := "="%char.

(** The 6-bit values of the legal characters before the first [=]. *)
Fixpoint sextets (s : string) : list nat :=
  match s with
  | EmptyString => []
  | String c s' =>
      if Ascii.eqb c pad then []
      else match unbase64 c with
           | Some v => v :: sextets s'
           | None => sextets s'
           end
  end.

Definition byte_of_nat (n : nat) : byte :=
  match Byte.of_nat (n mod 256) with
  | Some b => b
  | None => x00
  end.

Fixpoint decode_sextets (l : list nat) : Buffer :=
  (match l with
   | a :: b :: c :: d :: rest =>
       byte_of_nat (a * 4 + b / 16)
       :: byte_of_nat ((b mod 16) * 16 + c / 4)
       :: byte_of_nat ((c mod 4) * 64 + d)
       :: decode_sextets rest
   | [a; b; c] =>
       [byte_of_nat (a * 4 + b / 16); byte_of_nat ((b mod 16) * 16 + c / 4)]
   | [a; b] => [byte_of_nat (a * 4 + b / 16)]
   | _ => []
   end)%nat.

(** [Buffer.from(s, 'base64')] *)
Definition decode (s : string) : Buffer := decode_sextets (sextets s).

(** The sender's side: the canonical padded encoding of a byte string. *)
Definition b64char (v : nat) : ascii :=
  nth v (list_ascii_of_string alphabet) pad.

Fixpoint encode_bytes (bs : list byte) : list ascii :=
  (match bs with
   | x :: y :: z :: rest =>
       let a := Byte.to_nat x in
       let b := Byte.to_nat y in
       let c := Byte.to_nat z in
       b64char (a / 4) :: b64char ((a mod 4) * 16 + b / 16)
       :: b64char ((b mod 16) * 4 + c / 64) :: b64char (c mod 64)
       :: encode_bytes rest
   | [x; y] =>
       let a := Byte.to_nat x in
       let b := Byte.to_nat y in
       [b64char (a / 4); b64char ((a mod 4) * 16 + b / 16);
        b64char ((b mod 16) * 4); pad]
   | [x] =>
       let a := Byte.to_nat x in
       [b64char (a / 4); b64char ((a mod 4) * 16); pad; pad]
   | [] => []
   end)%nat.

Definition encode (bs : list byte) : string :=
  string_of_list_ascii (encode_bytes bs).

End Base64.

(** ** Realtime session client and orchestrators *)

Module Realtime.
Import Buf Voice.

(** *** Configuration ([getRealtimeConfig], lines 94-104) *)

(** The configuration object of [../config/env], which is not among the
    sources: the three fields read here, each possibly [undefined]. *)
Record Env : Type := {
  azureOpenAiRealtimeEndpoint : option string;
  azureOpenAiRealtimeKey : option string;
  azureOpenAiRealtimeDeployment : option string
}.

Record RealtimeConfig : Type := {
  endpoint : string;
  apiKey : string;
  deployment : string
}.

(** [!x] for an optional string. *)
Definition falsy (x : option string) : bool :=
  match x with
  | None => true
  | Some s => String.eqb s ""
  end.

Definition getRealtimeConfig (config : Env) : Result RealtimeConfig :=
  let endpoint := azureOpenAiRealtimeEndpoint config in
  let apiKey := azureOpenAiRealtimeKey config in
  let deployment :=
    if falsy (azureOpenAiRealtimeDeployment config) then "gpt-realtime"
    else default "" (azureOpenAiRealtimeDeployment config) in
  if falsy endpoint || falsy apiKey then
    Throw (Error "Azure OpenAI Realtime endpoint and API key are required for Realtime API")
  else
    Ok {| endpoint := default "" endpoint;
          apiKey := default "" apiKey;
          deployment := deployment |}.

(** The two protocol families (line 125). *)
Inductive Variant : Type := GA | Preview.

(** [s.includes(sub)] *)
Definition includes (sub s : string) : bool :=
  match String.index 0 sub s with
  | Some _ => true
  | None => false
  end.

Definition isGAModel (deployment : string) : bool :=
  String.prefix "gpt-realtime" deployment && negb (includes "preview" deployment).

(** *** Transport script *)

(** A parsed server message. *)
Record ServerEvent : Type := {
  ev_type : string;
  ev_delta : option string;
  ev_transcript : option string
}.

(** What the socket can report. *)
Inductive Occurrence : Type :=
| SockOpen
| SockMessage (e : ServerEvent)
| SockError (err : JsError).

(** What [connection.send] is given. *)
Inductive Command : Type :=
| ConversationItemCreate (text : string)
| ResponseCreate
| InputAudioBufferAppend (audio : string)
| InputAudioBufferCommit.

(** *** Closures

    The handlers are closures over the local variables of the function
    that registers them; they are named here by the place that creates
    them, and the captured variables are the record [Vars]. *)

Inductive Handler : Type :=
| OnSessionCreated      (* lines 212-216 and 254-257 *)
| OnNonFatalError       (* lines 219-221 *)
| OnErrorReject         (* lines 249-252 *)
| TtsOnError            (* lines 405-408 *)
| TtsOnAudioDelta       (* lines 410-415 *)
| TtsOnResponseDone     (* lines 417-420 *)
| TtsOnAny              (* lines 423-425 *)
| SttOnError            (* lines 303-306 *)
| SttOnSessionUpdated   (* lines 308-311 *)
| SttOnTranscription.   (* lines 314-317 *)

(** State of the promise returned by [createRealtimeClient]. *)
Inductive Settled : Type :=
| Unsettled
| Resolved
| Rejected (e : JsError).

Record Vars : Type := mkVars {
  opened : Settled;
  connection : option Variant;
  audioChunks : list Buffer;
  responseDone : bool;
  transcriptText : option string;
  sessionConfigured : bool
}.

Definition set_opened (x : Settled) (vs : Vars) : Vars :=
  mkVars x (connection vs) (audioChunks vs) (responseDone vs)
         (transcriptText vs) (sessionConfigured vs).
Definition set_connection (x : option Variant) (vs : Vars) : Vars :=
  mkVars (opened vs) x (audioChunks vs) (responseDone vs)
         (transcriptText vs) (sessionConfigured vs).
Definition set_audioChunks (x : list Buffer) (vs : Vars) : Vars :=
  mkVars (opened vs) (connection vs) x (responseDone vs)
         (transcriptText vs) (sessionConfigured vs).
Definition set_responseDone (x : bool) (vs : Vars) : Vars :=
  mkVars (opened vs) (connection vs) (audioChunks vs) x
         (transcriptText vs) (sessionConfigured vs).
Definition set_transcriptText (x : option string) (vs : Vars) : Vars :=
  mkVars (opened vs) (connection vs) (audioChunks vs) (responseDone vs)
         x (sessionConfigured vs).
Definition set_sessionConfigured (x : bool) (vs : Vars) : Vars :=
  mkVars (opened vs) (connection vs) (audioChunks vs) (responseDone vs)
         (transcriptText vs) x.

(** [resolve] and [reject] act on an unsettled promise only. *)
Definition settle (s : Settled) (vs : Vars) : Vars :=
  match opened vs with
  | Unsettled => set_opened s vs
  | _ => vs
  end.

Definition is_settled (vs : Vars) : bool :=
  match opened vs with
  | Unsettled => false
  | _ => true
  end.

(** The argument a handler is called with. *)
Inductive Payload : Type :=
| PEvent (e : ServerEvent)
| PError (err : JsError).

(** [throw error] on the handler's argument. *)
Definition rethrown (p : Payload) : JsError :=
  match p with
  | PError err => err
  | PEvent _ => NonError
  end.

Definition payload_delta (p : Payload) : option string :=
  match p with
  | PEvent e => ev_delta e
  | PError _ => None
  end.

Definition payload_transcript (p : Payload) : option string :=
  match p with
  | PEvent e => ev_transcript e
  | PError _ => None
  end.

Definition run_handler (h : Handler) (p : Payload) (vs : Vars)
    : Result unit * Vars :=
  match h with
  | OnSessionCreated =>
      (* clearTimeout(timeout); resolve(realtimeClient) *)
      (Ok tt, settle Resolved vs)
  | OnNonFatalError => (Ok tt, vs)
  | OnErrorReject =>
      (* clearTimeout(timeout); reject(error) *)
      (Ok tt, settle (Rejected (rethrown p)) vs)
  | TtsOnError | SttOnError => (Throw (rethrown p), vs)
  | TtsOnAudioDelta =>
      match payload_delta p with
      | Some delta =>
          (Ok tt, set_audioChunks (audioChunks vs ++ [Base64.decode delta]) vs)
      | None => (Throw (TypeError "ERR_INVALID_ARG_TYPE"), vs)
      end
  | TtsOnResponseDone => (Ok tt, set_responseDone true vs)
  | TtsOnAny => (Ok tt, vs)
  | SttOnSessionUpdated => (Ok tt, set_sessionConfigured true vs)
  | SttOnTranscription =>
      (Ok tt, set_transcriptText (payload_transcript p) vs)
  end.

(** [handlers.forEach(handler => handler(event))]: a throw ends the loop. *)
Fixpoint run_handlers (hs : list Handler) (p : Payload) (vs : Vars)
    : Result unit * Vars :=
  match hs with
  | [] => (Ok tt, vs)
  | h :: hs' =>
      match run_handler h p vs with
      | (Ok _, vs') => run_handlers hs' p vs'
      | (Throw e, vs') => (Throw e, vs')
      end
  end.

(** *** The world of one request *)

Record World : Type := mkWorld {
  now : Z;                                  (* Date.now() *)
  lag : nat -> Z;                           (* lateness of the k-th timer *)
  timers : nat;                             (* timers created so far *)
  arrivals : list (Z * Occurrence);         (* script not yet delivered *)
  sockets : nat;                            (* transports created *)
  socketOpen : bool;                        (* GA socket: 'open' has fired *)      
  closes : nat;                             (* close() calls on the transport *)
  sent : list Command;                      (* commands sent, in order *)
  listeners : gmap string (list Handler);   (* the client's registry *)
  audioChars : list nat;                    (* statsService.recordAudioChars calls *)
  vars : Vars
}.

Definition set_now (x : Z) (w : World) : World :=
  mkWorld x (lag w) (timers w) (arrivals w) (sockets w) (socketOpen w)
          (closes w) (sent w) (listeners w) (audioChars w) (vars w).
Definition set_timers (x : nat) (w : World) : World :=
  mkWorld (now w) (lag w) x (arrivals w) (sockets w) (socketOpen w)
          (closes w) (sent w) (listeners w) (audioChars w) (vars w).
Definition set_arrivals (x : list (Z * Occurrence)) (w : World) : World :=
  mkWorld (now w) (lag w) (timers w) x (sockets w) (socketOpen w)
          (closes w) (sent w) (listeners w) (audioChars w) (vars w).
Definition set_sockets (x : nat) (w : World) : World :=
  mkWorld (now w) (lag w) (timers w) (arrivals w) x (socketOpen w)
          (closes w) (sent w) (listeners w) (audioChars w) (vars w).
Definition set_socketOpen (x : bool) (w : World) : World :=
  mkWorld (now w) (lag w) (timers w) (arrivals w) (sockets w) x
          (closes w) (sent w) (listeners w) (audioChars w) (vars w).
Definition set_closes (x : nat) (w : World) : World :=
  mkWorld (now w) (lag w) (timers w) (arrivals w) (sockets w) (socketOpen w)
          x (sent w) (listeners w) (audioChars w) (vars w).
Definition set_sent (x : list Command) (w : World) : World :=
  mkWorld (now w) (lag w) (timers w) (arrivals w) (sockets w) (socketOpen w)
          (closes w) x (listeners w) (audioChars w) (vars w).
Definition set_listeners (x : gmap string (list Handler)) (w : World) : World :=
  mkWorld (now w) (lag w) (timers w) (arrivals w) (sockets w) (socketOpen w)
          (closes w) (sent w) x (audioChars w) (vars w).
Definition set_audioChars (x : list nat) (w : World) : World :=
  mkWorld (now w) (lag w) (timers w) (arrivals w) (sockets w) (socketOpen w)
          (closes w) (sent w) (listeners w) x (vars w).
Definition set_vars (x : Vars) (w : World) : World :=
  mkWorld (now w) (lag w) (timers w) (arrivals w) (sockets w) (socketOpen w)
          (closes w) (sent w) (listeners w) (audioChars w) x.

Definition initial_vars : Vars := mkVars Unsettled None [] false (Some "") false.

(** A request that starts at time 0 against a scripted transport. *)
Definition scripted (lag : nat -> Z) (script : list (Z * Occurrence)) : World :=
  mkWorld 0 lag 0 script 0 false 0 [] ∅ [] initial_vars.

(** *** The client's four operations *)

Definition handlers_of (event : string) (w : World) : list Handler :=
  default [] (listeners w !! event).

(** [on(event, handler)] (lines 151-156) *)
Definition on (event : string) (handler : Handler) (w : World) : World :=
  set_listeners (<[event := handlers_of event w ++ [handler]]> (listeners w)) w.

(** [send(data)] (lines 158-161) *)
Definition send (data : Command) (w : World) : World :=
  set_sent (sent w ++ [data]) w.

(** [close()] (lines 163-165), and [socket.close()] *)
Definition close (w : World) : World :=
  set_closes (S (closes w)) w.

(** Run the handlers registered for [event]. *)
Definition emit (event : string) (p : Payload) (w : World)
    : Result unit * World :=
  let '(r, vs) := run_handlers (handlers_of event w) p (vars w) in
  (r, set_vars vs w).

(** *** Dispatch of one socket occurrence

    The result is [Some e] when an exception [e] leaves a listener with no
    [try] around it. *)

(** Lines 169-183: the handlers of the event's type, then those of
    ['server.*'], all inside one [try]; the [catch] only logs. *)
Definition ga_on_message (e : ServerEvent) (w : World) : World :=
  match emit (ev_type e) (PEvent e) w with
  | (Ok _, w1) => snd (emit "server.*" (PEvent e) w1)
  | (Throw _, w1) => w1
  end.

(** Lines 185-188, then the listener of lines 202-206. *)
Definition ga_on_error (err : JsError) (w : World) : option JsError * World :=
  match emit "error" (PError err) w with
  | (Throw e, w1) => (Some e, w1)
  | (Ok _, w1) => (None, set_vars (settle (Rejected err) (vars w1)) (close w1))
  end.

(** Lines 208-222; the socket is open from now on. *)
Definition ga_on_open (w : World) : World :=
  on "error" OnNonFatalError
    (on "session.created" OnSessionCreated (set_socketOpen true w)).

(** The library client of the other family is not part of the repository.
    It is taken to behave as its emitter is documented: a message of type
    ['error'] and a socket error are given to the ['error'] listeners as an
    [Error]; any other message goes to the listeners of its type; nothing
    catches what a listener throws. The library builds the message of the
    error it makes of an ['error'] message from the [error] member of that
    message; the messages of a script have no such member, and for them the
    library's message is "unknown error". *)
Definition sdk_error : JsError := Error "unknown error".

Definition sdk_emit (event : string) (p : Payload) (w : World)
    : option JsError * World :=
  match emit event p w with
  | (Ok _, w1) => (None, w1)
  | (Throw e, w1) => (Some e, w1)
  end.

Definition deliver (v : Variant) (occ : Occurrence) (w : World)
    : option JsError * World :=
  match v, occ with
  | GA, SockOpen => (None, ga_on_open w)
  | GA, SockMessage e => (None, ga_on_message e w)
  | GA, SockError err => ga_on_error err w
  | Preview, SockOpen => (None, w)
  | Preview, SockMessage e =>
      if String.eqb (ev_type e) "error" then sdk_emit "error" (PError sdk_error) w
      else sdk_emit (ev_type e) (PEvent e) w
  | Preview, SockError err => sdk_emit "error" (PError err) w
  end.

(** *** Timers and suspension

    While the caller is suspended until [due], the occurrences that arrive
    before [due] are dispatched in script order; [stop] ends the suspension
    early (a promise that has settled). *)
Fixpoint deliver_until (v : Variant) (stop : World -> bool) (due : Z)
    (arr : list (Z * Occurrence)) (w : World) : option JsError * World :=
  match arr with
  | [] => (None, w)
  | (t, occ) :: rest =>
      if stop w then (None, w)
      else if t <? due then
        match deliver v occ (set_now (Z.max (now w) t) (set_arrivals rest w)) with
        | (Some e, w') => (Some e, w')
        | (None, w') => deliver_until v stop due rest w'
        end
      else (None, w)
  end.

Definition run_until (v : Variant) (stop : World -> bool) (due : Z) (w : World)
    : option JsError * World :=
  deliver_until v stop due (arrivals w) w.

(** [setTimeout(_, delay)]: the time at which the timer fires. *)
Definition setTimeout (delay : Z) (w : World) : Z * World :=
  (now w + delay + lag w (timers w), set_timers (S (timers w)) w).

(** [await new Promise(resolve => setTimeout(resolve, delay))] *)
Definition sleep (v : Variant) (delay : Z) (w : World) : option JsError * World :=
  let '(due, w1) := setTimeout delay w in
  match run_until v (fun _ => false) due w1 with
  | (Some e, w2) => (Some e, w2)
  | (None, w2) => (None, set_now (Z.max (now w2) due) w2)
  end.

(** *** Outcomes of an asynchronous function *)

Inductive Outcome (A : Type) : Type :=
| Returned (a : A)          (* the promise resolves *)
| Thrown (e : JsError)      (* the promise rejects *)
| Crashed (e : JsError)     (* an exception left an event listener *)
| Pending.                  (* still suspended when the fuel ran out *)
Arguments Returned {A} a.
Arguments Thrown {A} e.
Arguments Crashed {A} e.
Arguments Pending {A}.

Definition M (A : Type) : Type := World -> Outcome A * World.

Definition ret {A} (a : A) : M A := fun w => (Returned a, w).
Definition throw {A} (e : JsError) : M A := fun w => (Thrown e, w).
Definition bind {A B} (m : M A) (k : A -> M B) : M B := fun w =>
  match m w with
  | (Returned a, w') => k a w'
  | (Thrown e, w') => (Thrown e, w')
  | (Crashed e, w') => (Crashed e, w')
  | (Pending, w') => (Pending, w')
  end.
Definition modify (f : World -> World) : M unit := fun w => (Returned tt, f w).
Definition read {A} (f : World -> A) : M A := fun w => (Returned (f w), w).
Definition lift {A} (r : Result A) : M A :=
  match r with
  | Ok a => ret a
  | Throw e => throw e
  end.

Notation "x <~ m ;; k" := (bind m (fun x => k))
  (at level 90, m at next level, right associativity).
Notation "m ;;; k" := (bind m (fun _ => k))
  (at level 90, right associativity).

(** [try { body } catch (error) { handler } finally { finalizer }] *)
Definition try_catch_finally {A} (body : M A) (handler : JsError -> M A)
    (finalizer : World -> World) : M A := fun w =>
  let r :=
    match body w with
    | (Thrown e, w') => handler e w'
    | r => r
    end in
  match r with
  | (Returned a, w') => (Returned a, finalizer w')
  | (Thrown e, w') => (Thrown e, finalizer w')
  | (Crashed e, w') => (Crashed e, w')
  | (Pending, w') => (Pending, w')
  end.

(** [while (waiting) { await sleep(interval) }] *)
Fixpoint poll (fuel : nat) (v : Variant) (waiting : World -> bool)
    (interval : Z) (w : World) : Outcome unit * World :=
  if waiting w then
    match fuel with
    | O => (Pending, w)
    | S fuel' =>
        match sleep v interval w with
        | (Some e, w') => (Crashed e, w')
        | (None, w') => poll fuel' v waiting interval w'
        end
    end
  else (Returned tt, w).

(** *** [createRealtimeClient] (lines 113-260) *)

Definition connect_timeout (v : Variant) : JsError :=
  match v with
  | GA => Error "WebSocket connection timeout - did not receive session.created"
  | Preview => Error "WebSocket connection timeout"
  end.

(** [socket.close()] on a socket that is still connecting: the [ws] library
    aborts the handshake and raises ['error'] with this message on the next
    tick, which is before the caller sees the rejection. *)
Definition handshake_aborted : JsError :=
  Error "WebSocket was closed before the connection was established".

(** The timer callback. Lines 197-200 close the socket and reject; when the
    socket had not opened yet, the ['error'] that this close raises reaches
    the listeners of lines 185-188 and 202-206, and the latter closes once
    more. Lines 245-247 only reject. *)
Definition on_connect_timeout (v : Variant) (w : World) : option JsError * World :=
  match v with
  | GA =>
      let w1 := set_vars (settle (Rejected (connect_timeout v)) (vars w)) (close w) in
      if socketOpen w then (None, w1)
      else ga_on_error handshake_aborted w1
  | Preview =>
      (None, set_vars (settle (Rejected (connect_timeout v)) (vars w)) w)
  end.

(** The promise of lines 196-223 (and 244-258). *)
Definition await_session (v : Variant) : M Variant := fun w =>
  let '(due, w1) := setTimeout 10000 w in
  match run_until v (fun w => is_settled (vars w)) due w1 with
  | (Some e, w2) => (Crashed e, w2)
  | (None, w2) =>
      match opened (vars w2) with
      | Resolved => (Returned v, w2)
      | Rejected e => (Thrown e, w2)
      | Unsettled =>
          match on_connect_timeout v (set_now (Z.max (now w2) due) w2) with
          | (Some e, w3) => (Crashed e, w3)
          | (None, w3) => (Thrown (connect_timeout v), w3)
          end
      end
  end.

(** A new socket and a new client object with an empty registry. *)
Definition new_client (w : World) : World :=
  set_vars (set_opened Unsettled (vars w))
    (set_listeners ∅ (set_socketOpen false (set_sockets (S (sockets w)) w))).

Definition createRealtimeClient (config : Env) : M Variant :=
  cfg <~ lift (getRealtimeConfig config) ;;
  if isGAModel (deployment cfg) then
    modify new_client ;;;
    await_session GA
  else
    modify new_client ;;;
    modify (on "error" OnErrorReject) ;;;
    modify (on "session.created" OnSessionCreated) ;;;
    await_session Preview.

(** *** [configureRealtimeSession] (lines 266-278): sends nothing. *)
Definition configureRealtimeSession (connection : Variant) (voice : JsValue)
    : M unit :=
  ret tt.

(** [finally { if (connection) connection.close() }] *)
Definition close_if_connected (w : World) : World :=
  match connection (vars w) with
  | Some _ => close w
  | None => w
  end.

(** [connection = await createRealtimeClient()] *)
Definition connected (conn : Variant) (w : World) : World :=
  set_vars (set_connection (Some conn) (vars w)) w.

(** *** [recognizeSpeechRealtime] (lines 286-363) *)

(** Lines 291-294: the local variables. *)
Definition stt_begin (w : World) : World :=
  set_vars (set_sessionConfigured false
             (set_transcriptText (Some "") (set_connection None (vars w)))) w.

(** Lines 303-317: the handlers. *)
Definition stt_subscribe (w : World) : World :=
  on "conversation.item.input_audio_transcription.completed" SttOnTranscription
    (on "session.updated" SttOnSessionUpdated
       (on "error" SttOnError w)).

(** Line 323: [!sessionConfigured] *)
Definition stt_unconfigured (w : World) : bool :=
  negb (sessionConfigured (vars w)).

(** Lines 328-336: the two commands. *)
Definition stt_request (audioData : string) (w : World) : World :=
  send InputAudioBufferCommit (send (InputAudioBufferAppend audioData) w).

(** Line 341: [!transcriptText && (Date.now() - startWait) < timeout] *)
Definition stt_waiting (startWait timeout : Z) (w : World) : bool :=
  falsy (transcriptText (vars w)) && (now w - startWait <? timeout).

(** Lines 345-352. *)
Definition stt_result : M (option string) :=
  transcript <~ read (fun w => transcriptText (vars w)) ;;
  if falsy transcript then
    throw (Error "Transcription timeout - no response received")
  else ret transcript.

Definition recognizeSpeechRealtime (fuel : nat) (config : Env)
    (audioData : option string) : M (option string) :=
  if falsy audioData then throw (Error "No audio data provided")
  else
    modify stt_begin ;;;
    try_catch_finally
      (conn <~ createRealtimeClient config ;;
       modify (connected conn) ;;;
       modify stt_subscribe ;;;
       configureRealtimeSession conn (JString "alloy") ;;;
       (* Wait for configuration *)
       poll fuel conn stt_unconfigured 50 ;;;
       modify (stt_request (default "" audioData)) ;;;
       let timeout := 10000 in
       startWait <~ read now ;;
       poll fuel conn (stt_waiting startWait timeout) 100 ;;;
       stt_result)
      (fun error =>
         throw (Error ("Speech recognition failed: " +:+ message error)))
      close_if_connected.

(** *** [synthesizeSpeechRealtime] (lines 373-481) *)

Definition audio_delta : string := "response.output_audio.delta".
Definition response_done : string := "response.done".

(** Modelled from the spec: [statsService.recordAudioChars] is not among the
    sources; the specification treats it as an external character counter,
    so only the calls made to it, with their arguments, are recorded. *)
Definition recordAudioChars (n : nat) (w : World) : World :=
  set_audioChars (audioChars w ++ [n]) w.

(** Lines 382-388: the character count and the local variables. *)
Definition tts_begin (text : string) (w : World) : World :=
  let w := recordAudioChars (String.length text) w in
  set_vars (set_responseDone false
             (set_audioChunks [] (set_connection None (vars w)))) w.

(** Lines 404-425: the handlers. *)
Definition tts_subscribe (w : World) : World :=
  on "server.*" TtsOnAny
    (on response_done TtsOnResponseDone
       (on audio_delta TtsOnAudioDelta
          (on "error" TtsOnError w))).

(** Lines 430-447: the two commands. *)
Definition tts_request (text : string) (w : World) : World :=
  send ResponseCreate (send (ConversationItemCreate text) w).

(** Line 452: [!responseDone && (Date.now() - startWait) < timeout] *)
Definition tts_waiting (startWait timeout : Z) (w : World) : bool :=
  negb (responseDone (vars w)) && (now w - startWait <? timeout).

(** Lines 456-470. *)
Definition tts_result : M Buffer :=
  done <~ read (fun w => responseDone (vars w)) ;;
  if negb done then throw (Error "Synthesis timeout - no response received")
  else
    chunks <~ read (fun w => audioChunks (vars w)) ;;
    let pcmAudioBuffer := Buf.concat chunks in
    wavHeader <~ lift (Wav.createWavHeader
                         (Z.of_nat (length pcmAudioBuffer)) 24000 1 16) ;;
    let audioBuffer := Buf.concat [wavHeader; pcmAudioBuffer] in
    ret audioBuffer.

(** The body of the function, with the configuration step it calls at line
    428 as a parameter, so that what is passed to that step can be stated. *)
Definition synthesize_with (configure : Variant -> JsValue -> M unit)
    (fuel : nat) (config : Env)
    (text voiceName voiceGender : option string) : M Buffer :=
  if falsy text then throw (Error "No text provided for synthesis")
  else
    let text := default "" text in
    modify (tts_begin text) ;;;
    let selectedVoice := selectVoice voiceName voiceGender in
    try_catch_finally
      (conn <~ createRealtimeClient config ;;
       modify (connected conn) ;;;
       modify tts_subscribe ;;;
       configure conn selectedVoice ;;;
       modify (tts_request text) ;;;
       let timeout := 30000 in
       startWait <~ read now ;;
       poll fuel conn (tts_waiting startWait timeout) 100 ;;;
       tts_result)
      (fun error =>
         throw (Error ("Speech synthesis failed: " +:+ message error)))
      close_if_connected.

Definition synthesizeSpeechRealtime (fuel : nat) (config : Env)
    (text voiceName voiceGender : option string) : M Buffer :=
  synthesize_with configureRealtimeSession fuel config text voiceName voiceGender.

(** *** [POST /synthesize] (speechRealtime.ts, lines 51-68) *)

Record SynthesizeBody : Type := {
  body_text : option string;
  body_voiceGender : option string;
  body_voiceName : option string
}.

Inductive HttpResponse : Type :=
| Audio (contentType : string) (audioBuffer : Buffer)
| Failure (status : nat) (error details : string).

(** The operation that the route imports, as the signature of lines
    373-377 declares it: [(text, voiceName, voiceGender)]. *)
Definition SynthesizeOperation : Type :=
  option string -> option string -> option string -> M Buffer.

(** The handler of the route, with the imported operation as a parameter. *)
Definition synthesize_route (synthesizeSpeechRealtime : SynthesizeOperation)
    (body : SynthesizeBody) : M HttpResponse :=
  let text := body_text body in
  let voiceGender := body_voiceGender body in
  let voiceName := body_voiceName body in
  try_catch_finally
    (audioBuffer <~ synthesizeSpeechRealtime text voiceGender voiceName ;;
     ret (Audio "audio/wav" audioBuffer))
    (fun error =>
       ret (Failure 500 "Speech synthesis failed (Realtime API)" (message error)))
    (fun w => w).

Definition post_synthesize (fuel : nat) (config : Env) (body : SynthesizeBody)
    : M HttpResponse :=
  synthesize_route (synthesizeSpeechRealtime fuel config) body.

End Realtime.


(** ** Vocabulary for statements about scripts and registries *)

Module Trace.
Import Buf Realtime.

(** *** Registries *)

(** The handlers of the connection promise. *)
Definition reject_or_log (h : Handler) : Prop :=
  h = OnNonFatalError \/ h = OnErrorReject.

Definition promise_handler (h : Handler) : Prop :=
  h = OnSessionCreated \/ reject_or_log h.

(** The registry that [createRealtimeClient] leaves behind: handlers of the
    connection promise under "session.created" and "error", nothing else. *)
Definition connect_handlers (cs ce : list Handler) (event : string) : list Handler :=
  if String.eqb event "session.created" then cs
  else if String.eqb event "error" then ce
  else [].

Definition connect_registry (w : World) : Prop :=
  exists cs ce,
    Forall (eq OnSessionCreated) cs /\ Forall reject_or_log ce /\
    forall event, handlers_of event w = connect_handlers cs ce event.

(** The registry once [synthesizeSpeechRealtime] has subscribed. *)
Definition tts_handlers (cs ce : list Handler) (event : string) : list Handler :=
  if String.eqb event "session.created" then cs
  else if String.eqb event "error" then ce ++ [TtsOnError]
  else if String.eqb event audio_delta then [TtsOnAudioDelta]
  else if String.eqb event response_done then [TtsOnResponseDone]
  else if String.eqb event "server.*" then [TtsOnAny]
  else [].

Definition tts_registry (w : World) : Prop :=
  exists cs ce,
    Forall (eq OnSessionCreated) cs /\ Forall reject_or_log ce /\
    forall event, handlers_of event w = tts_handlers cs ce event.

(** The registry once [recognizeSpeechRealtime] has subscribed. *)
Definition transcription_completed : string :=
  "conversation.item.input_audio_transcription.completed".

Definition stt_handlers (cs ce : list Handler) (event : string) : list Handler :=
  if String.eqb event "session.created" then cs
  else if String.eqb event "error" then ce ++ [SttOnError]
  else if String.eqb event "session.updated" then [SttOnSessionUpdated]
  else if String.eqb event transcription_completed then [SttOnTranscription]
  else [].

Definition stt_registry (w : World) : Prop :=
  exists cs ce,
    Forall (eq OnSessionCreated) cs /\ Forall reject_or_log ce /\
    forall event, handlers_of event w = stt_handlers cs ce event.

(** *** Frames *)

(** What opening a session does not touch. *)
Definition job_unchanged (w w' : World) : Prop :=
  lag w' = lag w /\ sockets w' = sockets w /\ sent w' = sent w /\
  audioChars w' = audioChars w /\
  connection (vars w') = connection (vars w) /\
  audioChunks (vars w') = audioChunks (vars w) /\
  responseDone (vars w') = responseDone (vars w) /\
  transcriptText (vars w') = transcriptText (vars w) /\
  sessionConfigured (vars w') = sessionConfigured (vars w).

(** What a run does not touch while it only waits. *)
Definition transport_unchanged (w w' : World) : Prop :=
  lag w' = lag w /\ sockets w' = sockets w /\ closes w' = closes w /\
  sent w' = sent w /\ listeners w' = listeners w /\
  audioChars w' = audioChars w /\ connection (vars w') = connection (vars w).

(** A promise that has been rejected. *)
Definition is_rejected (s : Settled) : Prop := exists e, s = Rejected e.

(** *** Reading a script *)

(** A completion message. *)
Definition is_done (occ : Occurrence) : bool :=
  match occ with
  | SockMessage e => String.eqb (ev_type e) response_done
  | _ => false
  end.

(** An audio-delta message. *)
Definition is_audio (occ : Occurrence) : bool :=
  match occ with
  | SockMessage e => String.eqb (ev_type e) audio_delta
  | _ => false
  end.

(** The decoded payload of an audio-delta message that has one. *)
Definition chunk_of (occ : Occurrence) : list Buffer :=
  match occ with
  | SockMessage e =>
      if String.eqb (ev_type e) audio_delta then
        match ev_delta e with
        | Some delta => [Base64.decode delta]
        | None => []
        end
      else []
  | _ => []
  end.

Definition done_in (script : list (Z * Occurrence)) : bool :=
  existsb (fun p => is_done (snd p)) script.

Definition chunks_in (script : list (Z * Occurrence)) : list Buffer :=
  flat_map (fun p => chunk_of (snd p)) script.

(** A server message whose dispatch leaves no exception behind: any message
    under the first variant, whose dispatcher catches; under the second, a
    message that is not an error event and, if it is an audio delta, has its
    payload. *)
Definition quiet (v : Variant) (occ : Occurrence) : Prop :=
  match occ with
  | SockMessage e =>
      match v with
      | GA => True
      | Preview =>
          ev_type e <> "error" /\ (ev_type e = audio_delta -> ev_delta e <> None)
      end
  | _ => False
  end.

Definition quiet_script (v : Variant) (script : list (Z * Occurrence)) : Prop :=
  Forall (fun p => quiet v (snd p)) script.

(** A script that never confirms a session configuration. *)
Definition never_configured (script : list (Z * Occurrence)) : Prop :=
  Forall (fun p => forall e, snd p = SockMessage e -> ev_type e <> "session.updated")
         script.

(** An occurrence that neither creates the session nor reports an error. *)
Definition unrelated (occ : Occurrence) : Prop :=
  match occ with
  | SockOpen => True
  | SockMessage e => ev_type e <> "session.created" /\ ev_type e <> "error"
  | SockError _ => False
  end.

(** *** The clock *)

(** Nothing that has not been delivered yet is older than the clock. *)
Definition fresh (w : World) : Prop :=
  match arrivals w with
  | [] => True
  | (t, _) :: _ => now w <= t
  end.

(** Timers are never early and at most [margin] late. *)
Definition timely (margin : Z) (w : World) : Prop :=
  forall k, 0 <= lag w k <= margin.

(** *** Results *)

(** The variant that a configuration selects (line 125). *)
Definition variant_of (cfg : RealtimeConfig) : Variant :=
  if isGAModel (deployment cfg) then GA else Preview.

(** The synthesis timeout as the caller sees it (lines 457 and 475). *)
Definition timeout_message : string :=
  "Speech synthesis failed: Synthesis timeout - no response received".

(** What [synthesizeSpeechRealtime] makes of the PCM bytes it collected
    (lines 464-475). *)
Definition framed (pcm : Buffer) : Outcome Buffer :=
  match Wav.createWavHeader (Z.of_nat (length pcm)) 24000 1 16 with
  | Ok wavHeader => Returned (wavHeader ++ pcm)
  | Throw e => Thrown (Error ("Speech synthesis failed: " +:+ message e))
  end.

End Trace.

(** ** Scripted sessions used as concrete inputs *)

Module Script.
Import Realtime.

Definition ga_config : Env :=
  {| azureOpenAiRealtimeEndpoint := Some "https://resource.openai.azure.com/openai";
     azureOpenAiRealtimeKey := Some "key";
     azureOpenAiRealtimeDeployment := None |}.

Definition preview_config : Env :=
  {| azureOpenAiRealtimeEndpoint := Some "https://resource.openai.azure.com/openai";
     azureOpenAiRealtimeKey := Some "key";
     azureOpenAiRealtimeDeployment := Some "gpt-4o-realtime-preview" |}.

(** A server message with no payload. *)
Definition event (type : string) : Occurrence :=
  SockMessage {| ev_type := type; ev_delta := None; ev_transcript := None |}.

(** An audio-delta message carrying [chunk], base64-encoded. *)
Definition audio (chunk : Buf.Buffer) : Occurrence :=
  SockMessage {| ev_type := audio_delta;
                 ev_delta := Some (Base64.encode chunk);
                 ev_transcript := None |}.

Definition session_created : Occurrence := event "session.created".
Definition done : Occurrence := event response_done.

(** Timers that fire exactly on time. *)
Definition punctual : nat -> Z := fun _ => 0.

(** A request body that names both a voice and a gender. *)
Definition both_voices : SynthesizeBody :=
  {| body_text := Some "hello";
     body_voiceGender := Some "Male";
     body_voiceName := Some "JennyNeural" |}.

(** The socket opens after 5 ms and the session is created after 20 ms. *)
Definition handshake : list (Z * Occurrence) :=
  [(5, SockOpen); (20, session_created)].

(** The world in which the session of a synthesis of "hello" has opened. *)
Definition ready (config : Env) (script : list (Z * Occurrence)) : World :=
  snd (createRealtimeClient config (tts_begin "hello" (scripted punctual script))).

Definition chunk100 : Buf.Buffer := repeat x01 100.
Definition chunk200 : Buf.Buffer := repeat x02 200.
Definition chunk50 : Buf.Buffer := repeat x03 50.

(** Three audio deltas and the completion event. *)
Definition three_chunks : list (Z * Occurrence) :=
  handshake ++
  [(300, audio chunk100); (450, audio chunk200); (700, audio chunk50); (900, done)].

(** A completion event with no audio before or after it. *)
Definition done_without_audio : list (Z * Occurrence) :=
  handshake ++
  [(60, event "response.created"); (900, done); (950, event "rate_limits.updated")].

(** Audio, but no completion event. *)
Definition never_done : list (Z * Occurrence) :=
  handshake ++ [(300, audio chunk100); (900, event "response.created")].

(** The socket opens, another message arrives, the session is never created. *)
Definition never_created : list (Z * Occurrence) :=
  [(5, SockOpen); (40, event "session.updated")].

(** The settings read from [preview_config]. *)
Definition preview_settings : RealtimeConfig :=
  {| endpoint := "https://resource.openai.azure.com/openai";
     apiKey := "key";
     deployment := "gpt-4o-realtime-preview" |}.

(** A session that opens and then talks about something else. *)
Definition unconfigured : list (Z * Occurrence) :=
  handshake ++ [(700, event "response.created")].

(** The world in which the session of a recognition has opened. *)
Definition listening (config : Env) (script : list (Z * Occurrence)) : World :=
  snd (createRealtimeClient config (stt_begin (scripted punctual script))).

End Script.

(** ** WebSocket URL of the first variant (lines 132-133) *)

Module Url.

(** [s.replace(/\/$/, '')]: the slash that ends the string, if there is
    one, is removed. *)
Fixpoint stripTrailingSlash (s : string) : string :=
  match s with
  | EmptyString => EmptyString
  | String c EmptyString => if Ascii.eqb c "/" then EmptyString else s
  | String c s' => String c (stripTrailingSlash s')
  end.

(** [s.slice(n)] *)
Fixpoint sliceFrom (n : nat) (s : string) : string :=
  match n, s with
  | O, _ => s
  | S k, String _ s' => sliceFrom k s'
  | S _, EmptyString => EmptyString
  end.

(** [s.replace(pattern, replacement)] for a string pattern and a replacement
    without [$]: the first occurrence is replaced. *)
Fixpoint replace (pattern replacement s : string) : string :=
  if String.prefix pattern s then
    replacement +:+ sliceFrom (String.length pattern) s
  else
    match s with
    | EmptyString => EmptyString
    | String c s' => String c (replace pattern replacement s')
    end.

(** Lines 132-133. *)
Definition wsUrl (endpoint deployment : string) : string :=
  let baseUrl := stripTrailingSlash endpoint in
  replace "https://" "wss://" baseUrl +:+ "/v1/realtime?model=" +:+ deployment.

End Url.

(** ** Service information ([getRealtimeInfo], lines 597-617) *)

Module Info.
Import Voice Realtime.

(** The entries of the [VOICE_MAP] literal (lines 63-83) in source order.
    None of the keys is an array index, so [Object.keys] lists them in this
    order. *)
Definition entries : list (string * string) :=
  [ ("Male", "echo"); ("Female", "alloy");
    ("JennyNeural", "alloy"); ("GuyNeural", "echo");
    ("AriaNeural", "nova"); ("DavisNeural", "onyx");
    ("JaneNeural", "shimmer"); ("JasonNeural", "fable");
    ("alloy", "alloy"); ("echo", "echo"); ("fable", "fable");
    ("onyx", "onyx"); ("nova", "nova"); ("shimmer", "shimmer") ].

(** [Object.keys(VOICE_MAP)] *)
Definition keys : list string := map fst entries.

(** [list.includes(k)] *)
Definition includes (l : list string) (k : string) : bool :=
  existsb (String.eqb k) l.

Record Features : Type := {
  stt : bool;
  tts : bool;
  streaming : bool;
  realtimeAudio : bool;
  voiceActivityDetection : bool;
  whisperTranscription : bool
}.

Record RealtimeInfo : Type := {
  service : string;
  model : string;
  info_endpoint : string;
  features : Features;
  voices : list string;
  audioFormat : string;
  latency : string;
  note : string
}.

(** [getRealtimeInfo] (lines 597-617) *)
Definition getRealtimeInfo (config : Env) : Result RealtimeInfo :=
  cfg ← getRealtimeConfig config;
  mret {| service := "Azure OpenAI Realtime API";
          model := deployment cfg;
          info_endpoint := endpoint cfg;
          features := {| stt := true; tts := true; streaming := true;
                         realtimeAudio := true;
                         voiceActivityDetection := true;
                         whisperTranscription := true |};
          voices := List.filter (fun k => negb (includes ["Male"; "Female"] k)) keys;
          audioFormat := "PCM 24kHz";
          latency := "Low (WebSocket-based)";
          note := "Requires gpt-4o-realtime deployment in Azure OpenAI" |}.

End Info.

(** ** The routes of [speechRealtime.ts] *)

Module Routes.
Import Buf Voice Realtime.

Record VoiceInfo : Type := { voice_name : string; voice_description : string }.

Record InfoBody : Type := {
  implementation : string;
  protocol : string;
  models : list (string * string);
  info_voices : list VoiceInfo;
  voiceMapping : list (string * string);
  info_audioFormat : list (string * string);
  info_features : list string;
  limitations : list string
}.

(** [GET /info] (speechRealtime.ts, lines 97-137): the body is a constant. *)
Definition get_info : InfoBody :=
  {| implementation := "Azure OpenAI Realtime API";
     protocol := "WebSocket";
     models := [("stt", "whisper-1"); ("tts", "gpt-4o-realtime")];
     info_voices :=
       [ {| voice_name := "alloy"; voice_description := "Neutral, balanced" |};
         {| voice_name := "echo"; voice_description := "Male, clear" |};
         {| voice_name := "fable"; voice_description := "Neutral, expressive" |};
         {| voice_name := "onyx"; voice_description := "Male, deep" |};
         {| voice_name := "nova"; voice_description := "Female, energetic" |};
         {| voice_name := "shimmer"; voice_description := "Female, soft" |} ];
     voiceMapping :=
       [ ("JennyNeural", "alloy"); ("AndrewNeural", "echo");
         ("FableNeural", "fable"); ("male", "echo");
         ("female", "alloy"); ("neutral", "shimmer") ];
     info_audioFormat := [("input", "PCM 24kHz 16-bit"); ("output", "PCM 24kHz 16-bit")];
     info_features :=
       [ "Low latency"; "Integrated conversational AI";
         "Server-side VAD"; "WebSocket streaming" ];
     limitations :=
       [ "Limited voice options (6 voices)"; "No SSML support"; "PCM format only" ] |}.

(** [error instanceof Error ? error.constructor.name : 'Unknown'] *)
Definition error_type (e : JsError) : string :=
  match e with
  | Error _ => "Error"
  | RangeError _ => "RangeError"
  | TypeError _ => "TypeError"
  | NonError => "Unknown"
  end.

Inductive RecognizeResponse : Type :=
| Recognized (text : option string)
| RecognizeFailure (status : nat) (error details type : string).

(** [POST /recognize] (speechRealtime.ts, lines 17-35) *)
Definition post_recognize (fuel : nat) (config : Env) (audioData : option string)
    : M RecognizeResponse :=
  try_catch_finally
    (result <~ recognizeSpeechRealtime fuel config audioData ;;
     ret (Recognized result))
    (fun error =>
       ret (RecognizeFailure 500 "Speech recognition failed (Realtime API)"
              (message error) (error_type error)))
    (fun w => w).

End Routes.

(** ** Vocabulary for statements about every run *)

Module Footprint.
Import Buf Realtime.

(** A handler that rethrows what it is given. *)
Definition rethrows (h : Handler) : Prop := h = TtsOnError \/ h = SttOnError.

(** A handler that rethrows is registered for "error". *)
Definition guarded (w : World) : Prop :=
  exists h, rethrows h /\ In h (handlers_of "error" w).

(** What no dispatch and no timer touches. *)
Definition ledger_unchanged (w w' : World) : Prop :=
  lag w' = lag w /\ sockets w' = sockets w /\ sent w' = sent w /\
  audioChars w' = audioChars w /\ connection (vars w') = connection (vars w).

End Footprint.


(** ** More scripted sessions and configurations *)

Module Fixture.
Import Realtime Script.

(** A server message that confirms a session configuration. *)
Definition updated : Occurrence := event "session.updated".

(** A completed transcription carrying [text]. *)
Definition transcription (text : string) : Occurrence :=
  SockMessage {| ev_type := "conversation.item.input_audio_transcription.completed";
                 ev_delta := None;
                 ev_transcript := Some text |}.

(** The session opens and its configuration is confirmed. *)
Definition configured : list (Z * Occurrence) :=
  handshake ++ [(30, updated)].

(** The same, and a transcript arrives. *)
Definition transcribed : list (Z * Occurrence) :=
  handshake ++ [(30, updated); (200, transcription "hello world")].

(** Neither credential is configured. *)
Definition no_credentials : Env :=
  {| azureOpenAiRealtimeEndpoint := None;
     azureOpenAiRealtimeKey := Some "";
     azureOpenAiRealtimeDeployment := Some "gpt-realtime" |}.

End Fixture.


Module Opening.
Import Buf Realtime Trace.

(** The "error" handler that [createRealtimeClient] registers: lines 219-221
    only log, lines 249-252 reject. *)
Definition error_handler (v : Variant) : Handler :=
  match v with
  | GA => OnNonFatalError
  | Preview => OnErrorReject
  end.

(** The registry of a client whose session is being opened: the second
    variant has subscribed already, the first one subscribes when its
    socket opens. *)
Definition opening (v : Variant) (w : World) : Prop :=
  exists cs ce,
    Forall (eq OnSessionCreated) cs /\ Forall (eq (error_handler v)) ce /\
    (v = Preview -> cs <> [] /\ ce <> []) /\
    forall event, handlers_of event w = connect_handlers cs ce event.

(** A handler waits for "session.created". *)
Definition subscribed (w : World) : Prop :=
  handlers_of "session.created" w <> [].

(** An occurrence that neither settles the promise nor throws: the socket
    opening, and a message other than "session.created" and, under the
    second variant, other than "error". *)
Definition harmless (v : Variant) (occ : Occurrence) : Prop :=
  match occ with
  | SockOpen => True
  | SockMessage e =>
      ev_type e <> "session.created" /\ (v = Preview -> ev_type e <> "error")
  | SockError _ => False
  end.

Definition is_open (occ : Occurrence) : bool :=
  match occ with
  | SockOpen => true
  | _ => false
  end.

(** What the wait for the session does not touch. *)
Definition same_request (w w' : World) : Prop :=
  vars w' = vars w /\ lag w' = lag w /\ timers w' = timers w /\
  sockets w' = sockets w /\ closes w' = closes w /\ sent w' = sent w /\
  audioChars w' = audioChars w.

End Opening.

Module Transcript.
Import Buf Realtime Trace.

(** A message that confirms a session configuration. *)
Definition is_updated (occ : Occurrence) : bool :=
  match occ with
  | SockMessage e => String.eqb (ev_type e) "session.updated"
  | _ => false
  end.

Definition updated_in (script : list (Z * Occurrence)) : bool :=
  existsb (fun p => is_updated (snd p)) script.

(** A completed transcription. *)
Definition is_transcription (occ : Occurrence) : bool :=
  match occ with
  | SockMessage e => String.eqb (ev_type e) transcription_completed
  | _ => false
  end.

(** [transcriptText] once [occ] has been dispatched: a completed
    transcription overwrites it with its [transcript] field. *)
Definition heard (current : option string) (occ : Occurrence) : option string :=
  match occ with
  | SockMessage e =>
      if String.eqb (ev_type e) transcription_completed then ev_transcript e
      else current
  | _ => current
  end.

Definition transcript_after (script : list (Z * Occurrence)) (current : option string)
    : option string :=
  fold_left (fun cur p => heard cur (snd p)) script current.

(** An occurrence that leaves [transcriptText] empty: anything but a
    completed transcription with a non-empty transcript. *)
Definition silent (occ : Occurrence) : bool :=
  falsy (heard (Some "") occ).

(** The recognition timeout as the caller sees it (lines 346 and 357). *)
Definition transcription_timeout : string :=
  "Speech recognition failed: Transcription timeout - no response received".

End Transcript.

Module Stream.
Import Buf Voice Realtime.

(** *** The Express response

    The response object belongs to the platform. It is the list of the
    calls made on it, in order; [headersSent] is what Node documents: the
    head leaves with the first call that writes or ends the body, and
    [setHeader] throws once it has left. *)

Inductive ResCall : Type :=
| SetHeader (name value : string)
| Status (code : nat)
| Send (body : string)
| Json (error details : string)
| Write (chunk : Buffer)
| End.

Definition Response : Type := list ResCall.

Definition sends_head (c : ResCall) : bool :=
  match c with
  | Send _ | Json _ _ | Write _ | End => true
  | SetHeader _ _ | Status _ => false
  end.

(** [res.headersSent] *)
Definition headersSent (res : Response) : bool := existsb sends_head res.

(** *** Closures of the streaming synthesis *)

Inductive StreamHandler : Type :=
| Connect (h : Handler)     (* registered by [createRealtimeClient] *)
| StreamOnError             (* lines 526-531 *)
| StreamOnSessionUpdated    (* lines 533-535 *)
| StreamOnAudioDelta        (* lines 537-541 *)
| StreamOnResponseDone.     (* lines 543-550 *)

(** What the streaming synthesis gives to [connection.send]: its
    "response.create" carries the modalities and the instructions (lines
    573-580), so its commands are kept in a log of their own, [outbox]. *)
Inductive StreamCommand : Type :=
| Plain (c : Command)
| ResponseCreateWith (modalities : list string) (instructions : string).

(** *** The world of one streaming request: the world of the session, the
    response, and the client with the closures of this function among its
    listeners. *)
Record Job : Type := mkJob {
  world : World;
  res : Response;
  registry : gmap string (list StreamHandler);
  outbox : list StreamCommand
}.

Definition set_world (x : World) (j : Job) : Job :=
  mkJob x (res j) (registry j) (outbox j).
Definition set_res (x : Response) (j : Job) : Job :=
  mkJob (world j) x (registry j) (outbox j).
Definition set_registry (x : gmap string (list StreamHandler)) (j : Job) : Job :=
  mkJob (world j) (res j) x (outbox j).
Definition set_outbox (x : list StreamCommand) (j : Job) : Job :=
  mkJob (world j) (res j) (registry j) x.

Definition in_world (f : World -> World) (j : Job) : Job :=
  set_world (f (world j)) j.

(** A request that arrives with a fresh response. *)
Definition request (w : World) : Job := mkJob w [] ∅ [].

(** The client that [createRealtimeClient] returned, as this function sees
    it: the listeners registered so far are the client's own. *)
Definition adopt (j : Job) : Job :=
  set_registry (fmap (map Connect) (listeners (world j))) j.

Definition job_handlers_of (event : string) (j : Job) : list StreamHandler :=
  default [] (registry j !! event).

(** [on(event, handler)] (lines 151-156) *)
Definition job_on (event : string) (handler : StreamHandler) (j : Job) : Job :=
  set_registry (<[event := job_handlers_of event j ++ [handler]]> (registry j)) j.

(** [send(data)] (lines 158-161) *)
Definition job_send (data : StreamCommand) (j : Job) : Job :=
  set_outbox (outbox j ++ [data]) j.

(** [res.status(code).send(body)] *)
Definition status_send (code : nat) (body : string) (j : Job) : Job :=
  set_res (res j ++ [Status code; Send body]) j.

(** [error.message] in a template literal. *)
Definition message_of (p : Payload) : string :=
  match p with
  | PError (Error m) | PError (RangeError m) | PError (TypeError m) => m
  | PError NonError | PEvent _ => "undefined"
  end.

(** [if (connection) connection.close()] *)
Definition job_close_if_connected (j : Job) : Job := in_world close_if_connected j.

Definition job_run_handler (h : StreamHandler) (p : Payload) (j : Job)
    : Result unit * Job :=
  match h with
  | Connect h0 =>
      let '(r, vs) := run_handler h0 p (vars (world j)) in
      (r, in_world (set_vars vs) j)
  | StreamOnError =>
      (Ok tt,
       if headersSent (res j) then j
       else status_send 500 ("Synthesis error: " +:+ message_of p) j)
  | StreamOnSessionUpdated =>
      (Ok tt, in_world (fun w => set_vars (set_sessionConfigured true (vars w)) w) j)
  | StreamOnAudioDelta =>
      match payload_delta p with
      | Some delta => (Ok tt, set_res (res j ++ [Write (Base64.decode delta)]) j)
      | None => (Throw (TypeError "ERR_INVALID_ARG_TYPE"), j)
      end
  | StreamOnResponseDone =>
      (Ok tt, job_close_if_connected (set_res (res j ++ [End]) j))
  end.

Fixpoint job_run_handlers (hs : list StreamHandler) (p : Payload) (j : Job)
    : Result unit * Job :=
  match hs with
  | [] => (Ok tt, j)
  | h :: hs' =>
      match job_run_handler h p j with
      | (Ok _, j') => job_run_handlers hs' p j'
      | (Throw e, j') => (Throw e, j')
      end
  end.

Definition job_emit (event : string) (p : Payload) (j : Job) : Result unit * Job :=
  job_run_handlers (job_handlers_of event j) p j.

(** *** Dispatch, as in [Realtime], over the listeners of the job *)

(** Lines 169-183. *)
Definition job_ga_on_message (e : ServerEvent) (j : Job) : Job :=
  match job_emit (ev_type e) (PEvent e) j with
  | (Ok _, j1) => snd (job_emit "server.*" (PEvent e) j1)
  | (Throw _, j1) => j1
  end.

(** Lines 185-188, then the listener of lines 202-206. *)
Definition job_ga_on_error (err : JsError) (j : Job) : option JsError * Job :=
  match job_emit "error" (PError err) j with
  | (Throw e, j1) => (Some e, j1)
  | (Ok _, j1) =>
      (None, in_world (fun w => set_vars (settle (Rejected err) (vars w)) (close w)) j1)
  end.

(** Lines 208-222. *)
Definition job_ga_on_open (j : Job) : Job :=
  job_on "error" (Connect OnNonFatalError)
    (job_on "session.created" (Connect OnSessionCreated)
       (in_world (set_socketOpen true) j)).

Definition job_sdk_emit (event : string) (p : Payload) (j : Job)
    : option JsError * Job :=
  match job_emit event p j with
  | (Ok _, j1) => (None, j1)
  | (Throw e, j1) => (Some e, j1)
  end.

Definition job_deliver (v : Variant) (occ : Occurrence) (j : Job)
    : option JsError * Job :=
  match v, occ with
  | GA, SockOpen => (None, job_ga_on_open j)
  | GA, SockMessage e => (None, job_ga_on_message e j)
  | GA, SockError err => job_ga_on_error err j
  | Preview, SockOpen => (None, j)
  | Preview, SockMessage e =>
      if String.eqb (ev_type e) "error" then job_sdk_emit "error" (PError sdk_error) j
      else job_sdk_emit (ev_type e) (PEvent e) j
  | Preview, SockError err => job_sdk_emit "error" (PError err) j
  end.

Fixpoint job_deliver_until (v : Variant) (stop : Job -> bool) (due : Z)
    (arr : list (Z * Occurrence)) (j : Job) : option JsError * Job :=
  match arr with
  | [] => (None, j)
  | (t, occ) :: rest =>
      if stop j then (None, j)
      else if t <? due then
        match job_deliver v occ
                (in_world (fun w => set_now (Z.max (now w) t) (set_arrivals rest w)) j) with
        | (Some e, j') => (Some e, j')
        | (None, j') => job_deliver_until v stop due rest j'
        end
      else (None, j)
  end.

Definition job_run_until (v : Variant) (stop : Job -> bool) (due : Z) (j : Job)
    : option JsError * Job :=
  job_deliver_until v stop due (arrivals (world j)) j.

(** [await new Promise(resolve => setTimeout(resolve, delay))] *)
Definition job_sleep (v : Variant) (delay : Z) (j : Job) : option JsError * Job :=
  let '(due, w1) := setTimeout delay (world j) in
  match job_run_until v (fun _ => false) due (set_world w1 j) with
  | (Some e, j2) => (Some e, j2)
  | (None, j2) => (None, in_world (fun w => set_now (Z.max (now w) due) w) j2)
  end.

(** *** Asynchronous functions over a job *)

Definition JM (A : Type) : Type := Job -> Outcome A * Job.

Definition job_ret {A} (a : A) : JM A := fun j => (Returned a, j).
Definition job_throw {A} (e : JsError) : JM A := fun j => (Thrown e, j).
Definition job_bind {A B} (m : JM A) (k : A -> JM B) : JM B := fun j =>
  match m j with
  | (Returned a, j') => k a j'
  | (Thrown e, j') => (Thrown e, j')
  | (Crashed e, j') => (Crashed e, j')
  | (Pending, j') => (Pending, j')
  end.
Definition job_modify (f : Job -> Job) : JM unit := fun j => (Returned tt, f j).

(** An asynchronous function of the session, run on the world of the job. *)
Definition on_session {A} (m : M A) : JM A := fun j =>
  let '(r, w') := m (world j) in (r, set_world w' j).

Declare Scope job_scope.
Notation "x <~ m ;; k" := (job_bind m (fun x => k))
  (at level 90, m at next level, right associativity) : job_scope.
Notation "m ;;; k" := (job_bind m (fun _ => k))
  (at level 90, right associativity) : job_scope.
Local Open Scope job_scope.

(** [try { body } catch (error) { handler }] *)
Definition job_try_catch {A} (body : JM A) (handler : JsError -> JM A) : JM A := fun j =>
  match body j with
  | (Thrown e, j') => handler e j'
  | r => r
  end.

(** [while (waiting) { await sleep(interval) }] *)
Fixpoint job_poll (fuel : nat) (v : Variant) (waiting : Job -> bool)
    (interval : Z) (j : Job) : Outcome unit * Job :=
  if waiting j then
    match fuel with
    | O => (Pending, j)
    | S fuel' =>
        match job_sleep v interval j with
        | (Some e, j') => (Crashed e, j')
        | (None, j') => job_poll fuel' v waiting interval j'
        end
    end
  else (Returned tt, j).

(** [res.setHeader(name, value)] *)
Definition setHeader (name value : string) : JM unit := fun j =>
  if headersSent (res j) then (Thrown (Error "ERR_HTTP_HEADERS_SENT"), j)
  else (Returned tt, set_res (res j ++ [SetHeader name value]) j).

(** *** [synthesizeSpeechStreamRealtime] (lines 491-592) *)

(** Lines 504-506: the local variables. *)
Definition stream_begin (w : World) : World :=
  set_vars (set_sessionConfigured false (set_connection None (vars w))) w.

Definition stream_delta : string := "response.audio.delta".

(** Lines 525-550: the handlers. *)
Definition stream_subscribe (j : Job) : Job :=
  job_on response_done StreamOnResponseDone
    (job_on stream_delta StreamOnAudioDelta
       (job_on "session.updated" StreamOnSessionUpdated
          (job_on "error" StreamOnError j))).

(** Line 556: [!sessionConfigured] *)
Definition stream_unconfigured (j : Job) : bool :=
  negb (sessionConfigured (vars (world j))).

(** Lines 560-580: the two commands. *)
Definition stream_request (text : string) (j : Job) : Job :=
  job_send (ResponseCreateWith ["audio"] "Please respond with speech.")
    (job_send (Plain (ConversationItemCreate text)) j).

(** Lines 582-591: the [catch] block. *)
Definition stream_failed (error : JsError) (j : Job) : Job :=
  let j :=
    if headersSent (res j) then j
    else status_send 500 ("Synthesis failed: " +:+ message error) j in
  job_close_if_connected j.

(** Lines 521-580: the [try] block. *)
Definition stream_attempt (fuel : nat) (config : Env) (text : string)
    (selectedVoice : JsValue) : JM unit :=
  conn <~ on_session (createRealtimeClient config) ;;
  job_modify (in_world (connected conn)) ;;;
  job_modify adopt ;;;
  job_modify stream_subscribe ;;;
  on_session (configureRealtimeSession conn selectedVoice) ;;;
  (* Wait for configuration *)
  job_poll fuel conn stream_unconfigured 50 ;;;
  job_modify (stream_request text).

Definition synthesizeSpeechStreamRealtime (fuel : nat) (config : Env)
    (text voiceName voiceGender : option string) : JM unit :=
  if falsy text then job_throw (Error "No text provided for synthesis")
  else
    let text := default "" text in
    job_modify (in_world (recordAudioChars (String.length text))) ;;;
    job_modify (in_world stream_begin) ;;;
    let selectedVoice := selectVoice voiceName voiceGender in
    setHeader "Content-Type" "audio/pcm" ;;;
    setHeader "Transfer-Encoding" "chunked" ;;;
    job_try_catch
      (stream_attempt fuel config text selectedVoice)
      (fun error => job_modify (stream_failed error)).

(** The job once the locals are initialised and the two headers are set. *)
Definition prepared (text : string) (j : Job) : Job :=
  let j0 := in_world stream_begin
              (in_world (recordAudioChars (String.length text)) j) in
  set_res (res j ++ [SetHeader "Content-Type" "audio/pcm";
                     SetHeader "Transfer-Encoding" "chunked"]) j0.

(** *** [POST /synthesize/stream] (speechRealtime.ts, lines 76-91) *)
Definition post_synthesize_stream (fuel : nat) (config : Env) (body : SynthesizeBody)
    : JM unit :=
  let text := body_text body in
  let voiceGender := body_voiceGender body in
  let voiceName := body_voiceName body in
  job_try_catch
    (synthesizeSpeechStreamRealtime fuel config text voiceName voiceGender)
    (fun error =>
       job_modify (fun j =>
         if headersSent (res j) then j
         else set_res (res j ++ [Status 500;
                                 Json "Speech synthesis streaming failed (Realtime API)"
                                      (message error)]) j)).

(** *** After the function has returned

    The listeners stay on the client: what the transport delivers until
    [horizon] is dispatched to them by the event loop. *)
Definition afterwards (v : Variant) (horizon : Z) (j : Job) : option JsError * Job :=
  job_run_until v (fun _ => false) horizon j.

End Stream.

Module StreamTrace.
Import Buf Realtime Trace Transcript Stream.

(** The registry once [synthesizeSpeechStreamRealtime] has subscribed. *)
Definition stream_handlers (cs ce : list Handler) (event : string)
    : list StreamHandler :=
  if String.eqb event "session.created" then map Connect cs
  else if String.eqb event "error" then map Connect ce ++ [StreamOnError]
  else if String.eqb event "session.updated" then [StreamOnSessionUpdated]
  else if String.eqb event stream_delta then [StreamOnAudioDelta]
  else if String.eqb event response_done then [StreamOnResponseDone]
  else [].

Definition stream_registry (j : Job) : Prop :=
  exists cs ce,
    Forall (eq OnSessionCreated) cs /\ Forall reject_or_log ce /\
    forall event, job_handlers_of event j = stream_handlers cs ce event.

(** The argument that the dispatcher of each variant gives to the handlers
    of a message. *)
Definition payload_of (v : Variant) (e : ServerEvent) : Payload :=
  match v with
  | GA => PEvent e
  | Preview => if String.eqb (ev_type e) "error" then PError sdk_error else PEvent e
  end.

(** The calls that the handlers of [event] make on the response. *)
Definition answer (event : string) (p : Payload) (res : Response) : Response :=
  if String.eqb event "error" then
    if headersSent res then res
    else res ++ [Status 500; Send ("Synthesis error: " +:+ message_of p)]
  else if String.eqb event stream_delta then
    match payload_delta p with
    | Some delta => res ++ [Write (Base64.decode delta)]
    | None => res
    end
  else if String.eqb event response_done then res ++ [End]
  else res.

(** The calls made on the response for one occurrence. *)
Definition respond (v : Variant) (res : Response) (occ : Occurrence) : Response :=
  match occ with
  | SockMessage e => answer (ev_type e) (payload_of v e) res
  | _ => res
  end.

(** The response once a part of the script has been dispatched. *)
Definition streamed (v : Variant) (script : list (Z * Occurrence)) (res : Response)
    : Response :=
  fold_left (fun r p => respond v r (snd p)) script res.

(** The completion events of a script. *)
Definition completions (script : list (Z * Occurrence)) : nat :=
  length (List.filter (fun p => is_done (snd p)) script).

(** A server message whose dispatch leaves no exception behind once the
    streaming synthesis has subscribed: any message under the first
    variant; under the second, an audio delta must have its payload. *)
Definition stream_quiet (v : Variant) (occ : Occurrence) : Prop :=
  match occ with
  | SockMessage e =>
      match v with
      | GA => True
      | Preview => ev_type e = stream_delta -> ev_delta e <> None
      end
  | _ => False
  end.

Definition stream_quiet_script (v : Variant) (script : list (Z * Occurrence)) : Prop :=
  Forall (fun p => stream_quiet v (snd p)) script.

(** What a dispatch does not touch. *)
Definition stream_unchanged (j j' : Job) : Prop :=
  outbox j' = outbox j /\ registry j' = registry j /\
  lag (world j') = lag (world j) /\ sockets (world j') = sockets (world j) /\
  audioChars (world j') = audioChars (world j) /\
  connection (vars (world j')) = connection (vars (world j)).

(** The writes that a part of the script causes: one for each
    "response.audio.delta" message that carries a payload. *)
Definition written (script : list (Z * Occurrence)) : list ResCall :=
  flat_map (fun p =>
              match snd p with
              | SockMessage e =>
                  if String.eqb (ev_type e) stream_delta then
                    match ev_delta e with
                    | Some delta => [Write (Base64.decode delta)]
                    | None => []
                    end
                  else []
              | _ => []
              end) script.

(** A server message that is neither an error event nor a completion. *)
Definition ordinary (occ : Occurrence) : bool :=
  match occ with
  | SockMessage e =>
      negb (String.eqb (ev_type e) "error") && negb (String.eqb (ev_type e) response_done)
  | _ => false
  end.

(** The two headers and the two commands of a streaming synthesis. *)
Definition stream_headers : list ResCall :=
  [SetHeader "Content-Type" "audio/pcm"; SetHeader "Transfer-Encoding" "chunked"].

Definition stream_commands (text : string) : list StreamCommand :=
  [Plain (ConversationItemCreate text);
   ResponseCreateWith ["audio"] "Please respond with speech."].

End StreamTrace.

Module StreamFixture.
Import Buf Realtime Script Fixture Stream.

(** A "response.audio.delta" message carrying [chunk], base64-encoded. *)
Definition stream_audio (chunk : Buf.Buffer) : Occurrence :=
  SockMessage {| ev_type := stream_delta;
                 ev_delta := Some (Base64.encode chunk);
                 ev_transcript := None |}.

(** A session that opens, is configured, streams two chunks and completes. *)
Definition spoken : list (Z * Occurrence) :=
  handshake ++ [(30, updated); (100, stream_audio [x01; x02; x03]);
                (120, stream_audio [x04; x05]); (200, done)].

(** The world in which the session of a streaming synthesis of [text] has
    opened. *)
Definition streaming (config : Env) (text : string) (script : list (Z * Occurrence))
    : World :=
  snd (createRealtimeClient config
         (world (prepared text (request (scripted punctual script))))).

End StreamFixture.
(* ===================================================================== *)
(** * Part II: properties                                                  *)
(* ===================================================================== *)

(** ** Sanity checks of the embedding on concrete inputs *)

Example wav_header_24k_mono_16 :
  Wav.frame [x01; x02] 24000 1 16 =
  Ok (Buf.bytes_of_string "RIFF" ++ [x26; x00; x00; x00] ++
      Buf.bytes_of_string "WAVEfmt " ++ [x10; x00; x00; x00; x01; x00; x01; x00] ++
      [xc0; x5d; x00; x00; x80; xbb; x00; x00; x02; x00; x10; x00] ++
      Buf.bytes_of_string "data" ++ [x02; x00; x00; x00] ++ [x01; x02]).
Proof. reflexivity. Qed.

Example base64_Man : Base64.decode "TWFu" = Buf.bytes_of_string "Man".
Proof. reflexivity. Qed.

Example base64_Ma : Base64.decode "TWE=" = Buf.bytes_of_string "Ma".
Proof. reflexivity. Qed.

Example base64_skips_whitespace : Base64.decode "T Q
==" = Buf.bytes_of_string "M".
Proof. reflexivity. Qed.

Example base64_encode_Ma : Base64.encode (Buf.bytes_of_string "Ma") = "TWE=".
Proof. reflexivity. Qed.

Example base64_encode_M : Base64.encode (Buf.bytes_of_string "M") = "TQ==".
Proof. reflexivity. Qed.

Example base64_url_safe : Base64.decode "-_8" = [xfb; xff].
Proof. reflexivity. Qed.

(** A complete synthesis against a scripted transport: two audio deltas,
    then the completion event. *)
Example synthesis_of_two_deltas :
  fst (Realtime.synthesizeSpeechRealtime 300 Script.ga_config (Some "hi") None None
         (Realtime.scripted Script.punctual
            (Script.handshake ++
             [(300, Script.audio (Buf.bytes_of_string "Man"));
              (450, Script.audio (Buf.bytes_of_string "Ma"));
              (900, Script.done)])))
  = Realtime.Returned
      (Wav.canonical_header 5 24000 1 16 ++ Buf.bytes_of_string "ManMa").
Proof. vm_compute. reflexivity. Qed.

(** Under the first variant an error event in mid-stream is caught by the
    dispatcher (line 180) and the synthesis goes on. *)
Example error_event_is_not_fatal :
  fst (Realtime.synthesizeSpeechRealtime 300 Script.ga_config (Some "hi") None None
         (Realtime.scripted Script.punctual
            (Script.handshake ++
             [(300, Script.event "error");
              (450, Script.audio (Buf.bytes_of_string "Ma"));
              (900, Script.done)])))
  = Realtime.Returned
      (Wav.canonical_header 2 24000 1 16 ++ Buf.bytes_of_string "Ma").
Proof. vm_compute. reflexivity. Qed.

(** The same under the second variant, which resolves on "session.created"
    alone. *)
Example synthesis_of_two_deltas_preview :
  fst (Realtime.synthesizeSpeechRealtime 300 Script.preview_config (Some "hi") None None
         (Realtime.scripted Script.punctual
            (Script.handshake ++
             [(300, Script.audio (Buf.bytes_of_string "Man"));
              (450, Script.audio (Buf.bytes_of_string "Ma"));
              (900, Script.done)])))
  = Realtime.Returned
      (Wav.canonical_header 5 24000 1 16 ++ Buf.bytes_of_string "ManMa").
Proof. vm_compute. reflexivity. Qed.

(** A completion event that arrives after the 30 s deadline is too late. *)
Example late_completion_times_out :
  fst (Realtime.synthesizeSpeechRealtime 400 Script.ga_config (Some "hi") None None
         (Realtime.scripted Script.punctual
            (Script.handshake ++ [(30200, Script.done)])))
  = Realtime.Thrown (Error Trace.timeout_message).
Proof. vm_compute. reflexivity. Qed.

(** ** Little-endian fields *)

Section LittleEndian.
Import Buf.

(** The byte stored for [v] is [v] modulo 256. *)
Lemma byte_of_Z_value (v : Z) : Z.of_N (Byte.to_N (byte_of_Z v)) = v mod 256.
Proof.
  unfold byte_of_Z.
  assert (Hr : 0 <= v mod 256 < 256) by (apply Z.mod_pos_bound; lia).
  destruct (Byte.of_N (Z.to_N (v mod 256))) as [b|] eqn:E.
  - apply Byte.to_of_N in E. rewrite E. lia.
  - apply Byte.of_N_None_iff in E. lia.
Qed.

Lemma le_bytes_length (n : nat) (v : Z) : length (le_bytes n v) = n.
Proof. revert v. induction n as [|n IH]; intros v; simpl; [|rewrite IH]; reflexivity. Qed.

(** A value that fits [n] bytes reads back from its [n] little-endian bytes. *)
Lemma Z_of_le_le_bytes (n : nat) (v : Z) :
  0 <= v < 2 ^ (8 * Z.of_nat n) -> Z_of_le (le_bytes n v) = v.
Proof.
  revert v. induction n as [|n IH]; intros v Hv.
  - simpl in *. lia.
  - cbn [le_bytes Z_of_le]. rewrite byte_of_Z_value, Z.shiftr_div_pow2 by lia.
    change (2 ^ 8) with 256.
    replace (8 * Z.of_nat (S n)) with (8 + 8 * Z.of_nat n) in Hv by lia.
    rewrite Z.pow_add_r in Hv by lia. change (2 ^ 8) with 256 in Hv.
    rewrite IH.
    + pose proof (Z.div_mod v 256). lia.
    + split; [apply Z.div_pos; lia|].
      apply Z.div_lt_upper_bound; lia.
Qed.

Lemma writeUIntLE_ok (n : nat) (v : Z) (off : nat) (buf : Buffer) :
  0 <= v < 2 ^ (8 * Z.of_nat n) -> (off + n <= length buf)%nat ->
  writeUIntLE n v off buf = Ok (write_at (le_bytes n v) off buf).
Proof.
  intros [H0 H1] Hoff. unfold writeUIntLE.
  apply Z.leb_le in H0. apply Z.ltb_lt in H1. apply Nat.leb_le in Hoff.
  rewrite H0, H1, Hoff. reflexivity.
Qed.

Lemma writeUIntLE_inv (n : nat) (v : Z) (off : nat) (buf out : Buffer) :
  writeUIntLE n v off buf = Ok out -> 0 <= v < 2 ^ (8 * Z.of_nat n).
Proof.
  unfold writeUIntLE. destruct (0 <=? v) eqn:H0; [|discriminate].
  destruct (v <? _) eqn:H1; [|discriminate]. intros _.
  apply Z.leb_le in H0. apply Z.ltb_lt in H1. lia.
Qed.

Lemma writeUIntLE_eighth_ok (n : nat) (x : Z) (off : nat) (buf : Buffer) :
  0 <= x <= 8 * (2 ^ (8 * Z.of_nat n) - 1) -> (off + n <= length buf)%nat ->
  writeUIntLE_eighth n x off buf = Ok (write_at (le_bytes n (x / 8)) off buf).
Proof.
  intros [H0 H1] Hoff. unfold writeUIntLE_eighth.
  apply Z.leb_le in H0. apply Z.leb_le in H1. apply Nat.leb_le in Hoff.
  rewrite H0, H1, Hoff. reflexivity.
Qed.

Lemma writeUIntLE_eighth_inv (n : nat) (x : Z) (off : nat) (buf out : Buffer) :
  writeUIntLE_eighth n x off buf = Ok out ->
  0 <= x <= 8 * (2 ^ (8 * Z.of_nat n) - 1).
Proof.
  unfold writeUIntLE_eighth. destruct (0 <=? x) eqn:H0; [|discriminate].
  destruct (x <=? _) eqn:H1; [|discriminate]. intros _.
  apply Z.leb_le in H0. apply Z.leb_le in H1. lia.
Qed.

Lemma write_at_length (bs : list byte) (off : nat) (buf : Buffer) :
  length (write_at bs off buf) = length buf.
Proof.
  revert bs off. induction buf as [|b buf IH]; intros bs off; [reflexivity|].
  destruct off as [|off]; simpl; [destruct bs; simpl|]; rewrite ?IH; reflexivity.
Qed.

End LittleEndian.

(** ** WAV framer *)

Section WavFramer.
Import Buf Wav.


(** With every field in range the writes produce the canonical header. *)
Lemma createWavHeader_layout (n r c b : Z) :
  fields_fit n r c b ->
  createWavHeader n r c b = Ok (canonical_header n r c b).
Proof.
  intros (Hn0 & Hn & Hr & Hc & Hb & Hbr & Hba).
  assert (0 <= r * c * b) by nia.
  assert (0 <= c * b) by nia.
  unfold createWavHeader, writeUInt32LE, writeUInt16LE,
    writeUInt32LE_eighth, writeUInt16LE_eighth, write.
  cbv zeta.
  repeat (first [rewrite writeUIntLE_ok | rewrite writeUIntLE_eighth_ok];
          [ cbn [mbind Result_bind]
          | simpl Z.of_nat; simpl Z.mul; lia
          | rewrite ?write_at_length; simpl; lia ]).
  unfold canonical_header.
  cbv -[byte_of_Z Z.shiftr Z.div Z.mul Z.add]. reflexivity.
Qed.

Lemma canonical_header_length (n r c b : Z) :
  length (canonical_header n r c b) = 44%nat.
Proof. reflexivity. Qed.

(** The header is produced exactly when every field fits its width. *)
Lemma createWavHeader_returns_iff (n r c b : Z) :
  0 <= n -> 0 <= r -> 0 <= c -> 0 <= b ->
  (exists h, createWavHeader n r c b = Ok h) <-> fields_fit n r c b.
Proof.
  intros Hn Hr Hc Hb. split; [|intros H; eexists; apply createWavHeader_layout, H].
  intros [h Hh].
  unfold createWavHeader, writeUInt32LE, writeUInt16LE,
    writeUInt32LE_eighth, writeUInt16LE_eighth in Hh.
  cbv zeta in Hh.
  repeat match type of Hh with
         | mbind _ (writeUIntLE ?k ?v ?o ?buf) = Ok _ =>
             let E := fresh "E" in
             destruct (writeUIntLE k v o buf) eqn:E;
             [ apply writeUIntLE_inv in E; cbn [mbind Result_bind] in Hh
             | discriminate Hh ]
         | mbind _ (writeUIntLE_eighth ?k ?v ?o ?buf) = Ok _ =>
             let E := fresh "E" in
             destruct (writeUIntLE_eighth k v o buf) eqn:E;
             [ apply writeUIntLE_eighth_inv in E; cbn [mbind Result_bind] in Hh
             | discriminate Hh ]
         end.
  unfold fields_fit. simpl Z.of_nat in *. simpl Z.mul in *. lia.
Qed.


Lemma read_canonical (k off : nat) (v : Z) (out : Buffer) :
  readUIntLE k off out = Some (Z_of_le (le_bytes k v)) ->
  0 <= v < 2 ^ (8 * Z.of_nat k) ->
  readUIntLE k off out = Some v.
Proof. intros -> Hv. rewrite Z_of_le_le_bytes by exact Hv. reflexivity. Qed.

(** C1: for every PCM byte sequence and every triple whose bits per sample
    are a multiple of 8, within what the header can hold (each field fits
    the width it is written with), [frame] returns the 44 header bytes
    followed by the PCM bytes unchanged, and the header fields read back as
    specified. *)
Theorem frame_layout (p : Buffer) (sampleRate channels bitsPerSample : Z) :
  bitsPerSample mod 8 = 0 ->
  fields_fit (Z.of_nat (length p)) sampleRate channels bitsPerSample ->
  exists header out,
    frame p sampleRate channels bitsPerSample = Ok out /\
    out = header ++ p /\ length header = 44%nat /\
    length out = (44 + length p)%nat /\
    slice 0 4 out = bytes_of_string "RIFF" /\
    slice 8 4 out = bytes_of_string "WAVE" /\
    readUInt32LE 4 out = Some (36 + Z.of_nat (length p)) /\
    readUInt16LE 20 out = Some 1 /\
    readUInt32LE 28 out = Some (sampleRate * channels * bitsPerSample / 8) /\
    readUInt16LE 32 out = Some (channels * bitsPerSample / 8) /\
    readUInt32LE 40 out = Some (Z.of_nat (length p)).
Proof.
  intros _ Hfit.
  set (n := Z.of_nat (length p)) in *.
  exists (canonical_header n sampleRate channels bitsPerSample).
  eexists. split.
  { unfold frame. fold n. rewrite createWavHeader_layout by exact Hfit.
    cbn [mbind Result_bind mret Result_ret concat List.concat].
    rewrite app_nil_r. reflexivity. }
  destruct Hfit as (Hn0 & Hn & Hr & Hc & Hb & Hbr & Hba).
  assert (0 <= sampleRate * channels * bitsPerSample / 8) by (apply Z.div_pos; nia).
  assert (0 <= channels * bitsPerSample / 8) by (apply Z.div_pos; nia).
  assert (sampleRate * channels * bitsPerSample / 8 < 2 ^ 32)
    by (apply Z.div_lt_upper_bound; lia).
  assert (channels * bitsPerSample / 8 < 2 ^ 16)
    by (apply Z.div_lt_upper_bound; lia).
  repeat split; try reflexivity.
  - apply read_canonical; [reflexivity | simpl Z.of_nat; simpl Z.mul; lia].
  - apply read_canonical; [reflexivity | simpl Z.of_nat; simpl Z.mul; lia].
  - apply read_canonical; [reflexivity | simpl Z.of_nat; simpl Z.mul; lia].
  - apply read_canonical; [reflexivity | simpl Z.of_nat; simpl Z.mul; lia].
Qed.

Lemma frame_layout_witness :
  exists header out,
    frame [x01; x02] 24000 1 16 = Ok out /\
    out = header ++ [x01; x02] /\ length header = 44%nat /\
    length out = (44 + 2)%nat /\
    slice 0 4 out = bytes_of_string "RIFF" /\
    slice 8 4 out = bytes_of_string "WAVE" /\
    readUInt32LE 4 out = Some (36 + 2) /\
    readUInt16LE 20 out = Some 1 /\
    readUInt32LE 28 out = Some (24000 * 1 * 16 / 8) /\
    readUInt16LE 32 out = Some (1 * 16 / 8) /\
    readUInt32LE 40 out = Some 2.
Proof.
  apply (frame_layout [x01; x02] 24000 1 16).
  - reflexivity.
  - unfold fields_fit. repeat split; vm_compute;
      first [reflexivity | intros Hc; discriminate Hc].
Defined.

(** Beyond that range the writers throw: a sample rate of 2^32 does not fit
    its 32-bit field, and no buffer is returned. *)
Example frame_rejects_wide_rate :
  8 mod 8 = 0 /\
  Wav.frame [] 4294967296 1 8 = Throw out_of_range /\
  forall out, Wav.frame [] 4294967296 1 8 <> Ok out.
Proof. split; [reflexivity|]. split; [reflexivity|]. intros out H. discriminate H. Qed.

End WavFramer.

(** ** Voice resolution *)

Section VoiceResolution.
Import Voice.


(** Every key of the table is non-empty and maps to one of the six tokens. *)
Lemma VOICE_MAP_entries :
  map_Forall (fun key token => key <> "" /\ token <> "" /\ token ∈ tokens) VOICE_MAP.
Proof.
  unfold VOICE_MAP. rewrite !list_to_map_cons, list_to_map_nil.
  repeat (apply map_Forall_insert_2;
          [ split; [discriminate | split; [discriminate |]];
            apply (bool_decide_unpack _); vm_compute; exact I | ]).
  apply map_Forall_empty.
Qed.

Lemma get_own (key token : string) :
  VOICE_MAP !! key = Some token -> get key = JString token.
Proof. intros H. unfold get. rewrite H. reflexivity. Qed.

Lemma mapped_own (key token : string) :
  VOICE_MAP !! key = Some token -> mapped (Some key) = true.
Proof.
  intros H. destruct (VOICE_MAP_entries key token H) as (Hk & Ht & _).
  unfold mapped. rewrite (get_own _ _ H). cbn [truthy].
  apply andb_true_iff. split; apply negb_true_iff, String.eqb_neq; assumption.
Qed.

Lemma get_absent (key : string) :
  VOICE_MAP !! key = None -> ~ inherited key -> get key = JUndefined.
Proof.
  intros H Hn. unfold get, object_prototype. rewrite H.
  rewrite bool_decide_eq_false_2 by (intros E; apply Hn; left; exact E).
  rewrite bool_decide_eq_false_2 by (intros E; apply Hn; right; exact E).
  reflexivity.
Qed.

Lemma mapped_absent (p : option string) :
  own_or_absent p ->
  (forall key, p = Some key -> VOICE_MAP !! key = None) ->
  mapped p = false.
Proof.
  intros Hp Hnone. destruct p as [key|]; [|reflexivity].
  unfold mapped. rewrite get_absent; [apply andb_false_r | auto | auto].
Qed.


Lemma resolve_token (name gender : option string) : resolve name gender ∈ tokens.
Proof.
  unfold resolve.
  destruct (name ≫= _) as [t|] eqn:En.
  - destruct name as [k|]; [|discriminate]. apply (VOICE_MAP_entries k t En).
  - destruct (gender ≫= _) as [t|] eqn:Eg.
    + destruct gender as [k|]; [|discriminate]. apply (VOICE_MAP_entries k t Eg).
    + apply (bool_decide_unpack _). vm_compute. exact I.
Qed.

(** The selection of lines 390-396 is the lookup order of the specification,
    inherited property names apart. *)
Lemma selectVoice_resolve (name gender : option string) :
  own_or_absent name -> own_or_absent gender ->
  selectVoice name gender = JString (resolve name gender).
Proof.
  intros Hn Hg. unfold selectVoice, resolve.
  destruct (name ≫= _) as [t|] eqn:En.
  - destruct name as [k|]; [|discriminate]. cbn in En.
    rewrite (mapped_own _ _ En). cbn. apply get_own, En.
  - rewrite (mapped_absent name Hn)
      by (intros k ->; exact En).
    destruct (gender ≫= _) as [t|] eqn:Eg.
    + destruct gender as [k|]; [|discriminate]. cbn in Eg.
      rewrite (mapped_own _ _ Eg). cbn. apply get_own, Eg.
    + rewrite (mapped_absent gender Hg) by (intros k ->; exact Eg).
      reflexivity.
Qed.

(** C3 (as amended): for arguments that are keys of the table or are not
    property names the table object inherits, the selection is the exact,
    case-sensitive lookup on the name, else on the gender fallback, else
    "alloy", and the result is one of the six tokens. The gender keys of
    the table are "Male" and "Female"; "female" is not a key and resolves
    to the default. *)
Theorem selectVoice_resolution (name gender : option string) :
  own_or_absent name -> own_or_absent gender ->
  selectVoice name gender = JString (resolve name gender) /\
  valid_token (selectVoice name gender) /\
  (VOICE_MAP !! "JennyNeural" = Some "alloy" /\
   selectVoice (Some "JennyNeural") None = JString "alloy") /\
  (VOICE_MAP !! "Female" = Some "alloy" /\
   selectVoice None (Some "Female") = JString "alloy") /\
  (VOICE_MAP !! "female" = None /\
   selectVoice None (Some "female") = JString default_voice) /\
  (VOICE_MAP !! "jennyneural" = None /\
   selectVoice (Some "jennyneural") None = JString default_voice) /\
  selectVoice (Some "unknown-name") (Some "unknown-gender") = JString default_voice.
Proof.
  intros Hn Hg. split; [apply selectVoice_resolve; assumption|].
  split.
  { exists (resolve name gender). split; [apply selectVoice_resolve; assumption|].
    apply resolve_token. }
  repeat split; vm_compute; reflexivity.
Qed.

Lemma selectVoice_resolution_witness :
  selectVoice (Some "AriaNeural") (Some "Male") =
    JString (resolve (Some "AriaNeural") (Some "Male")) /\
  valid_token (selectVoice (Some "AriaNeural") (Some "Male")) /\
  (VOICE_MAP !! "JennyNeural" = Some "alloy" /\
   selectVoice (Some "JennyNeural") None = JString "alloy") /\
  (VOICE_MAP !! "Female" = Some "alloy" /\
   selectVoice None (Some "Female") = JString "alloy") /\
  (VOICE_MAP !! "female" = None /\
   selectVoice None (Some "female") = JString default_voice) /\
  (VOICE_MAP !! "jennyneural" = None /\
   selectVoice (Some "jennyneural") None = JString default_voice) /\
  selectVoice (Some "unknown-name") (Some "unknown-gender") = JString default_voice.
Proof.
  apply (selectVoice_resolution (Some "AriaNeural") (Some "Male")).
  - intros key [= <-] H. vm_compute in H. discriminate H.
  - intros key [= <-] H. vm_compute in H. discriminate H.
Defined.

(** C3 as stated fails twice: no token is mapped for "female" (the lookup
    falls through to the default), and the name "constructor" resolves to
    a function inherited by the table object, not to a token. *)
Lemma selectVoice_not_as_claimed :
  (~ exists token, VOICE_MAP !! "female" = Some token /\
                   selectVoice None (Some "female") = JString token) /\
  selectVoice (Some "constructor") None = JFunction "constructor" /\
  ~ valid_token (selectVoice (Some "constructor") None).
Proof.
  split; [|split].
  - intros (token & H & _). vm_compute in H. discriminate H.
  - vm_compute. reflexivity.
  - intros (t & H & _). vm_compute in H. discriminate H.
Qed.

(** The lower-case gender tokens are not keys: both fall through to the
    default, which for "male" is not the token of "Male". *)
Example lowercase_gender_falls_through :
  selectVoice None (Some "male") = JString "alloy" /\
  selectVoice None (Some "Male") = JString "echo" /\
  selectVoice None (Some "female") = JString "alloy" /\
  selectVoice (Some "__proto__") None = JObject.
Proof. vm_compute. repeat split; reflexivity. Qed.

End VoiceResolution.

(** ** Input validation *)

Section Validation.
Import Realtime.

(** C4: on the empty string both operations throw their validation error
    and leave the world as it was: no transport is created, nothing is
    sent, and no character count is recorded. *)
Theorem empty_input_rejected (fuel : nat) (config : Env)
    (voiceName voiceGender : option string) (w : World) :
  synthesizeSpeechRealtime fuel config (Some "") voiceName voiceGender w =
    (Thrown (Error "No text provided for synthesis"), w) /\
  recognizeSpeechRealtime fuel config (Some "") w =
    (Thrown (Error "No audio data provided"), w) /\
  sockets (snd (synthesizeSpeechRealtime fuel config (Some "") voiceName voiceGender w))
    = sockets w /\
  audioChars (snd (synthesizeSpeechRealtime fuel config (Some "") voiceName voiceGender w))
    = audioChars w /\
  sockets (snd (recognizeSpeechRealtime fuel config (Some "") w)) = sockets w.
Proof. repeat split; reflexivity. Qed.

(** An absent argument ([undefined]) is rejected in the same way. *)
Lemma absent_input_rejected (fuel : nat) (config : Env)
    (voiceName voiceGender : option string) (w : World) :
  synthesizeSpeechRealtime fuel config None voiceName voiceGender w =
    (Thrown (Error "No text provided for synthesis"), w) /\
  recognizeSpeechRealtime fuel config None w =
    (Thrown (Error "No audio data provided"), w).
Proof. split; reflexivity. Qed.

End Validation.

(** ** The synthesis route and the requested voice *)

Section RouteAndVoice.
Import Voice Realtime Script.

Lemma configureRealtimeSession_sends_nothing
    (conn : Variant) (voice : JsValue) (w : World) :
  configureRealtimeSession conn voice w = (Returned tt, w).
Proof. reflexivity. Qed.



(** The voice that the unswapped call would resolve for the same body: the
    token of "JennyNeural", not the one of "Male". *)
Example voice_name_would_win :
  selectVoice (body_voiceName both_voices) (body_voiceGender both_voices) = JString "alloy" /\
  selectVoice (body_voiceGender both_voices) (body_voiceName both_voices) = JString "echo".
Proof. split; reflexivity. Qed.

(** C9: the requested voice has no effect on the run: for the same text,
    configuration and world, any two voice requests give the same outcome
    (so the same audio) and the same final world (so the same commands
    sent); the configuration step itself sends nothing. *)
Theorem voice_is_never_transmitted (fuel : nat) (config : Env)
    (text name1 gender1 name2 gender2 : option string) (w : World) :
  let run1 := synthesizeSpeechRealtime fuel config text name1 gender1 w in
  let run2 := synthesizeSpeechRealtime fuel config text name2 gender2 w in
  fst run1 = fst run2 /\
  sent (snd run1) = sent (snd run2) /\
  snd run1 = snd run2 /\
  forall conn voice w', sent (snd (configureRealtimeSession conn voice w')) = sent w'.
Proof.
  cbv zeta. unfold synthesizeSpeechRealtime, synthesize_with, configureRealtimeSession.
  repeat split; reflexivity.
Qed.

End RouteAndVoice.

(** ** Base64: decoding the canonical encoding gives the bytes back *)

Section Base64RoundTrip.
Import Buf Base64.

Lemma b64char_legal (v : nat) :
  (v < 64)%nat -> Ascii.eqb (b64char v) pad = false /\ unbase64 (b64char v) = Some v.
Proof.
  intros Hv.
  do 64 (destruct v as [|v]; [split; reflexivity|]).
  lia.
Qed.

Lemma sextets_cons (v : nat) (s : string) :
  (v < 64)%nat -> sextets (String (b64char v) s) = v :: sextets s.
Proof.
  intros Hv. destruct (b64char_legal v Hv) as [Hp Hu].
  cbn [sextets]. rewrite Hp, Hu. reflexivity.
Qed.

Lemma sextets_pad (s : string) : sextets (String pad s) = [].
Proof. reflexivity. Qed.

Lemma byte_of_nat_to_nat (x : byte) (n : nat) :
  n = Byte.to_nat x -> byte_of_nat n = x.
Proof.
  intros ->. unfold byte_of_nat.
  pose proof (Byte.to_nat_bounded x).
  rewrite Nat.mod_small by lia. rewrite Byte.of_to_nat. reflexivity.
Qed.

Lemma list_ind3 {A} (P : list A -> Prop) :
  P [] -> (forall x, P [x]) -> (forall x y, P [x; y]) ->
  (forall x y z l, P l -> P (x :: y :: z :: l)) ->
  forall l, P l.
Proof.
  intros H0 H1 H2 H3.
  fix IH 1. intros [|x [|y [|z l]]]; [exact H0 | apply H1 | apply H2 | apply H3, IH].
Qed.

Ltac nat_divmod :=
  repeat match goal with
         | x : byte |- _ =>
             pose proof (Byte.to_nat_bounded x);
             generalize dependent (Byte.to_nat x); clear x; intros
         end;
  zify;
  repeat (rewrite ?Nat2Z.inj_div, ?Nat2Z.inj_mod, ?Nat2Z.inj_add, ?Nat2Z.inj_mul in * );
  Z.div_mod_to_equations; lia.

(** Decoding the padded encoding of a byte string gives the bytes back. *)
Lemma decode_encode (bs : list byte) : decode (encode bs) = bs.
Proof.
  unfold decode, encode.
  induction bs as [|x|x y|x y z l IH] using list_ind3.
  - reflexivity.
  - cbn [encode_bytes string_of_list_ascii].
    rewrite !sextets_cons, sextets_pad by nat_divmod.
    cbn [decode_sextets]. f_equal. apply byte_of_nat_to_nat. nat_divmod.
  - cbn [encode_bytes string_of_list_ascii].
    rewrite !sextets_cons, sextets_pad by nat_divmod.
    cbn [decode_sextets]. f_equal; [|f_equal]; apply byte_of_nat_to_nat; nat_divmod.
  - cbn [encode_bytes string_of_list_ascii].
    rewrite !sextets_cons by nat_divmod.
    cbn [decode_sextets]. rewrite IH.
    f_equal; [|f_equal; [|f_equal]]; apply byte_of_nat_to_nat; nat_divmod.
Qed.
End Base64RoundTrip.

(** ** Handlers and registries *)

(** Case analysis on the type of an event against the subscribed names. *)
Ltac by_event :=
  repeat match goal with
         | |- context [String.eqb ?a ?b] =>
             destruct (String.eqb_spec a b); subst; try discriminate; try congruence
         end.


Section Registry.
Import Buf Realtime Trace.

Lemma set_opened_same (vs : Vars) : set_opened (opened vs) vs = vs.
Proof. destruct vs; reflexivity. Qed.

Lemma set_vars_same (w : World) : set_vars (vars w) w = w.
Proof. destruct w; reflexivity. Qed.

(** Handlers run in registration order. *)
Lemma run_handlers_app (hs1 hs2 : list Handler) (p : Payload) (vs : Vars) :
  run_handlers (hs1 ++ hs2) p vs =
  match run_handlers hs1 p vs with
  | (Ok _, vs') => run_handlers hs2 p vs'
  | (Throw e, vs') => (Throw e, vs')
  end.
Proof.
  revert vs. induction hs1 as [|h hs1 IH]; intros vs; [reflexivity|].
  cbn [app run_handlers]. destruct (run_handler h p vs) as [[[]|e] vs']; [apply IH | reflexivity].
Qed.


(** The handlers of the connection promise never throw and touch nothing but
    the promise. *)
Lemma run_promise_handlers (hs : list Handler) (p : Payload) (vs : Vars) :
  Forall promise_handler hs ->
  exists o, run_handlers hs p vs = (Ok tt, set_opened o vs).
Proof.
  intros H. revert vs. induction H as [|h hs Hh _ IH]; intros vs.
  - exists (opened vs). rewrite set_opened_same. reflexivity.
  - assert (Hstep : exists o, run_handler h p vs = (Ok tt, set_opened o vs)).
    { destruct Hh as [ -> | [ -> | -> ] ]; cbn [run_handler]; unfold settle;
        try (destruct (opened vs) eqn:E; rewrite <- ?E;
             eexists; first [reflexivity | rewrite set_opened_same; reflexivity]). }
    destruct Hstep as [o1 E1]. destruct (IH (set_opened o1 vs)) as [o2 E2].
    exists o2. cbn [run_handlers]. rewrite E1, E2. reflexivity.
Qed.

(** Once the promise has settled its handlers change nothing. *)
Lemma run_promise_handlers_settled (hs : list Handler) (p : Payload) (vs : Vars) :
  Forall promise_handler hs -> opened vs <> Unsettled ->
  run_handlers hs p vs = (Ok tt, vs).
Proof.
  intros H Hs. induction H as [|h hs Hh _ IH]; [reflexivity|].
  assert (Hstep : run_handler h p vs = (Ok tt, vs)).
  { destruct Hh as [ -> | [ -> | -> ] ]; cbn [run_handler]; unfold settle;
      try reflexivity; destruct (opened vs); congruence. }
  cbn [run_handlers]. rewrite Hstep. exact IH.
Qed.

Lemma created_is_promise (cs : list Handler) :
  Forall (eq OnSessionCreated) cs -> Forall promise_handler cs.
Proof. intros H. eapply Forall_impl; [exact H|]. intros h <-. left. reflexivity. Qed.

Lemma reject_is_promise (ce : list Handler) :
  Forall reject_or_log ce -> Forall promise_handler ce.
Proof. intros H. eapply Forall_impl; [exact H|]. intros h Hh. right. exact Hh. Qed.

(** From an unsettled promise the "error" handlers can only reject. *)
Lemma run_reject_or_log (ce : list Handler) (p : Payload) (vs : Vars) :
  Forall reject_or_log ce ->
  opened vs <> Resolved ->
  exists o, run_handlers ce p vs = (Ok tt, set_opened o vs) /\ o <> Resolved.
Proof.
  intros H. revert vs. induction H as [|h hs Hh _ IH]; intros vs Hvs.
  - exists (opened vs). rewrite set_opened_same. split; [reflexivity | exact Hvs].
  - assert (Hstep : exists o, run_handler h p vs = (Ok tt, set_opened o vs) /\ o <> Resolved).
    { destruct Hh as [ -> | -> ]; cbn [run_handler].
      - exists (opened vs). rewrite set_opened_same. split; [reflexivity | exact Hvs].
      - unfold settle. destruct (opened vs) eqn:E.
        + eexists. split; [reflexivity | discriminate].
        + congruence.
        + exists (Rejected e). split; [rewrite <- E, set_opened_same; reflexivity | discriminate]. }
    destruct Hstep as (o1 & E1 & Ho1).
    destruct (IH (set_opened o1 vs) Ho1) as (o2 & E2 & Ho2).
    exists o2. cbn [run_handlers]. rewrite E1, E2. split; [reflexivity | exact Ho2].
Qed.

(** [on] appends to the list of its event and leaves the others alone. *)
Lemma handlers_of_on (event event' : string) (h : Handler) (w : World) :
  handlers_of event' (on event h w) =
  if String.eqb event' event then handlers_of event w ++ [h]
  else handlers_of event' w.
Proof.
  unfold on, handlers_of. cbn [listeners set_listeners].
  destruct (String.eqb_spec event' event) as [ -> | Hne ].
  - rewrite lookup_insert_eq. reflexivity.
  - rewrite lookup_insert_ne by congruence. reflexivity.
Qed.

Lemma handlers_of_listeners (event : string) (w w' : World) :
  listeners w' = listeners w -> handlers_of event w' = handlers_of event w.
Proof. unfold handlers_of. intros ->. reflexivity. Qed.

Lemma connect_registry_open (w : World) :
  connect_registry w -> connect_registry (ga_on_open w).
Proof.
  intros (cs & ce & Hcs & Hce & Hh).
  exists (cs ++ [OnSessionCreated]), (ce ++ [OnNonFatalError]).
  split; [|split].
  - apply Forall_app. split; [exact Hcs | repeat constructor].
  - apply Forall_app. split; [exact Hce | repeat constructor].
  - intros k. unfold ga_on_open.
    assert (Hh' : forall e, handlers_of e (set_socketOpen true w)
                            = connect_handlers cs ce e) by (intros e; apply Hh).
    rewrite !handlers_of_on, !Hh'.
    unfold connect_handlers. by_event; reflexivity.
Qed.

Lemma tts_registry_subscribe (w : World) :
  connect_registry w -> tts_registry (tts_subscribe w).
Proof.
  intros (cs & ce & Hcs & Hce & Hh). exists cs, ce.
  split; [exact Hcs|]. split; [exact Hce|].
  intros k. unfold tts_subscribe. rewrite !handlers_of_on, !Hh.
  unfold connect_handlers, tts_handlers, audio_delta, response_done.
  by_event; reflexivity.
Qed.

(** What the handlers registered for an event type do to the job of a
    synthesis: only "response.done" sets the flag, only an audio delta with a
    payload adds a chunk, and only "error" and a payload-less delta throw. *)
Lemma tts_run (cs ce : list Handler) (k : string) (e : ServerEvent) (vs : Vars) :
  Forall (eq OnSessionCreated) cs -> Forall reject_or_log ce ->
  exists r vs',
    run_handlers (tts_handlers cs ce k) (PEvent e) vs = (r, vs') /\
    connection vs' = connection vs /\
    responseDone vs' = responseDone vs || String.eqb k response_done /\
    audioChunks vs' =
      audioChunks vs ++
      (if String.eqb k audio_delta then
         match ev_delta e with Some delta => [Base64.decode delta] | None => [] end
       else []) /\
    (k <> "error" -> (k = audio_delta -> ev_delta e <> None) -> r = Ok tt).
Proof.
  intros Hcs Hce.
  destruct (run_promise_handlers cs (PEvent e) vs (created_is_promise _ Hcs)) as [o1 E1].
  destruct (run_promise_handlers ce (PEvent e) vs (reject_is_promise _ Hce)) as [o2 E2].
  unfold tts_handlers, audio_delta, response_done.
  by_event.
  - rewrite E1. do 2 eexists. split; [reflexivity|]. cbn.
    rewrite orb_false_r, app_nil_r. auto.
  - rewrite run_handlers_app, E2. do 2 eexists. split; [reflexivity|]. cbn.
    rewrite orb_false_r, app_nil_r. repeat split; congruence.
  - cbn. destruct (ev_delta e) as [delta|]; do 2 eexists; (split; [reflexivity|]); cbn;
      rewrite orb_false_r, ?app_nil_r; repeat split; try congruence.
    intros _ H. exfalso. apply H; reflexivity.
  - do 2 eexists. split; [reflexivity|]. cbn.
    rewrite orb_true_r, app_nil_r. auto.
  - do 2 eexists. split; [reflexivity|]. cbn.
    rewrite orb_false_r, app_nil_r. auto.
  - do 2 eexists. split; [reflexivity|]. cbn.
    rewrite orb_false_r, app_nil_r. auto.
Qed.

(** Dispatch of one quiet message once synthesis has subscribed. *)
Lemma tts_deliver (v : Variant) (e : ServerEvent) (w : World) :
  tts_registry w -> quiet v (SockMessage e) ->
  exists vs',
    deliver v (SockMessage e) w = (None, set_vars vs' w) /\
    connection vs' = connection (vars w) /\
    responseDone vs' = responseDone (vars w) || is_done (SockMessage e) /\
    audioChunks vs' = audioChunks (vars w) ++ chunk_of (SockMessage e).
Proof.
  intros (cs & ce & Hcs & Hce & Hh) Hq.
  destruct (tts_run cs ce (ev_type e) e (vars w) Hcs Hce)
    as (r & vs' & Erun & Hconn & Hdone & Hchunks & Hok).
  exists vs'. split; [|split; [exact Hconn | split; [exact Hdone | exact Hchunks]]].
  destruct v; cbn [deliver].
  - unfold ga_on_message, emit. rewrite Hh, Erun.
    destruct r as [[]|err]; [|reflexivity].
    rewrite (handlers_of_listeners "server.*" w (set_vars vs' w)) by reflexivity.
    rewrite Hh. cbn. reflexivity.
  - cbn in Hq. destruct Hq as [Hne Hpay].
    rewrite (proj2 (String.eqb_neq _ _) Hne).
    unfold sdk_emit, emit. rewrite Hh, Erun, (Hok Hne Hpay). reflexivity.
Qed.

End Registry.

(** ** Waiting for the response *)

Section Waiting.
Import Buf Realtime Trace.

Lemma transport_unchanged_refl (w : World) : transport_unchanged w w.
Proof. repeat split. Qed.

Lemma transport_unchanged_trans (w1 w2 w3 : World) :
  transport_unchanged w1 w2 -> transport_unchanged w2 w3 -> transport_unchanged w1 w3.
Proof.
  unfold transport_unchanged.
  intros (?&?&?&?&?&?&?) (?&?&?&?&?&?&?). repeat split; congruence.
Qed.

Lemma tts_registry_listeners (w w' : World) :
  listeners w' = listeners w -> tts_registry w -> tts_registry w'.
Proof.
  intros Hl (cs & ce & Hcs & Hce & Hh). exists cs, ce.
  split; [exact Hcs|]. split; [exact Hce|].
  intros k. rewrite (handlers_of_listeners k w w' Hl). apply Hh.
Qed.

(** One suspension of the synthesis: a prefix of the script is delivered, its
    completion events set the flag and its audio payloads are appended in
    order; what is left arrives no earlier than [due]. *)
Lemma tts_deliver_until (v : Variant) (due : Z) (arr : list (Z * Occurrence)) :
  forall w,
    arrivals w = arr -> tts_registry w -> quiet_script v arr ->
    exists delivered w',
      deliver_until v (fun _ => false) due arr w = (None, w') /\
      arr = delivered ++ arrivals w' /\
      transport_unchanged w w' /\ timers w' = timers w /\
      responseDone (vars w') = responseDone (vars w) || done_in delivered /\
      audioChunks (vars w') = audioChunks (vars w) ++ chunks_in delivered /\
      now w <= now w' <= Z.max (now w) due /\
      match arrivals w' with [] => True | (t, _) :: _ => due <= t end.
Proof.
  induction arr as [|[t occ] rest IH]; intros w Harr Hreg Hq.
  - exists [], w. cbn. rewrite Harr, orb_false_r, app_nil_r.
    repeat split; try reflexivity; lia.
  - cbn [deliver_until]. destruct (t <? due) eqn:Et.
    + apply Z.ltb_lt in Et.
      inversion Hq as [|? ? Hocc Hrest]; subst.
      destruct occ as [|e|err]; try contradiction.
      set (w1 := set_now (Z.max (now w) t) (set_arrivals rest w)).
      assert (Hreg1 : tts_registry w1) by (apply (tts_registry_listeners w); [reflexivity | exact Hreg]).
      destruct (tts_deliver v e w1 Hreg1 Hocc) as (vs' & Edel & Hconn & Hdone & Hchunks).
      rewrite Edel.
      destruct (IH (set_vars vs' w1)) as (d2 & w' & Erun & Hsplit & Hframe & Htim & Hd2 & Hc2 & Hnow & Hhead).
      { reflexivity. }
      { apply (tts_registry_listeners w1); [reflexivity | exact Hreg1]. }
      { exact Hrest. }
      exists ((t, SockMessage e) :: d2), w'.
      split; [exact Erun|]. split; [cbn; rewrite <- Hsplit; reflexivity|].
      split.
      { apply (transport_unchanged_trans w (set_vars vs' w1) w'); [|exact Hframe].
        repeat split. exact Hconn. }
      split; [rewrite Htim; reflexivity|].
      split.
      { rewrite Hd2. cbn [vars set_vars]. rewrite Hdone. cbn. apply eq_sym, orb_assoc. }
      split.
      { rewrite Hc2. cbn [vars set_vars]. rewrite Hchunks. cbn.
        rewrite <- app_assoc. reflexivity. }
      split; [|exact Hhead].
      cbn in Hnow. lia.
    + apply Z.ltb_ge in Et. exists [], w. cbn. rewrite Harr, orb_false_r, app_nil_r.
      repeat split; try reflexivity; lia.
Qed.

(** One turn of the polling loop takes between [delay] and [delay + margin]. *)
Lemma tts_sleep (v : Variant) (delay margin : Z) (w : World) :
  tts_registry w -> quiet_script v (arrivals w) -> timely margin w -> 0 <= delay ->
  exists delivered w',
    sleep v delay w = (None, w') /\
    arrivals w = delivered ++ arrivals w' /\
    transport_unchanged w w' /\
    responseDone (vars w') = responseDone (vars w) || done_in delivered /\
    audioChunks (vars w') = audioChunks (vars w) ++ chunks_in delivered /\
    now w + delay <= now w' <= now w + delay + margin /\
    fresh w'.
Proof.
  intros Hreg Hq Hlag Hdelay.
  unfold sleep, setTimeout, run_until.
  set (due := now w + delay + lag w (timers w)).
  set (w1 := set_timers (S (timers w)) w).
  destruct (tts_deliver_until v due (arrivals w1) w1)
    as (d & w2 & Erun & Hsplit & Hframe & _ & Hd & Hc & Hnow & Hhead).
  { reflexivity. }
  { apply (tts_registry_listeners w); [reflexivity | exact Hreg]. }
  { exact Hq. }
  rewrite Erun. exists d, (set_now (Z.max (now w2) due) w2).
  specialize (Hlag (timers w)). cbn in Hnow.
  split; [reflexivity|]. split; [exact Hsplit|].
  split; [exact Hframe|]. split; [exact Hd|]. split; [exact Hc|].
  split.
  - cbn. subst due. lia.
  - unfold fresh. cbn. destruct (arrivals w2) as [|[t occ] rest]; [exact I|].
    subst due. lia.
Qed.

(** The polling loop of lines 452-454 ends, given fuel for its at most
    [timeout / 100] turns: either the flag is set, or the deadline has passed
    by less than one turn. *)
Lemma tts_poll (v : Variant) (start timeout margin : Z) :
  forall (fuel : nat) (w : World),
    tts_registry w -> quiet_script v (arrivals w) -> timely margin w ->
    (now w - start < timeout \/ fresh w) ->
    now w < start + timeout + 100 + margin ->
    start + timeout - now w <= 100 * Z.of_nat fuel ->
    exists delivered w',
      poll fuel v (tts_waiting start timeout) 100 w = (Returned tt, w') /\
      arrivals w = delivered ++ arrivals w' /\
      transport_unchanged w w' /\
      responseDone (vars w') = responseDone (vars w) || done_in delivered /\
      audioChunks (vars w') = audioChunks (vars w) ++ chunks_in delivered /\
      now w <= now w' < start + timeout + 100 + margin /\
      (responseDone (vars w') = false -> start + timeout <= now w' /\ fresh w').
Proof.
  induction fuel as [|fuel IH]; intros w Hreg Hq Hlag Hpre Hnow Hfuel.
  - (* no fuel: the deadline has passed, the loop ends at once *)
    exists [], w. cbn [poll]. unfold tts_waiting.
    assert (Hlate : (now w - start <? timeout) = false) by (apply Z.ltb_ge; lia).
    rewrite Hlate, andb_false_r. cbn. rewrite orb_false_r, app_nil_r.
    repeat split; try reflexivity; try lia.
    destruct Hpre as [Hpre|Hpre]; [lia | exact Hpre].
  - cbn [poll]. destruct (tts_waiting start timeout w) eqn:Ewait.
    + unfold tts_waiting in Ewait. apply andb_true_iff in Ewait.
      destruct Ewait as [Hnd Hearly].
      apply negb_true_iff in Hnd. apply Z.ltb_lt in Hearly.
      destruct (tts_sleep v 100 margin w Hreg Hq Hlag)
        as (d1 & w1 & Esleep & Hsplit1 & Hframe1 & Hd1 & Hc1 & Hnow1 & Hfresh1); [lia|].
      rewrite Esleep.
      assert (Hl1 : listeners w1 = listeners w) by apply Hframe1.
      assert (Hlag1 : lag w1 = lag w) by apply Hframe1.
      destruct (IH w1) as (d2 & w' & Epoll & Hsplit2 & Hframe2 & Hd2 & Hc2 & Hnow2 & Hexit).
      { apply (tts_registry_listeners w); assumption. }
      { rewrite Hsplit1 in Hq. apply Forall_app in Hq. apply Hq. }
      { unfold timely. rewrite Hlag1. exact Hlag. }
      { right. exact Hfresh1. }
      { lia. }
      { lia. }
      exists (d1 ++ d2), w'.
      split; [exact Epoll|].
      split; [rewrite Hsplit1, Hsplit2, app_assoc; reflexivity|].
      split; [apply (transport_unchanged_trans w w1 w'); assumption|].
      split.
      { rewrite Hd2, Hd1. unfold done_in. rewrite existsb_app. apply eq_sym, orb_assoc. }
      split.
      { rewrite Hc2, Hc1. unfold chunks_in. rewrite flat_map_app, app_assoc. reflexivity. }
      split; [lia | exact Hexit].
    + exists [], w. cbn. rewrite orb_false_r, app_nil_r.
      split; [reflexivity|]. split; [reflexivity|].
      split; [apply transport_unchanged_refl|].
      split; [reflexivity|]. split; [reflexivity|]. split; [lia|].
      intros Hnd. unfold tts_waiting in Ewait. rewrite Hnd in Ewait. cbn in Ewait.
      apply Z.ltb_ge in Ewait. split; [lia|].
      destruct Hpre as [Hpre|Hpre]; [lia | exact Hpre].
Qed.

End Waiting.

(** ** Opening the session *)

Section Connecting.
Import Buf Realtime Trace.


Lemma job_unchanged_refl (w : World) : job_unchanged w w.
Proof. repeat split. Qed.

Lemma job_unchanged_trans (w1 w2 w3 : World) :
  job_unchanged w1 w2 -> job_unchanged w2 w3 -> job_unchanged w1 w3.
Proof.
  unfold job_unchanged.
  intros (?&?&?&?&?&?&?&?&?) (?&?&?&?&?&?&?&?&?). repeat split; congruence.
Qed.

Lemma connect_registry_listeners (w w' : World) :
  listeners w' = listeners w -> connect_registry w -> connect_registry w'.
Proof.
  intros Hl (cs & ce & Hcs & Hce & Hh). exists cs, ce.
  split; [exact Hcs|]. split; [exact Hce|].
  intros k. rewrite (handlers_of_listeners k w w' Hl). apply Hh.
Qed.

Lemma connect_handlers_promise (cs ce : list Handler) (k : string) :
  Forall (eq OnSessionCreated) cs -> Forall reject_or_log ce ->
  Forall promise_handler (connect_handlers cs ce k).
Proof.
  intros Hcs Hce. unfold connect_handlers.
  destruct (String.eqb k "session.created"); [apply created_is_promise, Hcs|].
  destruct (String.eqb k "error"); [apply reject_is_promise, Hce | constructor].
Qed.

(** While only the promise's handlers are registered, an emit never throws
    and changes nothing but the promise. *)
Lemma connect_emit (k : string) (p : Payload) (w : World) :
  connect_registry w ->
  exists o, emit k p w = (Ok tt, set_vars (set_opened o (vars w)) w) /\
            (k = "error" -> opened (vars w) <> Resolved -> o <> Resolved).
Proof.
  intros (cs & ce & Hcs & Hce & Hh). unfold emit. rewrite Hh.
  destruct (String.eqb_spec k "error") as [ -> | Hne ].
  - change (connect_handlers cs ce "error") with ce.
    destruct (opened (vars w)) eqn:Eo.
    + destruct (run_reject_or_log ce p (vars w) Hce) as (o & E & Ho); [congruence|].
      exists o. rewrite E. split; [reflexivity | auto].
    + destruct (run_promise_handlers ce p (vars w) (reject_is_promise _ Hce)) as [o E].
      exists o. rewrite E. split; [reflexivity | congruence].
    + destruct (run_reject_or_log ce p (vars w) Hce) as (o & E & Ho); [congruence|].
      exists o. rewrite E. split; [reflexivity | auto].
  - destruct (run_promise_handlers (connect_handlers cs ce k) p (vars w)
                (connect_handlers_promise cs ce k Hcs Hce)) as [o E].
    exists o. rewrite E. split; [reflexivity | congruence].
Qed.

(** One occurrence while the promise of [createRealtimeClient] is unsettled. *)
Lemma connect_deliver (v : Variant) (occ : Occurrence) (w : World) :
  connect_registry w -> opened (vars w) = Unsettled ->
  exists w',
    deliver v occ w = (None, w') /\
    connect_registry w' /\ job_unchanged w w' /\
    now w' = now w /\ arrivals w' = arrivals w /\ timers w' = timers w /\
    (closes w' = closes w \/ is_rejected (opened (vars w'))).
Proof.
  intros Hreg Hun.
  destruct v, occ as [|e|err]; cbn [deliver].
  - (* first variant, open *)
    exists (ga_on_open w). split; [reflexivity|].
    split; [apply connect_registry_open, Hreg|].
    repeat split; auto.
  - (* first variant, message *)
    unfold ga_on_message.
    destruct (connect_emit (ev_type e) (PEvent e) w Hreg) as (o1 & E1 & _).
    rewrite E1.
    set (w1 := set_vars (set_opened o1 (vars w)) w).
    assert (Hreg1 : connect_registry w1)
      by (apply (connect_registry_listeners w); [reflexivity | exact Hreg]).
    destruct (connect_emit "server.*" (PEvent e) w1 Hreg1) as (o2 & E2 & _).
    rewrite E2. eexists. split; [reflexivity|].
    split; [apply (connect_registry_listeners w); [reflexivity | exact Hreg]|].
    repeat split; auto.
  - (* first variant, socket error *)
    unfold ga_on_error.
    destruct (connect_emit "error" (PError err) w Hreg) as (o1 & E1 & Ho1).
    rewrite E1.
    assert (Ho : o1 <> Resolved) by (apply Ho1; [reflexivity | congruence]).
    destruct o1 as [| |e1]; [|congruence|];
      (eexists; split; [reflexivity|];
       split; [apply (connect_registry_listeners w); [reflexivity | exact Hreg]|];
       split; [repeat split|];
       split; [reflexivity|]; split; [reflexivity|]; split; [reflexivity|];
       right; eexists; reflexivity).
  - (* second variant, open *)
    exists w. split; [reflexivity|]. split; [exact Hreg|].
    split; [apply job_unchanged_refl|]. auto.
  - (* second variant, message *)
    destruct (String.eqb (ev_type e) "error"); unfold sdk_emit.
    + destruct (connect_emit "error" (PError sdk_error) w Hreg) as (o1 & E1 & _).
      rewrite E1. eexists. split; [reflexivity|].
      split; [apply (connect_registry_listeners w); [reflexivity | exact Hreg]|].
      repeat split; auto.
    + destruct (connect_emit (ev_type e) (PEvent e) w Hreg) as (o1 & E1 & _).
      rewrite E1. eexists. split; [reflexivity|].
      split; [apply (connect_registry_listeners w); [reflexivity | exact Hreg]|].
      repeat split; auto.
  - (* second variant, socket error *)
    unfold sdk_emit.
    destruct (connect_emit "error" (PError err) w Hreg) as (o1 & E1 & _).
    rewrite E1. eexists. split; [reflexivity|].
    split; [apply (connect_registry_listeners w); [reflexivity | exact Hreg]|].
    repeat split; auto.
Qed.

(** The suspension of [createRealtimeClient]: only a rejection can have
    closed the socket meanwhile. *)
Lemma connect_deliver_until (v : Variant) (due : Z) (arr : list (Z * Occurrence)) :
  forall w,
    arrivals w = arr -> connect_registry w ->
    exists w',
      deliver_until v (fun w => is_settled (vars w)) due arr w = (None, w') /\
      connect_registry w' /\ job_unchanged w w' /\
      now w <= now w' /\ timers w' = timers w /\
      (exists delivered, arr = delivered ++ arrivals w') /\
      (closes w' = closes w \/ is_rejected (opened (vars w'))).
Proof.
  induction arr as [|[t occ] rest IH]; intros w Harr Hreg.
  - exists w. cbn. split; [reflexivity|]. split; [exact Hreg|].
    split; [apply job_unchanged_refl|]. split; [lia|]. split; [reflexivity|].
    split; [exists []; rewrite Harr; reflexivity | left; reflexivity].
  - cbn [deliver_until]. unfold is_settled at 1.
    destruct (opened (vars w)) eqn:Eo;
      try (exists w; split; [reflexivity|]; split; [exact Hreg|];
           split; [apply job_unchanged_refl|]; split; [lia|]; split; [reflexivity|];
           split; [exists []; rewrite Harr; reflexivity | left; reflexivity]).
    destruct (t <? due).
    + set (w1 := set_now (Z.max (now w) t) (set_arrivals rest w)).
      destruct (connect_deliver v occ w1) as (w2 & Edel & Hreg2 & Hjob2 & Hnow2 & Harr2 & Htim2 & Hcl2).
      { apply (connect_registry_listeners w); [reflexivity | exact Hreg]. }
      { exact Eo. }
      rewrite Edel.
      destruct (IH w2 Harr2 Hreg2) as (w' & Erun & Hreg' & Hjob' & Hnow' & Htim' & [d Hd] & Hcl').
      exists w'. split; [exact Erun|]. split; [exact Hreg'|].
      split; [apply (job_unchanged_trans w w2 w'); [apply Hjob2 | exact Hjob']|].
      split; [cbn in Hnow2; lia|]. split; [rewrite Htim', Htim2; reflexivity|].
      split; [exists ((t, occ) :: d); cbn; rewrite <- Hd; reflexivity|].
      destruct Hcl' as [Hc|Hr]; [|right; exact Hr].
      destruct Hcl2 as [Hc2|Hr2].
      * left. rewrite Hc, Hc2. reflexivity.
      * (* rejected already: the suspension ended at once *)
        destruct Hr2 as [e2 He2].
        destruct rest as [|[t' occ'] rest']; cbn [deliver_until] in Erun.
        -- injection Erun as <-. right. exists e2. exact He2.
        -- unfold is_settled in Erun. rewrite He2 in Erun. injection Erun as <-.
           right. exists e2. exact He2.
    + exists w. split; [reflexivity|]. split; [exact Hreg|].
      split; [apply job_unchanged_refl|]. split; [lia|]. split; [reflexivity|].
      split; [exists []; rewrite Harr; reflexivity | left; reflexivity].
Qed.

(** An "error" of the socket after the promise has settled: the listener
    of lines 202-206 closes once more, and nothing else changes. *)
Lemma ga_on_error_settled (err : JsError) (w : World) :
  connect_registry w -> opened (vars w) <> Unsettled ->
  ga_on_error err w = (None, close w).
Proof.
  intros (cs & ce & Hcs & Hce & Hh) Hs. unfold ga_on_error, emit. rewrite Hh.
  change (connect_handlers cs ce "error") with ce.
  rewrite (run_promise_handlers_settled ce _ _ (reject_is_promise _ Hce) Hs).
  rewrite set_vars_same. f_equal.
  unfold settle. change (vars (close w)) with (vars w).
  destruct (opened (vars w)); [congruence| |]; exact (set_vars_same (close w)).
Qed.

(** The number of [close()] calls that the timer callback makes. *)
Lemma on_connect_timeout_rejects (v : Variant) (w : World) :
  connect_registry w -> opened (vars w) = Unsettled ->
  on_connect_timeout v w =
    (None,
     set_closes (match v with
                 | GA => if socketOpen w then S (closes w) else S (S (closes w))
                 | Preview => closes w
                 end)
       (set_vars (set_opened (Rejected (connect_timeout v)) (vars w)) w)).
Proof.
  intros Hreg Hun. unfold on_connect_timeout, settle. rewrite Hun.
  destruct v.
  - destruct (socketOpen w) eqn:Eopen.
    + destruct w; reflexivity.
    + rewrite ga_on_error_settled.
      * destruct w; reflexivity.
      * apply (connect_registry_listeners w); [reflexivity | exact Hreg].
      * cbn. discriminate.
  - destruct w; reflexivity.
Qed.

Lemma await_session_ready (v v' : Variant) (w w1 : World) :
  connect_registry w ->
  await_session v w = (Returned v', w1) ->
  v' = v /\ connect_registry w1 /\ job_unchanged w w1 /\
  closes w1 = closes w /\ now w <= now w1 /\
  exists delivered, arrivals w = delivered ++ arrivals w1.
Proof.
  intros Hreg. unfold await_session, setTimeout, run_until.
  set (due := now w + 10000 + lag w (timers w)).
  set (w0 := set_timers (S (timers w)) w).
  destruct (connect_deliver_until v due (arrivals w0) w0)
    as (w2 & Erun & Hreg2 & Hjob & Hnow & _ & Hd & Hcl).
  { reflexivity. }
  { apply (connect_registry_listeners w); [reflexivity | exact Hreg]. }
  rewrite Erun. destruct (opened (vars w2)) eqn:Eo; intros H; try discriminate H;
    try (destruct (on_connect_timeout _ _) as [[e0|] w3]; discriminate H).
  injection H as <- <-.
  split; [reflexivity|]. split; [exact Hreg2|]. split; [exact Hjob|].
  split; [|split; [exact Hnow | exact Hd]].
  destruct Hcl as [Hc|[e He]]; [exact Hc | congruence].
Qed.

Lemma new_client_registry (w : World) : connect_registry (new_client w).
Proof.
  exists [], []. split; [constructor|]. split; [constructor|].
  intros k. unfold handlers_of, new_client. cbn. rewrite lookup_empty. cbn.
  unfold connect_handlers. destruct (String.eqb k "session.created"); [reflexivity|].
  destruct (String.eqb k "error"); reflexivity.
Qed.

Lemma preview_client_registry (w : World) :
  connect_registry
    (on "session.created" OnSessionCreated (on "error" OnErrorReject (new_client w))).
Proof.
  destruct (new_client_registry w) as (cs & ce & Hcs & Hce & Hh).
  exists (cs ++ [OnSessionCreated]), (ce ++ [OnErrorReject]).
  split; [apply Forall_app; split; [exact Hcs | repeat constructor]|].
  split; [apply Forall_app; split; [exact Hce | repeat constructor; right; reflexivity]|].
  intros k. rewrite !handlers_of_on, !Hh. unfold connect_handlers.
  by_event; reflexivity.
Qed.

(** What a session that opened leaves behind. *)
Lemma connect_ready (config : Env) (w w1 : World) (v : Variant) :
  createRealtimeClient config w = (Returned v, w1) ->
  connect_registry w1 /\
  lag w1 = lag w /\ sockets w1 = S (sockets w) /\ closes w1 = closes w /\
  sent w1 = sent w /\ audioChars w1 = audioChars w /\
  connection (vars w1) = connection (vars w) /\
  audioChunks (vars w1) = audioChunks (vars w) /\
  responseDone (vars w1) = responseDone (vars w) /\
  transcriptText (vars w1) = transcriptText (vars w) /\
  sessionConfigured (vars w1) = sessionConfigured (vars w) /\
  now w <= now w1 /\
  exists delivered, arrivals w = delivered ++ arrivals w1.
Proof.
  unfold createRealtimeClient, bind, lift.
  destruct (getRealtimeConfig config) as [cfg|e]; [|discriminate].
  cbn [ret]. destruct (isGAModel (deployment cfg)); unfold modify; intros H.
  - apply await_session_ready in H; [|apply new_client_registry].
    destruct H as (_ & Hreg & Hjob & Hcl & Hnow & Hd).
    destruct Hjob as (?&?&?&?&?&?&?&?&?). repeat split; auto.
  - apply await_session_ready in H; [|apply preview_client_registry].
    destruct H as (_ & Hreg & Hjob & Hcl & Hnow & Hd).
    destruct Hjob as (?&?&?&?&?&?&?&?&?). repeat split; auto.
Qed.

End Connecting.

(** ** Opening a session that is never created *)

Section OpenTimeout.
Import Buf Realtime Trace Script.


Lemma connect_emit_unrelated (k : string) (p : Payload) (w : World) :
  connect_registry w -> k <> "session.created" -> k <> "error" ->
  emit k p w = (Ok tt, w).
Proof.
  intros (cs & ce & _ & _ & Hh) H1 H2. unfold emit. rewrite Hh.
  unfold connect_handlers.
  rewrite (proj2 (String.eqb_neq _ _) H1), (proj2 (String.eqb_neq _ _) H2).
  cbn. rewrite set_vars_same. reflexivity.
Qed.

Lemma connect_deliver_unrelated (v : Variant) (occ : Occurrence) (w : World) :
  connect_registry w -> unrelated occ ->
  exists w',
    deliver v occ w = (None, w') /\ connect_registry w' /\
    vars w' = vars w /\ now w' = now w /\ arrivals w' = arrivals w /\
    timers w' = timers w /\ lag w' = lag w /\
    closes w' = closes w /\ sockets w' = sockets w /\ sent w' = sent w.
Proof.
  intros Hreg Hocc. destruct occ as [|e|err]; [| |contradiction].
  - destruct v; cbn [deliver].
    + exists (ga_on_open w). split; [reflexivity|].
      split; [apply connect_registry_open, Hreg|]. repeat split.
    + exists w. split; [reflexivity|]. split; [exact Hreg|]. repeat split.
  - destruct Hocc as [H1 H2]. exists w.
    split; [|split; [exact Hreg | repeat split]].
    destruct v; cbn [deliver].
    + unfold ga_on_message.
      rewrite (connect_emit_unrelated _ _ _ Hreg H1 H2).
      rewrite (connect_emit_unrelated "server.*" _ _ Hreg) by discriminate.
      reflexivity.
    + rewrite (proj2 (String.eqb_neq _ _) H2). unfold sdk_emit.
      rewrite (connect_emit_unrelated _ _ _ Hreg H1 H2). reflexivity.
Qed.

(** Occurrences that neither create the session nor report an error leave
    the promise unsettled and the transport as it is. *)
Lemma connect_stays_unsettled (v : Variant) (due : Z) (arr : list (Z * Occurrence)) :
  forall w,
    arrivals w = arr -> connect_registry w -> Forall (fun p => unrelated (snd p)) arr ->
    opened (vars w) = Unsettled ->
    exists w',
      deliver_until v (fun w => is_settled (vars w)) due arr w = (None, w') /\
      vars w' = vars w /\ now w <= now w' <= Z.max (now w) due /\
      lag w' = lag w /\ closes w' = closes w /\ sockets w' = sockets w /\
      sent w' = sent w /\ connect_registry w'.
Proof.
  induction arr as [|[t occ] rest IH]; intros w Harr Hreg Hocc Hun.
  - exists w. cbn. repeat split; try lia. exact Hreg.
  - cbn [deliver_until]. unfold is_settled at 1. rewrite Hun.
    destruct (t <? due) eqn:Et.
    + apply Z.ltb_lt in Et. inversion Hocc as [|? ? Ho Hrest]; subst.
      set (w1 := set_now (Z.max (now w) t) (set_arrivals rest w)).
      destruct (connect_deliver_unrelated v occ w1)
        as (w2 & Edel & Hreg2 & Hv & Hnow & Harr2 & _ & Hlag & Hcl & Hsock & Hsent).
      { apply (connect_registry_listeners w); [reflexivity | exact Hreg]. }
      { exact Ho. }
      rewrite Edel.
      destruct (IH w2 Harr2 Hreg2 Hrest)
        as (w' & Erun & Hv' & Hnow' & Hlag' & Hcl' & Hsock' & Hsent' & Hreg').
      { rewrite Hv. exact Hun. }
      exists w'. split; [exact Erun|].
      split; [rewrite Hv', Hv; reflexivity|].
      split; [rewrite Hnow in Hnow'; cbn in Hnow'; lia|].
      split; [rewrite Hlag', Hlag; reflexivity|].
      split; [rewrite Hcl', Hcl; reflexivity|].
      split; [rewrite Hsock', Hsock; reflexivity|].
      split; [rewrite Hsent', Hsent; reflexivity | exact Hreg'].
    + exists w. repeat split; try lia. exact Hreg.
Qed.


(** C5: with both credentials configured, a script that never delivers
    "session.created" (and reports no error) makes the open fail with the
    connection-timeout error when its 10 s timer fires, without ever
    resolving; the first variant closes the transport it created (once when
    the socket had opened, and once more through the error that the close of
    a socket still connecting raises), the second one does not. *)
Theorem open_times_out (config : Env) (cfg : RealtimeConfig) (w : World) :
  getRealtimeConfig config = Ok cfg ->
  Forall (fun p => unrelated (snd p)) (arrivals w) ->
  0 <= lag w (timers w) ->
  exists w',
    createRealtimeClient config w = (Thrown (connect_timeout (variant_of cfg)), w') /\
    now w' = now w + 10000 + lag w (timers w) /\
    opened (vars w') = Rejected (connect_timeout (variant_of cfg)) /\
    sockets w' = S (sockets w) /\
    closes w' = match variant_of cfg with
                | GA => if socketOpen w' then S (closes w) else S (S (closes w))
                | Preview => closes w
                end.
Proof.
  intros Hcfg Hscript Hlag.
  unfold createRealtimeClient, bind, lift. rewrite Hcfg. cbn [ret].
  unfold variant_of. destruct (isGAModel (deployment cfg)); unfold modify.
  - unfold await_session, setTimeout, run_until.
    set (w0 := set_timers _ (new_client w)).
    set (due := now (new_client w) + 10000 + _).
    destruct (connect_stays_unsettled GA due (arrivals w0) w0)
      as (w2 & Erun & Hv & Hnow & Hl & Hcl & Hsock & _ & Hreg2).
    { reflexivity. }
    { apply (connect_registry_listeners (new_client w)); [reflexivity|].
      apply new_client_registry. }
    { exact Hscript. }
    { reflexivity. }
    rewrite Erun, Hv. cbn [opened vars w0 set_timers new_client set_vars set_opened].
    rewrite on_connect_timeout_rejects.
    + eexists. split; [reflexivity|]. cbn in Hnow |- *.
      rewrite Hcl, Hsock. cbn. subst due. cbn in *.
      repeat split; lia.
    + apply (connect_registry_listeners w2); [reflexivity | exact Hreg2].
    + cbn. rewrite Hv. reflexivity.
  - unfold await_session, setTimeout, run_until.
    set (wp := on "session.created" OnSessionCreated (on "error" OnErrorReject (new_client w))).
    set (w0 := set_timers _ wp).
    set (due := now wp + 10000 + _).
    destruct (connect_stays_unsettled Preview due (arrivals w0) w0)
      as (w2 & Erun & Hv & Hnow & Hl & Hcl & Hsock & _).
    { reflexivity. }
    { apply (connect_registry_listeners wp); [reflexivity|].
      apply preview_client_registry. }
    { exact Hscript. }
    { reflexivity. }
    rewrite Erun, Hv. cbn [opened vars w0 wp on set_listeners set_timers new_client set_vars set_opened].
    eexists. split; [reflexivity|]. cbn in Hnow |- *.
    rewrite Hv, Hcl, Hsock. cbn. subst due. cbn in *. repeat split; try lia.
Qed.

Lemma open_times_out_witness :
  exists w',
    createRealtimeClient preview_config (scripted punctual never_created) =
      (Thrown (Error "WebSocket connection timeout"), w') /\
    now w' = 0 + 10000 + 0 /\
    opened (vars w') = Rejected (Error "WebSocket connection timeout") /\
    sockets w' = 1%nat /\
    closes w' = 0%nat.
Proof.
  apply (open_times_out preview_config preview_settings (scripted punctual never_created)).
  - reflexivity.
  - unfold never_created. repeat constructor; discriminate.
  - reflexivity.
Defined.

Example ga_config_is_GA :
  (cfg ← getRealtimeConfig ga_config; mret (isGAModel (deployment cfg))) = Ok true.
Proof. reflexivity. Qed.

Example preview_config_is_Preview :
  (cfg ← getRealtimeConfig preview_config; mret (isGAModel (deployment cfg))) = Ok false.
Proof. reflexivity. Qed.

(** The two variants side by side on the script that opens the socket and
    never creates the session; the caller of the second variant does not
    close the transport either, since its [connection] is still [null]. *)
Example open_timeout_by_variant :
  fst (createRealtimeClient ga_config (scripted punctual never_created))
    = Thrown (Error "WebSocket connection timeout - did not receive session.created") /\
  closes (snd (createRealtimeClient ga_config (scripted punctual never_created))) = 1%nat /\
  fst (createRealtimeClient preview_config (scripted punctual never_created))
    = Thrown (Error "WebSocket connection timeout") /\
  closes (snd (createRealtimeClient preview_config (scripted punctual never_created))) = 0%nat /\
  fst (synthesizeSpeechRealtime 300 preview_config (Some "hello") None None
         (scripted punctual never_created))
    = Thrown (Error "Speech synthesis failed: WebSocket connection timeout") /\
  sockets (snd (synthesizeSpeechRealtime 300 preview_config (Some "hello") None None
                  (scripted punctual never_created))) = 1%nat /\
  closes (snd (synthesizeSpeechRealtime 300 preview_config (Some "hello") None None
                 (scripted punctual never_created))) = 0%nat.
Proof. vm_compute. repeat split; reflexivity. Qed.

End OpenTimeout.

(** ** The synthesis run once the session is open *)

Section Synthesis.
Import Buf Realtime Trace.


(** The whole run of a synthesis whose session has opened, in terms of the
    prefix of the script that the polling loop delivered. *)
Lemma synthesis_run (fuel : nat) (config : Env) (text : string)
    (voiceName voiceGender : option string) (margin : Z)
    (w w1 : World) (v : Variant) :
  text <> "" -> (300 <= fuel)%nat -> timely margin w ->
  createRealtimeClient config (tts_begin text w) = (Returned v, w1) ->
  quiet_script v (arrivals w1) ->
  exists delivered w2,
    arrivals w1 = delivered ++ arrivals w2 /\
    sockets w2 = S (sockets w) /\ closes w2 = closes w /\
    sent w2 = sent w ++ [ConversationItemCreate text; ResponseCreate] /\
    audioChars w2 = audioChars w ++ [String.length text] /\
    now w1 <= now w2 < now w1 + 30000 + 100 + margin /\
    (done_in delivered = false -> now w1 + 30000 <= now w2 /\ fresh w2) /\
    synthesizeSpeechRealtime fuel config (Some text) voiceName voiceGender w =
      ((if done_in delivered then framed (concat (chunks_in delivered))
        else Thrown (Error timeout_message)),
       close w2).
Proof.
  intros Htext Hfuel Hlag Hconn Hq.
  destruct (connect_ready _ _ _ _ Hconn)
    as (Hreg & Hlag1 & Hsock & Hcl & Hsent & Hchars & Hc & Hchunks & Hdone & _ & _ & Hnow & _).
  set (w1' := tts_request text (tts_subscribe (connected v w1))).
  assert (Hreg' : tts_registry w1').
  { apply (tts_registry_listeners (tts_subscribe (connected v w1))); [reflexivity|].
    apply tts_registry_subscribe.
    apply (connect_registry_listeners w1); [reflexivity | exact Hreg]. }
  destruct (tts_poll v (now w1) 30000 margin fuel w1')
    as (d & w2 & Epoll & Hsplit & Hframe & Hd & Hch & Hnow2 & Hexit).
  { exact Hreg'. }
  { exact Hq. }
  { unfold timely. change (lag w1') with (lag w1). rewrite Hlag1. exact Hlag. }
  { left. change (now w1') with (now w1). lia. }
  { change (now w1') with (now w1). specialize (Hlag 0%nat). lia. }
  { change (now w1') with (now w1). lia. }
  exists d, w2.
  destruct Hframe as (_ & Hsock2 & Hcl2 & Hsent2 & _ & Hchars2 & Hconn2).
  split; [exact Hsplit|].
  split; [rewrite Hsock2; exact Hsock|].
  split; [rewrite Hcl2; exact Hcl|].
  split; [rewrite Hsent2; cbn; rewrite Hsent; cbn; rewrite <- app_assoc; reflexivity|].
  split; [rewrite Hchars2; cbn; rewrite Hchars; reflexivity|].
  split; [exact Hnow2|].
  change (responseDone (vars w1')) with (responseDone (vars w1)) in Hd.
  change (audioChunks (vars w1')) with (audioChunks (vars w1)) in Hch.
  rewrite Hdone in Hd. rewrite Hchunks in Hch. cbn in Hd, Hch.
  split.
  { intros Hnd. apply Hexit. rewrite Hd. exact Hnd. }
  unfold synthesizeSpeechRealtime, synthesize_with.
  assert (Hf : falsy (Some text) = false) by (apply String.eqb_neq; exact Htext).
  rewrite Hf. cbn [default].
  unfold try_catch_finally, bind, modify, configureRealtimeSession, read, ret.
  cbv beta. unfold id. rewrite Hconn. cbv beta iota zeta.
  fold w1'. change (now w1') with (now w1). rewrite Epoll. cbv beta iota.
  unfold tts_result, bind, read. rewrite Hd.
  assert (Hclose : close_if_connected w2 = close w2).
  { unfold close_if_connected. rewrite Hconn2. reflexivity. }
  destruct (done_in d); cbn [negb].
  - rewrite Hch. unfold framed, lift, concat.
    destruct (Wav.createWavHeader _ 24000 1 16) as [h|e]; unfold ret, throw; rewrite Hclose.
    + cbn [List.concat]. rewrite app_nil_r. reflexivity.
    + reflexivity.
  - unfold throw. rewrite Hclose. reflexivity.
Qed.

Lemma done_in_app (l1 l2 : list (Z * Occurrence)) :
  done_in (l1 ++ l2) = done_in l1 || done_in l2.
Proof. apply existsb_app. Qed.

(** If the completion event and everything scripted before it arrive before
    the deadline, the wait ends with a completion event delivered. *)
Lemma completion_is_delivered (deadline t : Z) (occ : Occurrence)
    (pre post delivered : list (Z * Occurrence)) (w2 : World) :
  pre ++ (t, occ) :: post = delivered ++ arrivals w2 ->
  is_done occ = true ->
  Forall (fun p => fst p < deadline) (pre ++ [(t, occ)]) ->
  (done_in delivered = false -> deadline <= now w2 /\ fresh w2) ->
  done_in delivered = true.
Proof.
  intros Hsplit Hocc Hearly Hexit.
  destruct (done_in delivered) eqn:E; [reflexivity|]. exfalso.
  destruct (Hexit eq_refl) as [Hlate Hfresh]. unfold fresh in Hfresh.
  apply Forall_app in Hearly. destruct Hearly as [Hpre Hlast].
  inversion Hlast as [|? ? Ht _]; subst. cbn in Ht.
  apply app_eq_inv in Hsplit.
  destruct Hsplit as [(k & Hp & Hr)|(k & Hd & Hr)].
  - (* [delivered] stops inside [pre] *)
    destruct k as [|[t' occ'] k].
    + cbn in Hr. rewrite Hr in Hfresh. lia.
    + rewrite Hr in Hfresh. cbn in Hfresh.
      rewrite Hp in Hpre. apply Forall_app in Hpre. destruct Hpre as [_ Hk].
      inversion Hk as [|? ? Ht' _]; subst. cbn in Ht'. lia.
  - (* [delivered] covers [pre] *)
    destruct k as [|p k].
    + cbn in Hr. rewrite <- Hr in Hfresh. lia.
    + injection Hr as <- _. rewrite Hd, done_in_app in E. cbn in E.
      rewrite Hocc in E. cbn in E. rewrite orb_true_r in E. discriminate E.
Qed.

End Synthesis.

(** ** Synthesis: timeout, completion with audio, completion without *)

Section SynthesisClaims.
Import Buf Wav Realtime Trace Script.

Lemma chunks_in_no_audio (l : list (Z * Occurrence)) :
  Forall (fun p => is_audio (snd p) = false) l -> chunks_in l = [].
Proof.
  unfold chunks_in. induction 1 as [|[t occ] l Hocc _ IH]; [reflexivity|].
  cbn [flat_map snd]. rewrite IH, app_nil_r.
  destruct occ as [|e|err]; try reflexivity.
  cbn in *. rewrite Hocc. reflexivity.
Qed.

(** C6 as stated fails. On a script that opens the socket and never
    creates the session, no completion event is delivered and the synthesis
    fails after 10 s with the connection timeout, not after 30 s with the
    synthesis timeout. On a script of the second variant that creates the
    session and then sends an error event, the exception of the listener of
    lines 405-408 leaves the emitter: nothing is thrown to the caller and
    nothing is closed. *)
Lemma synthesis_timeout_not_on_every_script :
  done_in never_created = false /\
  fst (synthesizeSpeechRealtime 300 ga_config (Some "hello") None None
         (scripted punctual never_created))
    = Thrown (Error ("Speech synthesis failed: " +:+
                     "WebSocket connection timeout - did not receive session.created")) /\
  now (snd (synthesizeSpeechRealtime 300 ga_config (Some "hello") None None
              (scripted punctual never_created))) = 10000 /\
  done_in (handshake ++ [(100, event "error")]) = false /\
  fst (synthesizeSpeechRealtime 300 preview_config (Some "hello") None None
         (scripted punctual (handshake ++ [(100, event "error")])))
    = Crashed sdk_error /\
  closes (snd (synthesizeSpeechRealtime 300 preview_config (Some "hello") None None
                 (scripted punctual (handshake ++ [(100, event "error")])))) = 0%nat.
Proof. vm_compute. repeat split; reflexivity. Qed.

(** C6 (as amended): once the session is open, on a script of server
    messages (under the second variant none of them an error event or an
    audio delta without payload) in which no completion event is delivered,
    the synthesis fails with the timeout error, no earlier than 30 s after
    the wait began and less than one polling interval (100 ms plus the
    lateness of a timer) after that, and the session is closed once. *)
Theorem synthesis_times_out (fuel : nat) (config : Env) (text : string)
    (voiceName voiceGender : option string) (margin : Z)
    (w w1 : World) (v : Variant) :
  text <> "" -> (300 <= fuel)%nat -> timely margin w ->
  createRealtimeClient config (tts_begin text w) = (Returned v, w1) ->
  quiet_script v (arrivals w1) ->
  done_in (arrivals w1) = false ->
  exists w',
    synthesizeSpeechRealtime fuel config (Some text) voiceName voiceGender w =
      (Thrown (Error "Speech synthesis failed: Synthesis timeout - no response received"),
       w') /\
    now w1 + 30000 <= now w' < now w1 + 30000 + 100 + margin /\
    closes w' = S (closes w) /\ sockets w' = S (sockets w).
Proof.
  intros Htext Hfuel Hlag Hconn Hq Hnd.
  destruct (synthesis_run fuel config text voiceName voiceGender margin w w1 v
              Htext Hfuel Hlag Hconn Hq)
    as (d & w2 & Hsplit & Hsock & Hcl & _ & _ & Hnow & Hexit & Hrun).
  rewrite Hsplit, done_in_app in Hnd. apply orb_false_iff in Hnd.
  destruct Hnd as [Hd _]. rewrite Hd in Hrun.
  exists (close w2). split; [exact Hrun|].
  destruct (Hexit Hd) as [Hlate _]. cbn.
  split; [lia|]. split; [rewrite Hcl; reflexivity | exact Hsock].
Qed.

Lemma synthesis_times_out_witness :
  exists w',
    synthesizeSpeechRealtime 300 ga_config (Some "hello") (Some "nova") None
        (scripted punctual never_done) =
      (Thrown (Error "Speech synthesis failed: Synthesis timeout - no response received"),
       w') /\
    now (ready ga_config never_done) + 30000 <= now w'
      < now (ready ga_config never_done) + 30000 + 100 + 0 /\
    closes w' = S (closes (scripted punctual never_done)) /\
    sockets w' = S (sockets (scripted punctual never_done)).
Proof.
  apply (synthesis_times_out 300 ga_config "hello" (Some "nova") None 0
           (scripted punctual never_done) (ready ga_config never_done) GA).
  - discriminate.
  - lia.
  - intros k. unfold scripted, punctual. cbn. lia.
  - vm_compute. reflexivity.
  - vm_compute. repeat constructor.
  - vm_compute. reflexivity.
Defined.

Lemma framed_small (pcm : Buffer) :
  36 + Z.of_nat (length pcm) < 2 ^ 32 ->
  framed pcm = Returned (canonical_header (Z.of_nat (length pcm)) 24000 1 16 ++ pcm).
Proof.
  intros Hlen. unfold framed. rewrite createWavHeader_layout; [reflexivity|].
  unfold fields_fit. repeat split; try lia; vm_compute; first [reflexivity | discriminate].
Qed.

(** C2: once the session is open, a script of three audio deltas carrying
    the base64 encodings of chunks of 100, 200 and 50 bytes, followed by the
    completion event, all arriving before the 30 s deadline, makes the
    synthesis return the 44-byte header followed by the three chunks in
    delivery order: 350 PCM bytes, and the session is closed once. *)
Theorem three_chunks_concatenated (fuel : nat) (config : Env) (text : string)
    (voiceName voiceGender : option string) (margin : Z)
    (w w1 : World) (v : Variant) (c1 c2 c3 : Buffer) (t1 t2 t3 t4 : Z) :
  text <> "" -> (300 <= fuel)%nat -> timely margin w ->
  createRealtimeClient config (tts_begin text w) = (Returned v, w1) ->
  arrivals w1 = [(t1, audio c1); (t2, audio c2); (t3, audio c3); (t4, done)] ->
  length c1 = 100%nat -> length c2 = 200%nat -> length c3 = 50%nat ->
  t1 < now w1 + 30000 -> t2 < now w1 + 30000 ->
  t3 < now w1 + 30000 -> t4 < now w1 + 30000 ->
  exists w',
    synthesizeSpeechRealtime fuel config (Some text) voiceName voiceGender w =
      (Returned (canonical_header 350 24000 1 16 ++ c1 ++ c2 ++ c3), w') /\
    length (canonical_header 350 24000 1 16) = 44%nat /\
    length (c1 ++ c2 ++ c3) = 350%nat /\
    closes w' = S (closes w) /\ sockets w' = S (sockets w) /\ arrivals w' = [].
Proof.
  intros Htext Hfuel Hlag Hconn Harr H1 H2 H3 Ht1 Ht2 Ht3 Ht4.
  assert (Hq : quiet_script v (arrivals w1)).
  { rewrite Harr. unfold quiet_script.
    repeat constructor; destruct v; cbn; auto; split; discriminate. }
  destruct (synthesis_run fuel config text voiceName voiceGender margin w w1 v
              Htext Hfuel Hlag Hconn Hq)
    as (d & w2 & Hsplit & Hsock & Hcl & _ & _ & _ & Hexit & Hrun).
  assert (Hdone : done_in d = true).
  { apply (completion_is_delivered (now w1 + 30000) t4 done
             [(t1, audio c1); (t2, audio c2); (t3, audio c3)] [] d w2).
    - rewrite <- Hsplit. rewrite Harr. reflexivity.
    - reflexivity.
    - repeat constructor; cbn; assumption.
    - exact Hexit. }
  rewrite Harr in Hsplit.
  assert (Hall : d = [(t1, audio c1); (t2, audio c2); (t3, audio c3); (t4, done)]
                 /\ arrivals w2 = []).
  { destruct d as [|p1 d]; [exfalso; cbn in Hdone; discriminate Hdone|].
    injection Hsplit as <- Hsplit.
    destruct d as [|p2 d]; [exfalso; cbn in Hdone; discriminate Hdone|].
    injection Hsplit as <- Hsplit.
    destruct d as [|p3 d]; [exfalso; cbn in Hdone; discriminate Hdone|].
    injection Hsplit as <- Hsplit.
    destruct d as [|p4 d]; [exfalso; cbn in Hdone; discriminate Hdone|].
    injection Hsplit as <- Hsplit.
    destruct d as [|p5 d]; [|discriminate Hsplit].
    split; [reflexivity | symmetry; exact Hsplit]. }
  destruct Hall as [-> Hrest].
  rewrite Hdone in Hrun.
  assert (Hpcm : concat (chunks_in [(t1, audio c1); (t2, audio c2); (t3, audio c3); (t4, done)])
                 = c1 ++ c2 ++ c3).
  { cbn. rewrite !decode_encode, !app_nil_r. reflexivity. }
  assert (Hlen : length (c1 ++ c2 ++ c3) = 350%nat).
  { rewrite !length_app, H1, H2, H3. reflexivity. }
  rewrite Hpcm, framed_small in Hrun by (rewrite Hlen; reflexivity).
  rewrite Hlen in Hrun.
  exists (close w2). split; [exact Hrun|]. split; [reflexivity|]. split; [exact Hlen|].
  cbn. split; [rewrite Hcl; reflexivity|]. split; [exact Hsock | exact Hrest].
Qed.

Lemma three_chunks_concatenated_witness :
  exists w',
    synthesizeSpeechRealtime 300 ga_config (Some "hello") None (Some "Female")
        (scripted punctual three_chunks) =
      (Returned (canonical_header 350 24000 1 16 ++ chunk100 ++ chunk200 ++ chunk50), w') /\
    length (canonical_header 350 24000 1 16) = 44%nat /\
    length (chunk100 ++ chunk200 ++ chunk50) = 350%nat /\
    closes w' = S (closes (scripted punctual three_chunks)) /\
    sockets w' = S (sockets (scripted punctual three_chunks)) /\ arrivals w' = [].
Proof.
  apply (three_chunks_concatenated 300 ga_config "hello" None (Some "Female") 0
           (scripted punctual three_chunks) (ready ga_config three_chunks) GA
           chunk100 chunk200 chunk50 300 450 700 900).
  - discriminate.
  - lia.
  - intros k. unfold scripted, punctual. cbn. lia.
  - vm_compute. reflexivity.
  - vm_compute. reflexivity.
  - reflexivity.
  - reflexivity.
  - reflexivity.
  - vm_compute. reflexivity.
  - vm_compute. reflexivity.
  - vm_compute. reflexivity.
  - vm_compute. reflexivity.
Defined.

(** C10 as stated fails on three scripts that deliver a completion event
    and no audio delta. Under the second variant an error event before the
    completion leaves the listener of lines 405-408 as an exception and the
    run ends there; a completion that arrives while the session is never
    created ends in the connection timeout; and a completion that arrives
    after the 30 s deadline is too late. *)
Lemma completion_without_audio_not_on_every_script :
  fst (synthesizeSpeechRealtime 300 preview_config (Some "hello") None None
         (scripted punctual (handshake ++ [(100, event "error"); (300, done)])))
    = Crashed sdk_error /\
  fst (synthesizeSpeechRealtime 300 ga_config (Some "hello") None None
         (scripted punctual [(5, SockOpen); (100, done)]))
    = Thrown (Error ("Speech synthesis failed: " +:+
                     "WebSocket connection timeout - did not receive session.created")) /\
  fst (synthesizeSpeechRealtime 400 ga_config (Some "hello") None None
         (scripted punctual (handshake ++ [(30200, done)])))
    = Thrown (Error timeout_message) /\
  Forall (fun script =>
            done_in script = true /\
            Forall (fun p => is_audio (snd p) = false) script)
         [ handshake ++ [(100, event "error"); (300, done)];
           [(5, SockOpen); (100, done)];
           handshake ++ [(30200, done)] ].
Proof.
  split; [vm_compute; reflexivity|]. split; [vm_compute; reflexivity|].
  split; [vm_compute; reflexivity|].
  repeat constructor.
Qed.

(** C10 (as amended): once the session is open, a script of server messages
    (under the second variant none of them an error event) with no audio
    delta at all, in which a completion event arrives (with everything
    scripted before it) before the deadline, makes the synthesis succeed
    with exactly the 44 header bytes, whose data length at offset 40 is 0. *)
Theorem completion_without_audio (fuel : nat) (config : Env) (text : string)
    (voiceName voiceGender : option string) (margin : Z)
    (w w1 : World) (v : Variant) (pre post : list (Z * Occurrence))
    (t : Z) (completion : Occurrence) :
  text <> "" -> (300 <= fuel)%nat -> timely margin w ->
  createRealtimeClient config (tts_begin text w) = (Returned v, w1) ->
  arrivals w1 = pre ++ (t, completion) :: post ->
  is_done completion = true ->
  quiet_script v (arrivals w1) ->
  Forall (fun p => is_audio (snd p) = false) (arrivals w1) ->
  Forall (fun p => fst p < now w1 + 30000) (pre ++ [(t, completion)]) ->
  exists audioBuffer w',
    synthesizeSpeechRealtime fuel config (Some text) voiceName voiceGender w =
      (Returned audioBuffer, w') /\
    audioBuffer = canonical_header 0 24000 1 16 /\
    length audioBuffer = 44%nat /\
    readUInt32LE 40 audioBuffer = Some 0 /\
    closes w' = S (closes w).
Proof.
  intros Htext Hfuel Hlag Hconn Harr Hcompl Hq Hsilent Hearly.
  destruct (synthesis_run fuel config text voiceName voiceGender margin w w1 v
              Htext Hfuel Hlag Hconn Hq)
    as (d & w2 & Hsplit & _ & Hcl & _ & _ & _ & Hexit & Hrun).
  assert (Hdone : done_in d = true).
  { apply (completion_is_delivered (now w1 + 30000) t completion pre post d w2);
      [rewrite <- Hsplit; apply eq_sym, Harr | exact Hcompl | exact Hearly | exact Hexit]. }
  assert (Hnone : chunks_in d = []).
  { apply chunks_in_no_audio. rewrite Hsplit in Hsilent.
    apply Forall_app in Hsilent. apply Hsilent. }
  rewrite Hdone, Hnone in Hrun. cbn in Hrun.
  exists (canonical_header 0 24000 1 16), (close w2).
  split; [exact Hrun|]. split; [reflexivity|]. split; [reflexivity|].
  split; [reflexivity|]. cbn. rewrite Hcl. reflexivity.
Qed.

Lemma completion_without_audio_witness :
  exists audioBuffer w',
    synthesizeSpeechRealtime 300 ga_config (Some "hello") None None
        (scripted punctual done_without_audio) =
      (Returned audioBuffer, w') /\
    audioBuffer = canonical_header 0 24000 1 16 /\
    length audioBuffer = 44%nat /\
    readUInt32LE 40 audioBuffer = Some 0 /\
    closes w' = S (closes (scripted punctual done_without_audio)).
Proof.
  apply (completion_without_audio 300 ga_config "hello" None None 0
           (scripted punctual done_without_audio) (ready ga_config done_without_audio) GA
           [(60, event "response.created")] [(950, event "rate_limits.updated")]
           900 done).
  - discriminate.
  - lia.
  - intros k. unfold scripted, punctual. cbn. lia.
  - vm_compute. reflexivity.
  - vm_compute. reflexivity.
  - reflexivity.
  - vm_compute. repeat constructor.
  - vm_compute. repeat constructor.
  - vm_compute. repeat constructor.
Defined.

End SynthesisClaims.

(** ** Recognition *)

Section Recognition.
Import Buf Realtime Trace Script.




Lemma stt_registry_subscribe (w : World) :
  connect_registry w -> stt_registry (stt_subscribe w).
Proof.
  intros (cs & ce & Hcs & Hce & Hh). exists cs, ce.
  split; [exact Hcs|]. split; [exact Hce|].
  intros k. unfold stt_subscribe. rewrite !handlers_of_on, !Hh.
  unfold connect_handlers, stt_handlers, transcription_completed.
  by_event; reflexivity.
Qed.

Lemma stt_registry_listeners (w w' : World) :
  listeners w' = listeners w -> stt_registry w -> stt_registry w'.
Proof.
  intros Hl (cs & ce & Hcs & Hce & Hh). exists cs, ce.
  split; [exact Hcs|]. split; [exact Hce|].
  intros k. rewrite (handlers_of_listeners k w w' Hl). apply Hh.
Qed.

Lemma stt_run (cs ce : list Handler) (k : string) (e : ServerEvent) (vs : Vars) :
  Forall (eq OnSessionCreated) cs -> Forall reject_or_log ce ->
  k <> "session.updated" ->
  exists r vs',
    run_handlers (stt_handlers cs ce k) (PEvent e) vs = (r, vs') /\
    connection vs' = connection vs /\
    sessionConfigured vs' = sessionConfigured vs /\
    (k <> "error" -> r = Ok tt).
Proof.
  intros Hcs Hce Hk.
  destruct (run_promise_handlers cs (PEvent e) vs (created_is_promise _ Hcs)) as [o1 E1].
  destruct (run_promise_handlers ce (PEvent e) vs (reject_is_promise _ Hce)) as [o2 E2].
  unfold stt_handlers, transcription_completed.
  by_event.
  - rewrite E1. do 2 eexists. split; [reflexivity|]. cbn. auto.
  - rewrite run_handlers_app, E2. do 2 eexists. split; [reflexivity|]. cbn.
    repeat split; congruence.
  - do 2 eexists. split; [reflexivity|]. cbn. auto.
  - do 2 eexists. split; [reflexivity|]. cbn. auto.
Qed.

Lemma stt_deliver (v : Variant) (e : ServerEvent) (w : World) :
  stt_registry w -> quiet v (SockMessage e) -> ev_type e <> "session.updated" ->
  exists vs',
    deliver v (SockMessage e) w = (None, set_vars vs' w) /\
    connection vs' = connection (vars w) /\
    sessionConfigured vs' = sessionConfigured (vars w).
Proof.
  intros (cs & ce & Hcs & Hce & Hh) Hq Hk.
  destruct (stt_run cs ce (ev_type e) e (vars w) Hcs Hce Hk)
    as (r & vs' & Erun & Hconn & Hflag & Hok).
  exists vs'. split; [|split; [exact Hconn | exact Hflag]].
  destruct v; cbn [deliver].
  - unfold ga_on_message, emit. rewrite Hh, Erun.
    destruct r as [[]|err]; [|reflexivity].
    rewrite (handlers_of_listeners "server.*" w (set_vars vs' w)) by reflexivity.
    rewrite Hh. cbn. reflexivity.
  - cbn in Hq. destruct Hq as [Hne _].
    rewrite (proj2 (String.eqb_neq _ _) Hne).
    unfold sdk_emit, emit. rewrite Hh, Erun, (Hok Hne). reflexivity.
Qed.

(** One suspension of the recognition on a script that never confirms a
    configuration: the flag stays as it is. *)
Lemma stt_deliver_until (v : Variant) (due : Z) (arr : list (Z * Occurrence)) :
  forall w,
    arrivals w = arr -> stt_registry w -> quiet_script v arr -> never_configured arr ->
    exists delivered w',
      deliver_until v (fun _ => false) due arr w = (None, w') /\
      arr = delivered ++ arrivals w' /\
      transport_unchanged w w' /\ timers w' = timers w /\
      sessionConfigured (vars w') = sessionConfigured (vars w) /\
      now w <= now w'.
Proof.
  induction arr as [|[t occ] rest IH]; intros w Harr Hreg Hq Hn.
  - exists [], w. cbn. rewrite Harr. repeat split; lia.
  - cbn [deliver_until]. destruct (t <? due).
    + inversion Hq as [|? ? Hocc Hrest]; subst.
      inversion Hn as [|? ? Hocc' Hrest']; subst.
      destruct occ as [|e|err]; try contradiction.
      set (w1 := set_now (Z.max (now w) t) (set_arrivals rest w)).
      assert (Hreg1 : stt_registry w1)
        by (apply (stt_registry_listeners w); [reflexivity | exact Hreg]).
      destruct (stt_deliver v e w1 Hreg1 Hocc (Hocc' e eq_refl))
        as (vs' & Edel & Hconn & Hflag).
      rewrite Edel.
      destruct (IH (set_vars vs' w1))
        as (d2 & w' & Erun & Hsplit & Hframe & Htim & Hf2 & Hnow).
      { reflexivity. }
      { apply (stt_registry_listeners w1); [reflexivity | exact Hreg1]. }
      { exact Hrest. }
      { exact Hrest'. }
      exists ((t, SockMessage e) :: d2), w'.
      split; [exact Erun|]. split; [cbn; rewrite <- Hsplit; reflexivity|].
      split.
      { apply (transport_unchanged_trans w (set_vars vs' w1) w'); [|exact Hframe].
        repeat split. exact Hconn. }
      split; [rewrite Htim; reflexivity|].
      split; [rewrite Hf2; exact Hflag|].
      cbn in Hnow. lia.
    + exists [], w. cbn. rewrite Harr. repeat split; lia.
Qed.

(** The configuration wait (lines 323-325) never ends on such a script. *)
Lemma configuration_wait_never_ends (v : Variant) (margin : Z) :
  forall (fuel : nat) (w : World),
    stt_registry w -> quiet_script v (arrivals w) -> never_configured (arrivals w) ->
    timely margin w -> sessionConfigured (vars w) = false ->
    exists w',
      poll fuel v stt_unconfigured 50 w = (Pending, w') /\
      transport_unchanged w w' /\
      now w + 50 * Z.of_nat fuel <= now w'.
Proof.
  induction fuel as [|fuel IH]; intros w Hreg Hq Hn Hlag Hflag.
  - exists w. cbn [poll]. unfold stt_unconfigured. rewrite Hflag. cbn.
    split; [reflexivity|]. split; [apply transport_unchanged_refl | lia].
  - cbn [poll]. unfold stt_unconfigured at 1. rewrite Hflag. cbn [negb].
    unfold sleep, setTimeout, run_until.
    set (due := now w + 50 + lag w (timers w)).
    set (w1 := set_timers (S (timers w)) w).
    destruct (stt_deliver_until v due (arrivals w1) w1)
      as (d & w2 & Erun & Hsplit & Hframe & _ & Hf & Hnow).
    { reflexivity. }
    { apply (stt_registry_listeners w); [reflexivity | exact Hreg]. }
    { exact Hq. }
    { exact Hn. }
    rewrite Erun.
    set (w3 := set_now (Z.max (now w2) due) w2).
    assert (Hl : listeners w2 = listeners w) by apply Hframe.
    assert (Hlag2 : lag w2 = lag w) by apply Hframe.
    change (arrivals w1) with (arrivals w) in Hsplit.
    destruct (IH w3) as (w' & Epoll & Hframe' & Hnow').
    { apply (stt_registry_listeners w); [exact Hl | exact Hreg]. }
    { change (arrivals w3) with (arrivals w2). unfold quiet_script in *.
      rewrite Hsplit in Hq. apply Forall_app in Hq. apply Hq. }
    { change (arrivals w3) with (arrivals w2). unfold never_configured in *.
      rewrite Hsplit in Hn. apply Forall_app in Hn. apply Hn. }
    { unfold timely. change (lag w3) with (lag w2). rewrite Hlag2. exact Hlag. }
    { change (vars w3) with (vars w2). rewrite Hf. exact Hflag. }
    exists w'. split; [exact Epoll|].
    split.
    { apply (transport_unchanged_trans w w3 w'); [|exact Hframe'].
      destruct Hframe as (?&?&?&?&?&?&?). repeat split; assumption. }
    specialize (Hlag (timers w)). subst w3 due. cbn in Hnow'. lia.
Qed.

(** C7, on every script on which the session opens and no "session.updated"
    message is ever delivered (none is requested: the configuration step
    sends nothing): whatever the fuel, the recognition has not returned. It
    is still in the configuration wait, has sent no audio and has not closed
    the session, while the clock passes every bound. *)
Theorem recognition_never_returns (fuel : nat) (config : Env) (audioData : string)
    (margin : Z) (w w1 : World) (v : Variant) :
  audioData <> "" -> timely margin w ->
  createRealtimeClient config (stt_begin w) = (Returned v, w1) ->
  quiet_script v (arrivals w1) -> never_configured (arrivals w1) ->
  exists w',
    recognizeSpeechRealtime fuel config (Some audioData) w = (Pending, w') /\
    sent w' = sent w /\ closes w' = closes w /\
    now w1 + 50 * Z.of_nat fuel <= now w'.
Proof.
  intros Haudio Hlag Hconn Hq Hn.
  destruct (connect_ready _ _ _ _ Hconn)
    as (Hreg & Hlag1 & _ & Hcl & Hsent & _ & _ & _ & _ & _ & Hflag & _ & _).
  set (w2 := stt_subscribe (connected v w1)).
  destruct (configuration_wait_never_ends v margin fuel w2)
    as (w' & Epoll & Hframe & Hnow).
  { apply stt_registry_subscribe.
    apply (connect_registry_listeners w1); [reflexivity | exact Hreg]. }
  { exact Hq. }
  { exact Hn. }
  { unfold timely. change (lag w2) with (lag w1). rewrite Hlag1. exact Hlag. }
  { change (sessionConfigured (vars w2)) with (sessionConfigured (vars w1)).
    rewrite Hflag. reflexivity. }
  exists w'. destruct Hframe as (_ & _ & Hcl' & Hsent' & _ & _ & _).
  split.
  - unfold recognizeSpeechRealtime.
    assert (Hf : falsy (Some audioData) = false) by (apply String.eqb_neq; exact Haudio).
    rewrite Hf.
    unfold try_catch_finally, bind, modify, configureRealtimeSession, read, ret.
    cbv beta. rewrite Hconn. cbv beta iota zeta. fold w2.
    rewrite Epoll. reflexivity.
  - split; [rewrite Hsent'; exact Hsent|].
    split; [rewrite Hcl'; exact Hcl | exact Hnow].
Qed.

Lemma recognition_never_returns_witness :
  exists w',
    recognizeSpeechRealtime 1000 ga_config (Some "AAAA")
        (scripted punctual unconfigured)
      = (Pending, w') /\
    sent w' = sent (scripted punctual unconfigured) /\
    closes w' = closes (scripted punctual unconfigured) /\
    now (listening ga_config unconfigured) + 50 * Z.of_nat 1000 <= now w'.
Proof.
  apply (recognition_never_returns 1000 ga_config "AAAA" 0
           (scripted punctual unconfigured)
           (snd (createRealtimeClient ga_config
                   (stt_begin (scripted punctual
                                 (handshake ++ [(700, event "response.created")])))))
           GA).
  - discriminate.
  - intros k. unfold scripted, punctual. cbn. lia.
  - vm_compute. reflexivity.
  - vm_compute. repeat constructor.
  - vm_compute. repeat constructor; intros e [= <-]; discriminate.
Defined.

(** The same request does reach the 10 s transcription deadline when the
    script volunteers a "session.updated" message. *)
Example recognition_after_session_updated :
  fst (recognizeSpeechRealtime 400 ga_config (Some "AAAA")
         (scripted punctual (handshake ++ [(30, event "session.updated")])))
  = Thrown (Error "Speech recognition failed: Transcription timeout - no response received").
Proof. vm_compute. reflexivity. Qed.

End Recognition.
(** ** WAV header: the range of each field *)

Section WavBounds.
Import Buf Wav.

Lemma writeUIntLE_throws (n : nat) (v : Z) (off : nat) (buf : Buffer) (e : JsError) :
  writeUIntLE n v off buf = Throw e -> e = out_of_range.
Proof.
  unfold writeUIntLE.
  destruct (_ && _); [destruct (_ <=? _)%nat|]; intros H; congruence.
Qed.

Lemma writeUIntLE_eighth_throws (n : nat) (x : Z) (off : nat) (buf : Buffer)
    (e : JsError) :
  writeUIntLE_eighth n x off buf = Throw e -> e = out_of_range.
Proof.
  unfold writeUIntLE_eighth.
  destruct (_ && _); [destruct (_ <=? _)%nat|]; intros H; congruence.
Qed.

Lemma createWavHeader_fits (n r c b : Z) (h : Buffer) :
  createWavHeader n r c b = Ok h -> fields_fit n r c b.
Proof.
  intros Hh.
  unfold createWavHeader, writeUInt32LE, writeUInt16LE,
    writeUInt32LE_eighth, writeUInt16LE_eighth in Hh.
  cbv zeta in Hh.
  repeat match type of Hh with
         | mbind _ (writeUIntLE ?k ?v ?o ?buf) = Ok _ =>
             let E := fresh "E" in
             destruct (writeUIntLE k v o buf) eqn:E;
             [ apply writeUIntLE_inv in E; cbn [mbind Result_bind] in Hh
             | discriminate Hh ]
         | mbind _ (writeUIntLE_eighth ?k ?v ?o ?buf) = Ok _ =>
             let E := fresh "E" in
             destruct (writeUIntLE_eighth k v o buf) eqn:E;
             [ apply writeUIntLE_eighth_inv in E; cbn [mbind Result_bind] in Hh
             | discriminate Hh ]
         end.
  unfold fields_fit. simpl Z.of_nat in *. simpl Z.mul in *. lia.
Qed.

Lemma createWavHeader_error (n r c b : Z) (e : JsError) :
  createWavHeader n r c b = Throw e -> e = out_of_range.
Proof.
  intros Hh.
  unfold createWavHeader, writeUInt32LE, writeUInt16LE,
    writeUInt32LE_eighth, writeUInt16LE_eighth in Hh.
  cbv zeta in Hh.
  repeat match type of Hh with
         | mbind _ (writeUIntLE ?k ?v ?o ?buf) = Throw _ =>
             let E := fresh "E" in
             destruct (writeUIntLE k v o buf) eqn:E;
             [ cbn [mbind Result_bind] in Hh
             | cbn [mbind Result_bind] in Hh; injection Hh as <-;
               exact (writeUIntLE_throws _ _ _ _ _ E) ]
         | mbind _ (writeUIntLE_eighth ?k ?v ?o ?buf) = Throw _ =>
             let E := fresh "E" in
             destruct (writeUIntLE_eighth k v o buf) eqn:E;
             [ cbn [mbind Result_bind] in Hh
             | cbn [mbind Result_bind] in Hh; injection Hh as <-;
               exact (writeUIntLE_eighth_throws _ _ _ _ _ E) ]
         end.
  discriminate Hh.
Qed.

(** X1: [createWavHeader] returns exactly when every field fits the width it
    is written with, the byte rate and the block align being the exact
    quotients by 8 (a block align of 65535.75 does not fit 16 bits), and then
    it returns the canonical 44-byte header; in every other case it throws
    the range error of the [Buffer] writers. *)
Theorem createWavHeader_returns_or_throws (n r c b : Z) :
  (forall h, createWavHeader n r c b = Ok h <->
             fields_fit n r c b /\ h = canonical_header n r c b) /\
  (forall e, createWavHeader n r c b = Throw e <->
             ~ fields_fit n r c b /\ e = out_of_range).
Proof.
  split.
  - intros h. split.
    + intros Hh. pose proof (createWavHeader_fits _ _ _ _ _ Hh) as Hfit.
      split; [exact Hfit|].
      rewrite (createWavHeader_layout _ _ _ _ Hfit) in Hh. congruence.
    + intros [Hfit ->]. apply createWavHeader_layout, Hfit.
  - intros e. split.
    + intros He. split; [|exact (createWavHeader_error _ _ _ _ _ He)].
      intros Hfit. rewrite (createWavHeader_layout _ _ _ _ Hfit) in He. discriminate He.
    + intros [Hno ->].
      destruct (createWavHeader n r c b) as [h|e] eqn:E.
      * exfalso. apply Hno. exact (createWavHeader_fits _ _ _ _ _ E).
      * f_equal. exact (createWavHeader_error _ _ _ _ _ E).
Qed.

(** A quotient that is in range only once it is truncated: 7182 channels
    of 73 bits make a block align of 65535.75. *)
Example createWavHeader_fractional_block_align :
  createWavHeader 10 1 7182 73 = Throw out_of_range /\
  7182 * 73 / 8 = 65535.
Proof. split; reflexivity. Qed.

End WavBounds.

(** ** WebSocket URL *)

Section WebSocketUrl.
Import Url.

Lemma stripTrailingSlash_cons (c : ascii) (s : string) :
  s <> "" -> stripTrailingSlash (String c s) = String c (stripTrailingSlash s).
Proof. destruct s; [contradiction | reflexivity]. Qed.

Lemma app_nonempty (s1 s2 : string) : s2 <> "" -> s1 +:+ s2 <> "".
Proof. destruct s1; [auto | discriminate]. Qed.

Lemma stripTrailingSlash_app (s1 s2 : string) :
  s2 <> "" -> stripTrailingSlash (s1 +:+ s2) = s1 +:+ stripTrailingSlash s2.
Proof.
  intros Hs2. induction s1 as [|c s1 IH]; [reflexivity|].
  change (String c s1 +:+ s2) with (String c (s1 +:+ s2)).
  rewrite stripTrailingSlash_cons by (apply app_nonempty, Hs2).
  rewrite IH. reflexivity.
Qed.

Lemma stripTrailingSlash_slash (s : string) : stripTrailingSlash (s +:+ "/") = s.
Proof.
  rewrite stripTrailingSlash_app by discriminate.
  change (stripTrailingSlash "/") with "".
  induction s as [|c s IH]; [reflexivity|].
  change (String c s +:+ "") with (String c (s +:+ "")). rewrite IH. reflexivity.
Qed.

Lemma stripTrailingSlash_id (s : string) :
  (forall s', s <> s' +:+ "/") -> stripTrailingSlash s = s.
Proof.
  induction s as [|c s IH]; intros Hs; [reflexivity|].
  destruct s as [|c' s].
  - cbn. destruct (Ascii.eqb_spec c "/") as [ -> | Hne ]; [|reflexivity].
    exfalso. apply (Hs ""). reflexivity.
  - rewrite stripTrailingSlash_cons by discriminate. rewrite IH; [reflexivity|].
    intros s' E. apply (Hs (String c s')). cbn. rewrite E. reflexivity.
Qed.

Lemma app_cons (c : ascii) (s1 s2 : string) :
  String c s1 +:+ s2 = String c (s1 +:+ s2).
Proof. reflexivity. Qed.

Lemma prefix_app (pattern rest : string) :
  String.prefix pattern (pattern +:+ rest) = true.
Proof.
  induction pattern as [|c p IH]; [destruct rest; reflexivity|].
  rewrite app_cons. cbn [String.prefix].
  destruct (ascii_dec c c); [exact IH | contradiction].
Qed.

Lemma sliceFrom_app (pattern rest : string) :
  sliceFrom (String.length pattern) (pattern +:+ rest) = rest.
Proof. induction pattern as [|c p IH]; [reflexivity | exact IH]. Qed.

Lemma replace_prefix (pattern replacement rest : string) :
  replace pattern replacement (pattern +:+ rest) = replacement +:+ rest.
Proof.
  pose proof (prefix_app pattern rest) as Hp.
  pose proof (sliceFrom_app pattern rest) as Hs.
  destruct (pattern +:+ rest) eqn:E; cbn [replace]; rewrite Hp, Hs; reflexivity.
Qed.

Lemma replace_absent (pattern replacement s : string) :
  String.index 0 pattern s = None -> replace pattern replacement s = s.
Proof.
  induction s as [|c s IH]; intros Hi.
  - cbn in *. destruct pattern; [discriminate Hi | reflexivity].
  - cbn [replace]. cbn [String.index] in Hi.
    destruct (String.prefix pattern (String c s)); [discriminate Hi|].
    rewrite IH; [reflexivity|].
    destruct (String.index 0 pattern s); [discriminate Hi | reflexivity].
Qed.

Lemma no_trailing_slash (host : string) :
  stripTrailingSlash host = host -> forall s, host <> s +:+ "/".
Proof.
  intros Hid s E. rewrite E, stripTrailingSlash_slash in Hid.
  clear E. induction s as [|c s IH]; [discriminate Hid|].
  rewrite app_cons in Hid. injection Hid as Hid. exact (IH Hid).
Qed.

Lemma app_assoc_string (a b c : string) : (a +:+ b) +:+ c = a +:+ (b +:+ c).
Proof. induction a as [|x a IH]; [reflexivity|]. rewrite !app_cons, IH. reflexivity. Qed.

(** X2: for an endpoint "https://host", with or without one slash at its end,
    the URL of the socket is "wss://host/v1/realtime?model=" followed by the
    deployment name. *)
Theorem wsUrl_of_https_endpoint (host deployment : string) :
  host <> "" -> (forall s, host <> s +:+ "/") ->
  wsUrl ("https://" +:+ host) deployment =
    "wss://" +:+ host +:+ "/v1/realtime?model=" +:+ deployment /\
  wsUrl ("https://" +:+ host +:+ "/") deployment =
    "wss://" +:+ host +:+ "/v1/realtime?model=" +:+ deployment.
Proof.
  intros Hne Hslash. unfold wsUrl. split.
  - rewrite stripTrailingSlash_app by exact Hne.
    rewrite stripTrailingSlash_id by exact Hslash.
    rewrite replace_prefix. apply app_assoc_string.
  - rewrite <- (app_assoc_string "https://" host "/").
    rewrite stripTrailingSlash_slash, replace_prefix. apply app_assoc_string.
Qed.

Lemma wsUrl_of_https_endpoint_witness :
  wsUrl ("https://" +:+ "resource.openai.azure.com/openai") "gpt-realtime" =
    "wss://" +:+ "resource.openai.azure.com/openai" +:+ "/v1/realtime?model=" +:+ "gpt-realtime" /\
  wsUrl ("https://" +:+ "resource.openai.azure.com/openai" +:+ "/") "gpt-realtime" =
    "wss://" +:+ "resource.openai.azure.com/openai" +:+ "/v1/realtime?model=" +:+ "gpt-realtime".
Proof.
  apply (wsUrl_of_https_endpoint "resource.openai.azure.com/openai" "gpt-realtime").
  - discriminate.
  - apply no_trailing_slash. reflexivity.
Defined.

Lemma prefix_stripped (p s : string) :
  String.prefix p (stripTrailingSlash s) = true -> String.prefix p s = true.
Proof.
  revert p. induction s as [|c s IH]; intros p Hp; [exact Hp|].
  destruct s as [|c' s].
  - cbn [stripTrailingSlash] in Hp. destruct (Ascii.eqb c "/"); [|exact Hp].
    destruct p; [reflexivity | discriminate Hp].
  - rewrite stripTrailingSlash_cons in Hp by discriminate.
    destruct p as [|a p]; [reflexivity|]. cbn [String.prefix] in *.
    destruct (ascii_dec a c); [apply IH, Hp | discriminate Hp].
Qed.

Lemma index_cons_none (p : string) (c : ascii) (s : string) :
  String.index 0 p (String c s) = None <->
  String.prefix p (String c s) = false /\ String.index 0 p s = None.
Proof.
  cbn [String.index]. destruct (String.prefix p (String c s)).
  - split; [discriminate | intros [H _]; discriminate H].
  - destruct (String.index 0 p s); split; try discriminate; auto.
    intros [_ H]. discriminate H.
Qed.

Lemma index_stripped (p s : string) :
  p <> "" -> String.index 0 p s = None ->
  String.index 0 p (stripTrailingSlash s) = None.
Proof.
  intros Hp. induction s as [|c s IH]; intros Hi; [exact Hi|].
  apply index_cons_none in Hi. destruct Hi as [Hpre Hi].
  destruct s as [|c' s].
  - cbn [stripTrailingSlash]. destruct (Ascii.eqb c "/").
    + destruct p; [contradiction | reflexivity].
    + apply index_cons_none. split; assumption.
  - rewrite stripTrailingSlash_cons by discriminate.
    apply index_cons_none. split; [|apply IH, Hi].
    destruct (String.prefix p (String c (stripTrailingSlash (String c' s)))) eqn:E;
      [|reflexivity].
    rewrite <- stripTrailingSlash_cons in E by discriminate.
    apply prefix_stripped in E. congruence.
Qed.

(** X3: the scheme is rewritten only where the text "https://" occurs: an
    endpoint that does not contain it keeps its own scheme. The endpoint
    "https://" itself loses its last slash before the scheme is looked for,
    and is not rewritten either. *)
Theorem wsUrl_keeps_other_schemes (endpoint deployment : string) :
  Realtime.includes "https://" endpoint = false ->
  wsUrl endpoint deployment =
    stripTrailingSlash endpoint +:+ "/v1/realtime?model=" +:+ deployment /\
  wsUrl "https://" deployment = "https:/" +:+ "/v1/realtime?model=" +:+ deployment.
Proof.
  intros Hinc. split; [|reflexivity].
  unfold wsUrl. rewrite replace_absent; [reflexivity|].
  apply index_stripped; [discriminate|].
  unfold Realtime.includes in Hinc.
  destruct (String.index 0 "https://" endpoint); [discriminate Hinc | reflexivity].
Qed.

Lemma wsUrl_keeps_other_schemes_witness :
  wsUrl "http://localhost:8080/" "gpt-realtime" =
    stripTrailingSlash "http://localhost:8080/" +:+ "/v1/realtime?model=" +:+ "gpt-realtime" /\
  wsUrl "https://" "gpt-realtime" = "https:/" +:+ "/v1/realtime?model=" +:+ "gpt-realtime".
Proof.
  apply (wsUrl_keeps_other_schemes "http://localhost:8080/" "gpt-realtime").
  reflexivity.
Defined.

End WebSocketUrl.

(** ** Service information and the advertised voices *)

Section Information.
Import Voice Realtime Info Routes.

Lemma entries_table : VOICE_MAP = list_to_map entries.
Proof. reflexivity. Qed.

Lemma keys_NoDup : NoDup keys.
Proof. apply (bool_decide_unpack _). vm_compute. exact I. Qed.

(** [Object.keys] lists exactly the own properties of the table. *)
Lemma keys_own (k : string) : k ∈ keys <-> is_Some (VOICE_MAP !! k).
Proof.
  rewrite entries_table. unfold keys. split.
  - intros Hk. apply list_elem_of_fmap in Hk. destruct Hk as ([k' t] & -> & Hin).
    exists t. apply elem_of_list_to_map_1; [exact keys_NoDup | exact Hin].
  - intros [t Ht]. apply elem_of_list_to_map_2 in Ht.
    apply list_elem_of_fmap. exists (k, t). split; [reflexivity | exact Ht].
Qed.

Lemma includes_spec (l : list string) (k : string) :
  includes l k = true <-> k ∈ l.
Proof.
  unfold includes. rewrite existsb_exists. split.
  - intros (x & Hin & Hx). apply String.eqb_eq in Hx. subst x.
    apply list_elem_of_In, Hin.
  - intros Hk. exists k. split; [apply list_elem_of_In, Hk | apply String.eqb_refl].
Qed.

(** X4: with both credentials configured, [getRealtimeInfo] reports the
    deployment and the endpoint of the configuration, and the voices it
    lists are exactly the keys of the voice table other than the two gender
    keys; each of them, requested by name, selects one of the six tokens
    whatever the gender fallback is. *)
Theorem getRealtimeInfo_voices (config : Env) (cfg : RealtimeConfig) :
  getRealtimeConfig config = Ok cfg ->
  exists info,
    getRealtimeInfo config = Ok info /\
    model info = deployment cfg /\ info_endpoint info = endpoint cfg /\
    (forall k, k ∈ voices info <->
               is_Some (VOICE_MAP !! k) /\ k <> "Male" /\ k <> "Female") /\
    (forall k gender, k ∈ voices info ->
                      valid_token (selectVoice (Some k) gender)).
Proof.
  intros Hcfg. unfold getRealtimeInfo. rewrite Hcfg.
  cbn [mbind Result_bind mret Result_ret]. eexists. split; [reflexivity|].
  cbn [model info_endpoint voices]. split; [reflexivity|]. split; [reflexivity|].
  assert (Hv : forall k,
    k ∈ List.filter (fun k => negb (includes ["Male"; "Female"] k)) keys <->
    is_Some (VOICE_MAP !! k) /\ k <> "Male" /\ k <> "Female").
  { intros k. rewrite list_elem_of_In, filter_In, <- list_elem_of_In, keys_own.
    rewrite negb_true_iff, <- not_true_iff_false, includes_spec.
    rewrite !elem_of_cons, elem_of_nil. tauto. }
  split; [exact Hv|].
  intros k gender Hk. apply Hv in Hk. destruct Hk as ([t Ht] & _ & _).
  exists t. split.
  - unfold selectVoice. rewrite (mapped_own _ _ Ht). cbn [default].
    apply get_own, Ht.
  - apply (VOICE_MAP_entries k t Ht).
Qed.

Lemma getRealtimeInfo_voices_witness :
  exists info,
    getRealtimeInfo Script.ga_config = Ok info /\
    model info = "gpt-realtime" /\
    info_endpoint info = "https://resource.openai.azure.com/openai" /\
    (forall k, k ∈ voices info <->
               is_Some (VOICE_MAP !! k) /\ k <> "Male" /\ k <> "Female") /\
    (forall k gender, k ∈ voices info ->
                      valid_token (selectVoice (Some k) gender)).
Proof.
  apply (getRealtimeInfo_voices Script.ga_config
           {| endpoint := "https://resource.openai.azure.com/openai";
              apiKey := "key"; deployment := "gpt-realtime" |}).
  reflexivity.
Defined.


Lemma get_string (k t : string) : get k = JString t -> VOICE_MAP !! k = Some t.
Proof.
  unfold get, object_prototype. destruct (VOICE_MAP !! k) as [t'|]; [congruence|].
  repeat destruct (bool_decide _); discriminate.
Qed.

Lemma selectVoice_string (name gender : option string) (t : string) :
  selectVoice name gender = JString t -> t ∈ tokens.
Proof.
  unfold selectVoice.
  destruct (mapped name).
  - intros H. apply get_string in H. apply (VOICE_MAP_entries _ _ H).
  - destruct (mapped gender).
    + intros H. apply get_string in H. apply (VOICE_MAP_entries _ _ H).
    + intros [= <-]. apply (bool_decide_unpack _). vm_compute. exact I.
Qed.

(** X5: a token that the selection returns is itself a key of the table and
    selects itself, as a name (whatever the gender fallback) and as a gender
    fallback: selecting twice is selecting once. *)
Theorem selectVoice_idempotent (name gender other : option string) (t : string) :
  selectVoice name gender = JString t ->
  t ∈ tokens /\
  selectVoice (Some t) other = JString t /\
  selectVoice None (Some t) = JString t.
Proof.
  intros H. apply selectVoice_string in H. split; [exact H|].
  unfold tokens in H. rewrite !elem_of_cons, elem_of_nil in H.
  destruct H as [ -> | [ -> | [ -> | [ -> | [ -> | [ -> | [] ] ] ] ] ] ];
    split; vm_compute; reflexivity.
Qed.

Lemma selectVoice_idempotent_witness :
  "nova" ∈ tokens /\
  selectVoice (Some "nova") (Some "Male") = JString "nova" /\
  selectVoice None (Some "nova") = JString "nova".
Proof.
  apply (selectVoice_idempotent (Some "AriaNeural") None (Some "Male") "nova").
  vm_compute. reflexivity.
Defined.

(** X6: of the six rows of the voice mapping that [GET /info] advertises,
    only "JennyNeural" is a key of the table the service looks voices up in;
    each of the other five, sent as the voice name or as the gender, selects
    the default token, which is not the advertised one for "AndrewNeural",
    "FableNeural", "male" and "neutral". The six voices the route lists are
    the six tokens. *)
Theorem advertised_voiceMapping :
  Forall (fun row =>
            (VOICE_MAP !! row.1 = Some row.2 <-> row.1 = "JennyNeural") /\
            (row.1 <> "JennyNeural" ->
             VOICE_MAP !! row.1 = None /\
             selectVoice (Some row.1) None = JString default_voice /\
             selectVoice None (Some row.1) = JString default_voice) /\
            (row.1 ∈ ["AndrewNeural"; "FableNeural"; "male"; "neutral"] ->
             row.2 <> default_voice))
         (voiceMapping get_info) /\
  map voice_name (info_voices get_info) = tokens.
Proof.
  split; [|reflexivity].
  unfold get_info, voiceMapping.
  repeat apply Forall_cons_2; try apply Forall_nil_2; cbn [fst snd];
    (split; [|split]).
  all: try (split; intros H; [vm_compute in H | ];
            first [discriminate H | vm_compute; reflexivity]).
  all: try (intros H; first [ exfalso; apply H; reflexivity
                            | repeat split; vm_compute; reflexivity ]).
  all: intros H; rewrite !elem_of_cons, elem_of_nil in H;
       first [ discriminate
             | exfalso; destruct H as [H|[H|[H|[H|[]]]]]; discriminate H ].
Qed.

End Information.

(** ** What every run leaves behind *)

Section FootprintLemmas.
Import Buf Realtime Trace Footprint.

Lemma ledger_refl (w : World) : ledger_unchanged w w.
Proof. repeat split. Qed.

Lemma ledger_trans (w1 w2 w3 : World) :
  ledger_unchanged w1 w2 -> ledger_unchanged w2 w3 -> ledger_unchanged w1 w3.
Proof.
  unfold ledger_unchanged. intros (?&?&?&?&?) (?&?&?&?&?). repeat split; congruence.
Qed.

Lemma run_handler_connection (h : Handler) (p : Payload) (vs : Vars) :
  connection (snd (run_handler h p vs)) = connection vs.
Proof.
  destruct h; cbn [run_handler snd]; unfold settle;
    try destruct (opened vs); try destruct (payload_delta p); reflexivity.
Qed.

Lemma run_handlers_connection (hs : list Handler) (p : Payload) (vs : Vars) :
  connection (snd (run_handlers hs p vs)) = connection vs.
Proof.
  revert vs. induction hs as [|h hs IH]; intros vs; [reflexivity|].
  cbn [run_handlers]. pose proof (run_handler_connection h p vs) as Hh.
  destruct (run_handler h p vs) as [[[]|e] vs1]; cbn [snd] in *.
  - rewrite IH. exact Hh.
  - exact Hh.
Qed.

(** An emit changes the variables only, and never the connection. *)
Lemma emit_vars (k : string) (p : Payload) (w : World) :
  exists vs', snd (emit k p w) = set_vars vs' w /\
              connection vs' = connection (vars w).
Proof.
  unfold emit. pose proof (run_handlers_connection (handlers_of k w) p (vars w)) as H.
  destruct (run_handlers (handlers_of k w) p (vars w)) as [r vs'].
  exists vs'. split; [reflexivity | exact H].
Qed.

(** With a rethrowing handler among them, the handlers throw. *)
Lemma run_handlers_rethrow (hs : list Handler) (h : Handler) (p : Payload) (vs : Vars) :
  rethrows h -> In h hs -> exists e vs', run_handlers hs p vs = (Throw e, vs').
Proof.
  intros Hh. revert vs. induction hs as [|h0 hs IH]; intros vs Hin; [contradiction|].
  cbn [run_handlers]. destruct Hin as [ -> | Hin ].
  - destruct Hh as [ -> | -> ]; cbn [run_handler]; eauto.
  - destruct (run_handler h0 p vs) as [[[]|e] vs1]; [apply IH, Hin | eauto].
Qed.

Lemma guarded_emit_error (p : Payload) (w : World) :
  guarded w -> exists e w', emit "error" p w = (Throw e, w').
Proof.
  intros (h & Hh & Hin). unfold emit.
  destruct (run_handlers_rethrow _ h p (vars w) Hh Hin) as (e & vs' & E).
  rewrite E. eauto.
Qed.

Lemma guarded_listeners (w w' : World) :
  listeners w' = listeners w -> guarded w -> guarded w'.
Proof.
  intros Hl (h & Hh & Hin). exists h. split; [exact Hh|].
  rewrite (handlers_of_listeners "error" w w' Hl). exact Hin.
Qed.

Lemma guarded_on (event : string) (h : Handler) (w : World) :
  guarded w -> guarded (on event h w).
Proof.
  intros (h0 & Hh & Hin). exists h0. split; [exact Hh|].
  rewrite handlers_of_on. destruct (String.eqb_spec "error" event) as [ <- | _ ]; [|exact Hin].
  apply in_or_app. left. exact Hin.
Qed.

(** One occurrence: the ledger stays; the socket is closed at most once, and
    only by the socket-error listener, which settles the promise; under a
    rethrowing error handler it is not closed at all. *)
Lemma deliver_ledger (v : Variant) (occ : Occurrence) (w : World) (r : option JsError) (w' : World) :
  deliver v occ w = (r, w') ->
  ledger_unchanged w w' /\
  (closes w' = closes w \/
   closes w' = S (closes w) /\ is_settled (vars w') = true) /\
  (guarded w -> closes w' = closes w /\ guarded w').
Proof.
  intros E. destruct v, occ as [|e|err]; cbn [deliver] in E.
  - injection E as <- <-. split; [repeat split|]. split; [left; reflexivity|].
    intros Hg. split; [reflexivity|]. unfold ga_on_open. apply guarded_on, guarded_on, Hg.
  - injection E as <- <-. unfold ga_on_message.
    destruct (emit_vars (ev_type e) (PEvent e) w) as (vs1 & E1 & Hc1).
    destruct (emit (ev_type e) (PEvent e) w) as [[[]|e1] w1]; cbn [snd] in E1; subst w1.
    + destruct (emit_vars "server.*" (PEvent e) (set_vars vs1 w)) as (vs2 & E2 & Hc2).
      rewrite E2. cbn in Hc2 |- *.
      split; [repeat split; cbn; congruence|]. split; [left; reflexivity|].
      intros Hg. split; [reflexivity|]. apply (guarded_listeners w); [reflexivity | exact Hg].
    + split; [repeat split; cbn; congruence|]. split; [left; reflexivity|].
      intros Hg. split; [reflexivity|]. apply (guarded_listeners w); [reflexivity | exact Hg].
  - unfold ga_on_error in E.
    destruct (emit_vars "error" (PError err) w) as (vs1 & E1 & Hc1).
    destruct (emit "error" (PError err) w) as [[[]|e1] w1] eqn:Eem; cbn [snd] in E1; subst w1.
    + injection E as <- <-. split.
      { repeat split; cbn; unfold settle; destruct (opened vs1); cbn; congruence. }
      split.
      { right. split; [reflexivity|]. cbn. unfold is_settled, settle.
        destruct (opened vs1) eqn:Eo; cbn; rewrite ?Eo; reflexivity. }
      intros Hg. destruct (guarded_emit_error (PError err) w Hg) as (e2 & w2 & E2).
      congruence.
    + injection E as <- <-. split; [repeat split; cbn; congruence|].
      split; [left; reflexivity|].
      intros Hg. split; [reflexivity|]. apply (guarded_listeners w); [reflexivity | exact Hg].
  - injection E as <- <-. split; [repeat split|]. split; [left; reflexivity|]. auto.
  - assert (Hsdk : forall k p r0 w0, sdk_emit k p w = (r0, w0) ->
              ledger_unchanged w w0 /\ closes w0 = closes w /\ listeners w0 = listeners w).
    { intros k p r0 w0 E0. unfold sdk_emit in E0.
      destruct (emit_vars k p w) as (vs1 & E1 & Hc1).
      destruct (emit k p w) as [[[]|e1] w1]; cbn [snd] in E1; subst w1;
        injection E0 as <- <-; (split; [repeat split; cbn; congruence|]); split; reflexivity. }
    destruct (String.eqb (ev_type e) "error"); apply Hsdk in E;
      destruct E as (Hl & Hcl & Hli); (split; [exact Hl|]); (split; [left; exact Hcl|]);
      intros Hg; (split; [exact Hcl|]); apply (guarded_listeners w); assumption.
  - unfold sdk_emit in E.
    destruct (emit_vars "error" (PError err) w) as (vs1 & E1 & Hc1).
    destruct (emit "error" (PError err) w) as [[[]|e1] w1]; cbn [snd] in E1; subst w1;
      injection E as <- <-; (split; [repeat split; cbn; congruence|]);
      (split; [left; reflexivity|]); intros Hg; (split; [reflexivity|]);
      apply (guarded_listeners w); [reflexivity | exact Hg | reflexivity | exact Hg].
Qed.


(** A suspension, whatever arrives and whatever ends it. *)
Lemma deliver_until_ledger (v : Variant) (stop : World -> bool) (due : Z)
    (arr : list (Z * Occurrence)) :
  forall (w : World) (r : option JsError) (w' : World),
    deliver_until v stop due arr w = (r, w') ->
    ledger_unchanged w w' /\
    (guarded w -> closes w' = closes w /\ guarded w').
Proof.
  induction arr as [|[t occ] rest IH]; intros w r w' E; cbn [deliver_until] in E.
  - injection E as <- <-. split; [apply ledger_refl | auto].
  - destruct (stop w); [injection E as <- <-; split; [apply ledger_refl | auto]|].
    destruct (t <? due); [|injection E as <- <-; split; [apply ledger_refl | auto]].
    set (w1 := set_now (Z.max (now w) t) (set_arrivals rest w)) in E.
    destruct (deliver v occ w1) as [[e|] w2] eqn:Ed;
      destruct (deliver_ledger _ _ _ _ _ Ed) as (Hl & _ & Hg).
    + injection E as <- <-. split; [exact Hl|].
      intros G. apply Hg. apply (guarded_listeners w); [reflexivity | exact G].
    + destruct (IH _ _ _ E) as (Hl' & Hg').
      split; [apply (ledger_trans w w2 w'); [exact Hl | exact Hl']|].
      intros G. destruct Hg as [Hc G2]; [apply (guarded_listeners w); [reflexivity | exact G]|].
      destruct (Hg' G2) as [Hc' G']. split; [rewrite Hc', Hc; reflexivity | exact G'].
Qed.

(** The suspension of [createRealtimeClient] closes the socket at most once. *)
Lemma connect_until_closes (v : Variant) (due : Z) (arr : list (Z * Occurrence)) :
  forall (w : World) (r : option JsError) (w' : World),
    deliver_until v (fun w => is_settled (vars w)) due arr w = (r, w') ->
    closes w' = closes w \/ closes w' = S (closes w).
Proof.
  induction arr as [|[t occ] rest IH]; intros w r w' E; cbn [deliver_until] in E.
  - injection E as <- <-. left. reflexivity.
  - destruct (is_settled (vars w)); [injection E as <- <-; left; reflexivity|].
    destruct (t <? due); [|injection E as <- <-; left; reflexivity].
    set (w1 := set_now (Z.max (now w) t) (set_arrivals rest w)) in E.
    destruct (deliver v occ w1) as [[e|] w2] eqn:Ed;
      destruct (deliver_ledger _ _ _ _ _ Ed) as (_ & Hc & _).
    + injection E as <- <-. destruct Hc as [Hc|[Hc _]]; [left | right]; exact Hc.
    + destruct Hc as [Hc|[Hc Hs]].
      * destruct (IH _ _ _ E) as [H|H]; [left | right]; rewrite H, Hc; reflexivity.
      * destruct rest as [|[t' occ'] rest']; cbn [deliver_until] in E.
        -- injection E as <- <-. right. exact Hc.
        -- rewrite Hs in E. injection E as <- <-. right. exact Hc.
Qed.

Lemma sleep_ledger (v : Variant) (delay : Z) (w : World) (r : option JsError) (w' : World) :
  sleep v delay w = (r, w') ->
  ledger_unchanged w w' /\ (guarded w -> closes w' = closes w /\ guarded w').
Proof.
  unfold sleep, setTimeout, run_until. intros E.
  set (w1 := set_timers (S (timers w)) w) in E.
  destruct (deliver_until v _ _ (arrivals w1) w1) as [[e|] w2] eqn:Ed;
    destruct (deliver_until_ledger _ _ _ _ _ _ _ Ed) as (Hl & Hg);
    injection E as <- <-.
  - split; [exact Hl|]. intros G. apply Hg.
    apply (guarded_listeners w); [reflexivity | exact G].
  - split; [destruct Hl as (?&?&?&?&?); repeat split; assumption|].
    intros G. destruct Hg as [Hc G2]; [apply (guarded_listeners w); [reflexivity | exact G]|].
    split; [exact Hc | apply (guarded_listeners w2); [reflexivity | exact G2]].
Qed.

(** A polling loop never returns a rejection, and under a rethrowing error
    handler it leaves the transport open. *)
Lemma poll_ledger (v : Variant) (waiting : World -> bool) (interval : Z) :
  forall (fuel : nat) (w : World) (r : Outcome unit) (w' : World),
    poll fuel v waiting interval w = (r, w') ->
    ledger_unchanged w w' /\ (forall e, r <> Thrown e) /\
    (guarded w -> closes w' = closes w /\ guarded w').
Proof.
  induction fuel as [|fuel IH]; intros w r w' E; cbn [poll] in E.
  - destruct (waiting w); injection E as <- <-;
      (split; [apply ledger_refl|]); (split; [discriminate | auto]).
  - destruct (waiting w);
      [|injection E as <- <-; (split; [apply ledger_refl|]); (split; [discriminate | auto])].
    destruct (sleep v interval w) as [[e|] w1] eqn:Es;
      destruct (sleep_ledger _ _ _ _ _ Es) as (Hl & Hg).
    + injection E as <- <-. split; [exact Hl|]. split; [discriminate | exact Hg].
    + destruct (IH _ _ _ E) as (Hl' & Hr & Hg').
      split; [apply (ledger_trans w w1 w'); assumption|]. split; [exact Hr|].
      intros G. destruct (Hg G) as [Hc G1]. destruct (Hg' G1) as [Hc' G'].
      split; [rewrite Hc', Hc; reflexivity | exact G'].
Qed.

Lemma await_session_ledger (v : Variant) (w : World) (r : Outcome Variant) (w' : World) :
  connect_registry w -> await_session v w = (r, w') ->
  lag w' = lag w /\ sent w' = sent w /\ audioChars w' = audioChars w /\
  connection (vars w') = connection (vars w) /\ sockets w' = sockets w /\
  match r with
  | Returned _ => connect_registry w' /\ closes w' = closes w
  | Thrown e =>
      closes w' = closes w \/ closes w' = S (closes w) \/
      (closes w' = S (S (closes w)) /\ e = connect_timeout GA /\ socketOpen w' = false)
  | Crashed _ | Pending => False
  end.
Proof.
  intros Hreg. unfold await_session, setTimeout, run_until.
  set (due := now w + 10000 + lag w (timers w)).
  set (w1 := set_timers (S (timers w)) w).
  destruct (connect_deliver_until v due (arrivals w1) w1)
    as (w2 & Erun & Hreg2 & Hjob & _ & _ & _ & Hcl0).
  { reflexivity. }
  { apply (connect_registry_listeners w); [reflexivity | exact Hreg]. }
  pose proof (connect_until_closes _ _ _ _ _ _ Erun) as Hcl.
  rewrite Erun. destruct Hjob as (Hl & Hs & Hsent & Hch & Hconn & _).
  change (lag w1) with (lag w) in Hl. change (sockets w1) with (sockets w) in Hs.
  change (sent w1) with (sent w) in Hsent.
  change (audioChars w1) with (audioChars w) in Hch.
  change (vars w1) with (vars w) in Hconn.
  change (closes w1) with (closes w) in Hcl, Hcl0.
  destruct (opened (vars w2)) eqn:Eo.
  - destruct Hcl0 as [Hsame|[e1 He1]]; [|congruence].
    rewrite on_connect_timeout_rejects;
      [ | apply (connect_registry_listeners w2); [reflexivity | exact Hreg2]
        | exact Eo ].
    intros H; injection H as <- <-. cbn.
    repeat split; try assumption.
    destruct v; [|left; exact Hsame].
    destruct (socketOpen w2).
    + right. left. f_equal. exact Hsame.
    + right. right. rewrite Hsame. repeat split.
  - intros H; injection H as <- <-.
    destruct Hcl0 as [Hsame|[e1 He1]]; [|congruence].
    repeat split; assumption.
  - intros H; injection H as <- <-. repeat split; try assumption.
    destruct Hcl as [Hc|Hc]; [left | right; left]; exact Hc.
Qed.

(** A connection attempt, whatever arrives: it returns or throws; it never
    sends and never touches the job; on a return one transport was created
    and none closed; on a throw at most one was created, and it was closed
    at most once, or twice when the timer of the first variant fired on a
    socket that had not opened. *)
Lemma createRealtimeClient_ledger (config : Env) (w : World) (r : Outcome Variant) (w' : World) :
  createRealtimeClient config w = (r, w') ->
  lag w' = lag w /\ sent w' = sent w /\ audioChars w' = audioChars w /\
  connection (vars w') = connection (vars w) /\
  match r with
  | Returned v => connect_registry w' /\ sockets w' = S (sockets w) /\ closes w' = closes w
  | Thrown e =>
      (sockets w' = sockets w /\ closes w' = closes w) \/
      (sockets w' = S (sockets w) /\
       (closes w' = closes w \/ closes w' = S (closes w) \/
        (closes w' = S (S (closes w)) /\ e = connect_timeout GA /\
         socketOpen w' = false)))
  | Crashed _ | Pending => False
  end.
Proof.
  unfold createRealtimeClient, bind, lift.
  destruct (getRealtimeConfig config) as [cfg|e0];
    [|intros E; injection E as <- <-; repeat split; left; split; reflexivity].
  cbn [ret]. destruct (isGAModel (deployment cfg)); unfold modify; intros E.
  - apply await_session_ledger in E; [|apply new_client_registry].
    destruct E as (Hl & Hsent & Hch & Hconn & Hs & Hr).
    repeat split; try assumption.
    destruct r as [v|e|e|]; [|right|exact Hr|exact Hr].
    + destruct Hr. repeat split; assumption.
    + split; assumption.
  - apply await_session_ledger in E; [|apply preview_client_registry].
    destruct E as (Hl & Hsent & Hch & Hconn & Hs & Hr).
    repeat split; try assumption.
    destruct r as [v|e|e|]; [|right|exact Hr|exact Hr].
    + destruct Hr. repeat split; assumption.
    + split; assumption.
Qed.

End FootprintLemmas.

(** ** Every run of a synthesis and of a recognition *)

Section Ledger.
Import Buf Realtime Trace Footprint.

Lemma tts_subscribe_guarded (w : World) : guarded (tts_subscribe w).
Proof.
  exists TtsOnError. split; [left; reflexivity|].
  unfold tts_subscribe. rewrite !handlers_of_on. cbn.
  apply in_or_app. right. left. reflexivity.
Qed.

Lemma createWavHeader_canonical (n r c b : Z) (h : Buffer) :
  Wav.createWavHeader n r c b = Ok h -> h = Wav.canonical_header n r c b.
Proof.
  intros Hh. pose proof (createWavHeader_fits _ _ _ _ _ Hh) as Hfit.
  rewrite (createWavHeader_layout _ _ _ _ Hfit) in Hh. congruence.
Qed.

(** Every run of a synthesis on a non-empty text. *)
Lemma synthesis_ledger (fuel : nat) (config : Env) (text : string)
    (voiceName voiceGender : option string) (w : World) (r : Outcome Buffer) (w' : World) :
  text <> "" ->
  synthesizeSpeechRealtime fuel config (Some text) voiceName voiceGender w = (r, w') ->
  audioChars w' = audioChars w ++ [String.length text] /\
  ((exists e, r = Thrown (Error ("Speech synthesis failed: " +:+ message e))) /\
   sent w' = sent w /\
   ((sockets w' = sockets w /\ closes w' = closes w) \/
    (sockets w' = S (sockets w) /\
     (closes w' = closes w \/ closes w' = S (closes w) \/
      (closes w' = S (S (closes w)) /\ socketOpen w' = false /\
       r = Thrown (Error ("Speech synthesis failed: " +:+
                          message (connect_timeout GA)))))))
   \/
   sockets w' = S (sockets w) /\
   sent w' = sent w ++ [ConversationItemCreate text; ResponseCreate] /\
   match r with
   | Returned audioBuffer =>
       closes w' = S (closes w) /\
       audioBuffer =
         Wav.canonical_header
           (Z.of_nat (length (Buf.concat (audioChunks (vars w'))))) 24000 1 16
         ++ Buf.concat (audioChunks (vars w'))
   | Thrown e =>
       closes w' = S (closes w) /\
       exists m, e = Error ("Speech synthesis failed: " +:+ m)
   | Crashed _ | Pending => closes w' = closes w
   end).
Proof.
  intros Htext. unfold synthesizeSpeechRealtime, synthesize_with.
  assert (Hf : falsy (Some text) = false) by (apply String.eqb_neq; exact Htext).
  rewrite Hf. cbn [default].
  unfold try_catch_finally, bind, modify, configureRealtimeSession, read, ret.
  cbv beta. unfold id.
  destruct (createRealtimeClient config (tts_begin text w)) as [rc w1] eqn:Hconn.
  destruct (createRealtimeClient_ledger _ _ _ _ Hconn) as (Hl & Hsent & Hch & Hc & Hr).
  cbn in Hsent, Hch, Hc.
  destruct rc as [v|e|e|]; try contradiction.
  - (* the session opened *)
    destruct Hr as (Hreg & Hs & Hcl). cbn in Hs, Hcl.
    cbv beta iota zeta.
    set (w2 := tts_request text (tts_subscribe (connected v w1))).
    change (now w2) with (now w1).
    destruct (poll fuel v (tts_waiting (now w1) 30000) 100 w2) as [rp w3] eqn:Ep.
    destruct (poll_ledger _ _ _ _ _ _ _ Ep) as (Hl3 & Hnt & Hg).
    destruct Hg as [Hcl3 _].
    { apply (guarded_listeners (tts_subscribe (connected v w1))); [reflexivity|].
      apply tts_subscribe_guarded. }
    destruct Hl3 as (_ & Hs3 & Hsent3 & Hch3 & Hc3).
    cbn in Hs3, Hsent3, Hch3, Hc3, Hcl3.
    assert (Hclose : close_if_connected w3 = close w3).
    { unfold close_if_connected. rewrite Hc3. reflexivity. }
    assert (Hsent' : sent w3 = sent w ++ [ConversationItemCreate text; ResponseCreate]).
    { rewrite Hsent3, Hsent, <- app_assoc. reflexivity. }
    assert (Hch' : audioChars w3 = audioChars w ++ [String.length text]).
    { rewrite Hch3, Hch. reflexivity. }
    assert (Hs' : sockets w3 = S (sockets w)) by (rewrite Hs3; exact Hs).
    assert (Hcl' : closes w3 = closes w) by (rewrite Hcl3; exact Hcl).
    destruct rp as [[]|e|e|].
    + unfold tts_result, bind, read. cbv beta iota.
      destruct (responseDone (vars w3)); cbn [negb]; unfold throw.
      * unfold lift.
        destruct (Wav.createWavHeader _ 24000 1 16) as [h|e] eqn:Eh; unfold ret, throw;
          intros E; injection E as <- <-; rewrite Hclose;
          (split; [exact Hch'|]); right; (split; [exact Hs'|]);
          (split; [exact Hsent'|]); (split; [cbn; rewrite Hcl'; reflexivity|]).
        -- apply createWavHeader_canonical in Eh. subst h.
           cbn [vars close set_closes]. unfold concat at 1. cbn [List.concat].
           rewrite app_nil_r. reflexivity.
        -- eexists. reflexivity.
      * intros E; injection E as <- <-; rewrite Hclose.
        split; [exact Hch'|]. right. split; [exact Hs'|]. split; [exact Hsent'|].
        split; [cbn; rewrite Hcl'; reflexivity | eexists; reflexivity].
    + exfalso. exact (Hnt e eq_refl).
    + intros E; injection E as <- <-.
      split; [exact Hch'|]. right. split; [exact Hs'|]. split; [exact Hsent' | exact Hcl'].
    + intros E; injection E as <- <-.
      split; [exact Hch'|]. right. split; [exact Hs'|]. split; [exact Hsent' | exact Hcl'].
  - (* the session did not open *)
    unfold throw. intros E; injection E as <- <-.
    assert (Hnone : close_if_connected w1 = w1).
    { unfold close_if_connected. rewrite Hc. reflexivity. }
    rewrite Hnone. split; [exact Hch|]. left.
    split; [eexists; reflexivity|]. split; [exact Hsent|].
    destruct Hr as [Hr|[Hs [Hr|[Hr|(Hr & -> & Ho)]]]].
    + left. exact Hr.
    + right. split; [exact Hs | left; exact Hr].
    + right. split; [exact Hs | right; left; exact Hr].
    + right. split; [exact Hs|]. right. right. repeat split; assumption.
Qed.


Lemma stt_subscribe_guarded (w : World) : guarded (stt_subscribe w).
Proof.
  exists SttOnError. split; [right; reflexivity|].
  unfold stt_subscribe. rewrite !handlers_of_on. cbn.
  apply in_or_app. right. left. reflexivity.
Qed.

(** Every run of a recognition on a non-empty input. *)
Lemma recognition_ledger (fuel : nat) (config : Env) (audioData : string)
    (w : World) (r : Outcome (option string)) (w' : World) :
  audioData <> "" ->
  recognizeSpeechRealtime fuel config (Some audioData) w = (r, w') ->
  audioChars w' = audioChars w /\
  ((exists e, r = Thrown (Error ("Speech recognition failed: " +:+ message e))) /\
   sent w' = sent w /\
   ((sockets w' = sockets w /\ closes w' = closes w) \/
    (sockets w' = S (sockets w) /\
     (closes w' = closes w \/ closes w' = S (closes w) \/
      (closes w' = S (S (closes w)) /\ socketOpen w' = false /\
       r = Thrown (Error ("Speech recognition failed: " +:+
                          message (connect_timeout GA)))))))
   \/
   sockets w' = S (sockets w) /\
   match r with
   | Returned transcript =>
       closes w' = S (closes w) /\
       sent w' = sent w ++ [InputAudioBufferAppend audioData; InputAudioBufferCommit] /\
       transcript = transcriptText (vars w') /\ falsy transcript = false
   | Thrown e =>
       closes w' = S (closes w) /\
       sent w' = sent w ++ [InputAudioBufferAppend audioData; InputAudioBufferCommit] /\
       e = Error "Speech recognition failed: Transcription timeout - no response received"
   | Crashed _ | Pending =>
       closes w' = closes w /\
       (sent w' = sent w \/
        sent w' = sent w ++ [InputAudioBufferAppend audioData; InputAudioBufferCommit])
   end).
Proof.
  intros Haudio. unfold recognizeSpeechRealtime.
  assert (Hf : falsy (Some audioData) = false) by (apply String.eqb_neq; exact Haudio).
  rewrite Hf. cbn [default].
  unfold try_catch_finally, bind, modify, configureRealtimeSession, read, ret.
  cbv beta. unfold id.
  destruct (createRealtimeClient config (stt_begin w)) as [rc w1] eqn:Hconn.
  destruct (createRealtimeClient_ledger _ _ _ _ Hconn) as (Hl & Hsent & Hch & Hc & Hr).
  cbn in Hsent, Hch, Hc.
  destruct rc as [v|e|e|]; try contradiction.
  - destruct Hr as (Hreg & Hs & Hcl). cbn in Hs, Hcl.
    cbv beta iota zeta.
    set (w2 := stt_subscribe (connected v w1)).
    destruct (poll fuel v stt_unconfigured 50 w2) as [rp w3] eqn:Ep.
    destruct (poll_ledger _ _ _ _ _ _ _ Ep) as (Hl3 & Hnt & Hg).
    destruct Hg as [Hcl3 Hg3]; [apply stt_subscribe_guarded|].
    destruct Hl3 as (_ & Hs3 & Hsent3 & Hch3 & Hc3).
    cbn in Hs3, Hsent3, Hch3, Hc3, Hcl3.
    assert (Hch' : audioChars w3 = audioChars w) by (rewrite Hch3; exact Hch).
    assert (Hs' : sockets w3 = S (sockets w)) by (rewrite Hs3; exact Hs).
    assert (Hcl' : closes w3 = closes w) by (rewrite Hcl3; exact Hcl).
    assert (Hsent' : sent w3 = sent w) by (rewrite Hsent3; exact Hsent).
    destruct rp as [[]|e|e|];
      [| exfalso; exact (Hnt e eq_refl)
       | intros E; injection E as <- <-;
         (split; [exact Hch'|]); right; (split; [exact Hs'|]);
         (split; [exact Hcl' | left; exact Hsent'])
       | intros E; injection E as <- <-;
         (split; [exact Hch'|]); right; (split; [exact Hs'|]);
         (split; [exact Hcl' | left; exact Hsent']) ].
    set (w4 := stt_request audioData w3).
    change (now w4) with (now w3).
    destruct (poll fuel v (stt_waiting (now w3) 10000) 100 w4) as [rq w5] eqn:Eq.
    destruct (poll_ledger _ _ _ _ _ _ _ Eq) as (Hl5 & Hnt5 & Hg5).
    destruct Hg5 as [Hcl5 _]; [apply (guarded_listeners w3); [reflexivity | exact Hg3]|].
    destruct Hl5 as (_ & Hs5 & Hsent5 & Hch5 & Hc5).
    cbn in Hs5, Hsent5, Hch5, Hc5, Hcl5.
    assert (Hclose : close_if_connected w5 = close w5).
    { unfold close_if_connected. rewrite Hc5, Hc3. reflexivity. }
    assert (Hsent5' : sent w5 = sent w ++ [InputAudioBufferAppend audioData; InputAudioBufferCommit]).
    { rewrite Hsent5, Hsent', <- app_assoc. reflexivity. }
    assert (Hch5' : audioChars w5 = audioChars w) by (rewrite Hch5; exact Hch').
    assert (Hs5' : sockets w5 = S (sockets w)) by (rewrite Hs5; exact Hs').
    assert (Hcl5' : closes w5 = closes w) by (rewrite Hcl5; exact Hcl').
    destruct rq as [[]|e|e|];
      [| exfalso; exact (Hnt5 e eq_refl)
       | intros E; injection E as <- <-;
         (split; [exact Hch5'|]); right; (split; [exact Hs5'|]);
         (split; [exact Hcl5' | right; exact Hsent5'])
       | intros E; injection E as <- <-;
         (split; [exact Hch5'|]); right; (split; [exact Hs5'|]);
         (split; [exact Hcl5' | right; exact Hsent5']) ].
    unfold stt_result, bind, read. cbv beta iota.
    destruct (falsy (transcriptText (vars w5))) eqn:Et; unfold throw, ret;
      intros E; injection E as <- <-; rewrite Hclose;
      (split; [exact Hch5'|]); right; (split; [exact Hs5'|]);
      (split; [cbn; rewrite Hcl5'; reflexivity|]); (split; [exact Hsent5'|]).
    + reflexivity.
    + split; [reflexivity | exact Et].
  - unfold throw. intros E; injection E as <- <-.
    assert (Hnone : close_if_connected w1 = w1).
    { unfold close_if_connected. rewrite Hc. reflexivity. }
    rewrite Hnone. split; [exact Hch|]. left.
    split; [eexists; reflexivity|]. split; [exact Hsent|].
    destruct Hr as [Hr|[Hs [Hr|[Hr|(Hr & -> & Ho)]]]].
    + left. exact Hr.
    + right. split; [exact Hs | left; exact Hr].
    + right. split; [exact Hs | right; left; exact Hr].
    + right. split; [exact Hs|]. right. right. repeat split; assumption.
Qed.

End Ledger.

Section EveryRun.
Import Buf Wav Realtime Trace Footprint Script.

(** X7: a synthesis of a non-empty text records the length of the text with
    the statistics service exactly once, whatever the configuration, the
    transport and the outcome are, a failed connection included. *)
Theorem characters_recorded_once (fuel : nat) (config : Env) (text : string)
    (voiceName voiceGender : option string) (w : World) :
  text <> "" ->
  audioChars (snd (synthesizeSpeechRealtime fuel config (Some text)
                     voiceName voiceGender w))
  = audioChars w ++ [String.length text].
Proof.
  intros Htext.
  destruct (synthesizeSpeechRealtime fuel config (Some text) voiceName voiceGender w)
    as [r w'] eqn:E.
  destruct (synthesis_ledger _ _ _ _ _ _ _ _ Htext E) as [Hchars _].
  exact Hchars.
Qed.

Lemma characters_recorded_once_witness :
  audioChars (snd (synthesizeSpeechRealtime 300 preview_config (Some "hello")
                     None None (scripted punctual never_created)))
  = audioChars (scripted punctual never_created) ++ [String.length "hello"].
Proof.
  apply (characters_recorded_once 300 preview_config "hello" None None
           (scripted punctual never_created)).
  discriminate.
Defined.

(** X8: whatever arrives on the transport, a synthesis sends either nothing
    (and then it fails: the session did not open) or exactly the two
    commands "conversation.item.create" with the text and "response.create",
    in this order; it creates at most one transport. *)
Theorem synthesis_sends_two_commands (fuel : nat) (config : Env) (text : string)
    (voiceName voiceGender : option string) (w : World)
    (r : Outcome Buffer) (w' : World) :
  text <> "" ->
  synthesizeSpeechRealtime fuel config (Some text) voiceName voiceGender w = (r, w') ->
  ((sent w' = sent w /\ exists e, r = Thrown e) \/
   (sent w' = sent w ++ [ConversationItemCreate text; ResponseCreate] /\
    sockets w' = S (sockets w))) /\
  (sockets w' = sockets w \/ sockets w' = S (sockets w)).
Proof.
  intros Htext E.
  destruct (synthesis_ledger _ _ _ _ _ _ _ _ Htext E)
    as [_ [([e He] & Hsent & Hs)|(Hs & Hsent & _)]].
  - split; [left; split; [exact Hsent | eexists; exact He]|].
    destruct Hs as [[Hs _]|[Hs _]]; [left | right]; exact Hs.
  - split; [right; split; assumption | right; exact Hs].
Qed.

Lemma synthesis_sends_two_commands_witness :
  ((sent (snd (synthesizeSpeechRealtime 300 ga_config (Some "hello") None None
                 (scripted punctual never_done)))
    = sent (scripted punctual never_done) /\
    exists e, @Thrown Buffer (Error timeout_message) = Thrown e) \/
   (sent (snd (synthesizeSpeechRealtime 300 ga_config (Some "hello") None None
                 (scripted punctual never_done)))
    = sent (scripted punctual never_done)
      ++ [ConversationItemCreate "hello"; ResponseCreate] /\
    sockets (snd (synthesizeSpeechRealtime 300 ga_config (Some "hello") None None
                    (scripted punctual never_done)))
    = S (sockets (scripted punctual never_done)))) /\
  (sockets (snd (synthesizeSpeechRealtime 300 ga_config (Some "hello") None None
                   (scripted punctual never_done)))
   = sockets (scripted punctual never_done) \/
   sockets (snd (synthesizeSpeechRealtime 300 ga_config (Some "hello") None None
                   (scripted punctual never_done)))
   = S (sockets (scripted punctual never_done))).
Proof.
  apply (synthesis_sends_two_commands 300 ga_config "hello" None None
           (scripted punctual never_done) (Thrown (Error timeout_message))).
  - discriminate.
  - vm_compute. reflexivity.
Defined.

(** X9: a synthesis calls [close] at most twice, and twice only when the
    10 s connection timer of the first variant fired on a socket that had
    not opened: the synthesis then fails with the connection timeout. When
    it returns audio it has created one transport and closed it once; when
    the wait is ended by an exception that escaped a listener, or is still
    going on, nothing has been closed. *)
Theorem synthesis_close_count (fuel : nat) (config : Env) (text : string)
    (voiceName voiceGender : option string) (w : World)
    (r : Outcome Buffer) (w' : World) :
  text <> "" ->
  synthesizeSpeechRealtime fuel config (Some text) voiceName voiceGender w = (r, w') ->
  (closes w' = closes w \/ closes w' = S (closes w) \/
   (closes w' = S (S (closes w)) /\ socketOpen w' = false /\
    r = Thrown (Error ("Speech synthesis failed: " +:+
                       "WebSocket connection timeout - did not receive session.created")))) /\
  match r with
  | Returned _ => closes w' = S (closes w) /\ sockets w' = S (sockets w)
  | Thrown _ => True
  | Crashed _ | Pending => closes w' = closes w /\ sockets w' = S (sockets w)
  end.
Proof.
  intros Htext E.
  destruct (synthesis_ledger _ _ _ _ _ _ _ _ Htext E)
    as [_ [([e He] & _ & Hs)|(Hs & _ & Hr)]].
  - split; [|subst r; exact I].
    destruct Hs as [[_ Hc]|[_ [Hc|[Hc|(Hc & Ho & Hr)]]]].
    + left. exact Hc.
    + left. exact Hc.
    + right. left. exact Hc.
    + right. right. repeat split; assumption.
  - destruct r as [buf|e|e|].
    + destruct Hr as [Hc _]. split; [right; left; exact Hc | split; assumption].
    + destruct Hr as [Hc _]. split; [right; left; exact Hc | exact I].
    + split; [left; exact Hr | split; assumption].
    + split; [left; exact Hr | split; assumption].
Qed.

Lemma synthesis_close_count_witness :
  (closes (snd (synthesizeSpeechRealtime 300 ga_config (Some "hello") None None
                  (scripted punctual [])))
   = closes (scripted punctual []) \/
   closes (snd (synthesizeSpeechRealtime 300 ga_config (Some "hello") None None
                  (scripted punctual [])))
   = S (closes (scripted punctual [])) \/
   (closes (snd (synthesizeSpeechRealtime 300 ga_config (Some "hello") None None
                   (scripted punctual [])))
    = S (S (closes (scripted punctual []))) /\
    socketOpen (snd (synthesizeSpeechRealtime 300 ga_config (Some "hello") None None
                       (scripted punctual []))) = false /\
    @Thrown Buffer (Error ("Speech synthesis failed: " +:+
       "WebSocket connection timeout - did not receive session.created"))
    = Thrown (Error ("Speech synthesis failed: " +:+
       "WebSocket connection timeout - did not receive session.created")))) /\
  True.
Proof.
  apply (synthesis_close_count 300 ga_config "hello" None None
           (scripted punctual [])
           (Thrown (Error ("Speech synthesis failed: " +:+
              "WebSocket connection timeout - did not receive session.created")))).
  - discriminate.
  - vm_compute. reflexivity.
Defined.

(** The two cases of the connection timeout of the first variant: a socket
    that opened is closed once, one that is still connecting twice. *)
Example connection_timeout_closes :
  closes (snd (synthesizeSpeechRealtime 300 ga_config (Some "hello") None None
                 (scripted punctual never_created))) = 1%nat /\
  closes (snd (synthesizeSpeechRealtime 300 ga_config (Some "hello") None None
                 (scripted punctual []))) = 2%nat /\
  closes (snd (synthesizeSpeechRealtime 300 preview_config (Some "hello") None None
                 (scripted punctual []))) = 0%nat.
Proof. vm_compute. repeat split; reflexivity. Qed.

(** X10: whatever arrives on the transport, a buffer that a synthesis returns
    is a WAV file: the canonical 44-byte header for 24 kHz, one channel and
    16 bits, announcing as data length the number of bytes that follow it,
    and then the audio chunks collected, in order. *)
Theorem synthesis_returns_wav (fuel : nat) (config : Env)
    (text voiceName voiceGender : option string) (w : World)
    (audioBuffer : Buffer) (w' : World) :
  synthesizeSpeechRealtime fuel config text voiceName voiceGender w
    = (Returned audioBuffer, w') ->
  audioBuffer =
    canonical_header (Z.of_nat (length (concat (audioChunks (vars w'))))) 24000 1 16
    ++ concat (audioChunks (vars w')) /\
  length audioBuffer = (44 + length (concat (audioChunks (vars w'))))%nat /\
  slice 0 4 audioBuffer = bytes_of_string "RIFF".
Proof.
  intros E.
  assert (Htext : exists t, text = Some t /\ t <> "").
  { destruct text as [t|]; [|discriminate E]. exists t. split; [reflexivity|].
    intros ->. discriminate E. }
  destruct Htext as (t & -> & Ht).
  destruct (synthesis_ledger _ _ _ _ _ _ _ _ Ht E)
    as [_ [([e He] & _)|(_ & _ & _ & Hbuf)]]; [discriminate He|].
  split; [exact Hbuf|]. rewrite Hbuf at 1 2.
  split; [rewrite length_app; reflexivity | reflexivity].
Qed.

Lemma synthesis_returns_wav_witness :
  canonical_header 350 24000 1 16 ++ chunk100 ++ chunk200 ++ chunk50 =
    canonical_header
      (Z.of_nat (length (concat (audioChunks (vars
         (snd (synthesizeSpeechRealtime 300 ga_config (Some "hello") None None
                 (scripted punctual three_chunks)))))))) 24000 1 16
    ++ concat (audioChunks (vars
         (snd (synthesizeSpeechRealtime 300 ga_config (Some "hello") None None
                 (scripted punctual three_chunks))))) /\
  length (canonical_header 350 24000 1 16 ++ chunk100 ++ chunk200 ++ chunk50) =
    (44 + length (concat (audioChunks (vars
         (snd (synthesizeSpeechRealtime 300 ga_config (Some "hello") None None
                 (scripted punctual three_chunks)))))))%nat /\
  slice 0 4 (canonical_header 350 24000 1 16 ++ chunk100 ++ chunk200 ++ chunk50)
    = bytes_of_string "RIFF".
Proof.
  apply (synthesis_returns_wav 300 ga_config (Some "hello") None None
           (scripted punctual three_chunks)).
  vm_compute. reflexivity.
Defined.

End EveryRun.

Section RecognitionRuns.
Import Buf Realtime Trace Footprint Script Fixture Routes.

(** X11: recognition records no statistics; whatever arrives, it sends either
    nothing or exactly the audio ("input_audio_buffer.append") followed by
    the commit, and it calls [close] at most twice, twice only when the
    connection timer of the first variant fired on a socket that had not
    opened; a transcript that it returns is not empty, both commands were
    sent before, and the transport was closed once. *)
Theorem recognition_sends_audio_then_commit (fuel : nat) (config : Env)
    (audioData : string) (w : World) (r : Outcome (option string)) (w' : World) :
  audioData <> "" ->
  recognizeSpeechRealtime fuel config (Some audioData) w = (r, w') ->
  audioChars w' = audioChars w /\
  (sent w' = sent w \/
   sent w' = sent w ++ [InputAudioBufferAppend audioData; InputAudioBufferCommit]) /\
  (closes w' = closes w \/ closes w' = S (closes w) \/
   (closes w' = S (S (closes w)) /\ socketOpen w' = false /\
    r = Thrown (Error ("Speech recognition failed: " +:+
                       "WebSocket connection timeout - did not receive session.created")))) /\
  (forall transcript, r = Returned transcript ->
     (exists t, transcript = Some t /\ t <> "") /\
     transcript = transcriptText (vars w') /\
     sent w' = sent w ++ [InputAudioBufferAppend audioData; InputAudioBufferCommit] /\
     closes w' = S (closes w)).
Proof.
  intros Haudio E.
  destruct (recognition_ledger _ _ _ _ _ _ Haudio E)
    as [Hchars [([e He] & Hsent & Hs)|(Hs & Hr)]].
  - split; [exact Hchars|]. split; [left; exact Hsent|]. split.
    + destruct Hs as [[_ Hc]|[_ [Hc|[Hc|(Hc & Ho & Hr)]]]].
      * left. exact Hc.
      * left. exact Hc.
      * right. left. exact Hc.
      * right. right. repeat split; assumption.
    + intros t Ht. congruence.
  - split; [exact Hchars|]. destruct r as [t|e|e|].
    + destruct Hr as (Hc & Hsent & Ht & Hf).
      split; [right; exact Hsent|]. split; [right; left; exact Hc|].
      intros t' [= <-]. repeat split; try assumption.
      destruct t as [s|]; [|discriminate Hf]. exists s. split; [reflexivity|].
      apply String.eqb_neq. exact Hf.
    + destruct Hr as (Hc & Hsent & _).
      split; [right; exact Hsent|]. split; [right; left; exact Hc | discriminate].
    + destruct Hr as (Hc & Hsent). split; [exact Hsent|].
      split; [left; exact Hc | discriminate].
    + destruct Hr as (Hc & Hsent). split; [exact Hsent|].
      split; [left; exact Hc | discriminate].
Qed.

Lemma recognition_sends_audio_then_commit_witness :
  audioChars (snd (recognizeSpeechRealtime 400 ga_config (Some "AAAA")
                     (scripted punctual transcribed)))
  = audioChars (scripted punctual transcribed) /\
  (sent (snd (recognizeSpeechRealtime 400 ga_config (Some "AAAA")
                (scripted punctual transcribed)))
   = sent (scripted punctual transcribed) \/
   sent (snd (recognizeSpeechRealtime 400 ga_config (Some "AAAA")
                (scripted punctual transcribed)))
   = sent (scripted punctual transcribed)
     ++ [InputAudioBufferAppend "AAAA"; InputAudioBufferCommit]) /\
  (closes (snd (recognizeSpeechRealtime 400 ga_config (Some "AAAA")
                  (scripted punctual transcribed)))
   = closes (scripted punctual transcribed) \/
   closes (snd (recognizeSpeechRealtime 400 ga_config (Some "AAAA")
                  (scripted punctual transcribed)))
   = S (closes (scripted punctual transcribed)) \/
   (closes (snd (recognizeSpeechRealtime 400 ga_config (Some "AAAA")
                   (scripted punctual transcribed)))
    = S (S (closes (scripted punctual transcribed))) /\
    socketOpen (snd (recognizeSpeechRealtime 400 ga_config (Some "AAAA")
                       (scripted punctual transcribed))) = false /\
    Returned (Some "hello world")
    = Thrown (Error ("Speech recognition failed: " +:+
        "WebSocket connection timeout - did not receive session.created")))) /\
  (forall transcript,
     Returned (Some "hello world") = Returned transcript ->
     (exists t, transcript = Some t /\ t <> "") /\
     transcript = transcriptText (vars
       (snd (recognizeSpeechRealtime 400 ga_config (Some "AAAA")
               (scripted punctual transcribed)))) /\
     sent (snd (recognizeSpeechRealtime 400 ga_config (Some "AAAA")
                  (scripted punctual transcribed)))
     = sent (scripted punctual transcribed)
       ++ [InputAudioBufferAppend "AAAA"; InputAudioBufferCommit] /\
     closes (snd (recognizeSpeechRealtime 400 ga_config (Some "AAAA")
                    (scripted punctual transcribed)))
     = S (closes (scripted punctual transcribed))).
Proof.
  apply (recognition_sends_audio_then_commit 400 ga_config "AAAA"
           (scripted punctual transcribed) (Returned (Some "hello world"))).
  - discriminate.
  - vm_compute. reflexivity.
Defined.

(** X12: an error that a recognition of a non-empty input throws is either
    the transcription timeout, and then both commands were sent and one
    transport was created and closed once, or an error with the prefix
    "Speech recognition failed: " before the message of its cause, and then
    nothing was sent. *)
Theorem recognition_thrown_errors (fuel : nat) (config : Env)
    (audioData : string) (w : World) (e : JsError) (w' : World) :
  audioData <> "" ->
  recognizeSpeechRealtime fuel config (Some audioData) w = (Thrown e, w') ->
  (e = Error "Speech recognition failed: Transcription timeout - no response received" /\
   sent w' = sent w ++ [InputAudioBufferAppend audioData; InputAudioBufferCommit] /\
   sockets w' = S (sockets w) /\ closes w' = S (closes w)) \/
  ((exists cause, e = Error ("Speech recognition failed: " +:+ message cause)) /\
   sent w' = sent w).
Proof.
  intros Haudio E.
  destruct (recognition_ledger _ _ _ _ _ _ Haudio E)
    as [_ [([cause He] & Hsent & _)|(Hs & Hc & Hsent & He)]].
  - right. split; [exists cause; congruence | exact Hsent].
  - left. repeat split; assumption.
Qed.

Lemma recognition_thrown_errors_witness :
  (Error "Speech recognition failed: Transcription timeout - no response received"
   = Error "Speech recognition failed: Transcription timeout - no response received" /\
   sent (snd (recognizeSpeechRealtime 400 ga_config (Some "AAAA")
                (scripted punctual configured)))
   = sent (scripted punctual configured)
     ++ [InputAudioBufferAppend "AAAA"; InputAudioBufferCommit] /\
   sockets (snd (recognizeSpeechRealtime 400 ga_config (Some "AAAA")
                   (scripted punctual configured)))
   = S (sockets (scripted punctual configured)) /\
   closes (snd (recognizeSpeechRealtime 400 ga_config (Some "AAAA")
                  (scripted punctual configured)))
   = S (closes (scripted punctual configured))) \/
  ((exists cause,
      Error "Speech recognition failed: Transcription timeout - no response received"
      = Error ("Speech recognition failed: " +:+ message cause)) /\
   sent (snd (recognizeSpeechRealtime 400 ga_config (Some "AAAA")
                (scripted punctual configured)))
   = sent (scripted punctual configured)).
Proof.
  apply (recognition_thrown_errors 400 ga_config "AAAA"
           (scripted punctual configured)).
  - discriminate.
  - vm_compute. reflexivity.
Defined.

End RecognitionRuns.

(** ** Missing credentials *)

Section MissingCredentials.
Import Buf Realtime Trace Info Script Fixture.

(** X13: when the endpoint or the key is not configured, a synthesis and a
    recognition of a non-empty input fail with the configuration error
    wrapped in their own message, without creating a transport, sending or
    closing anything; the synthesis has recorded its characters all the
    same, and [getRealtimeInfo] throws the bare configuration error. *)
Theorem missing_credentials (fuel : nat) (config : Env) (text audioData : string)
    (voiceName voiceGender : option string) (w : World) :
  text <> "" -> audioData <> "" ->
  falsy (azureOpenAiRealtimeEndpoint config) || falsy (azureOpenAiRealtimeKey config) = true ->
  synthesizeSpeechRealtime fuel config (Some text) voiceName voiceGender w =
    (Thrown (Error ("Speech synthesis failed: " +:+
       "Azure OpenAI Realtime endpoint and API key are required for Realtime API")),
     tts_begin text w) /\
  audioChars (tts_begin text w) = audioChars w ++ [String.length text] /\
  sockets (tts_begin text w) = sockets w /\ closes (tts_begin text w) = closes w /\
  sent (tts_begin text w) = sent w /\
  recognizeSpeechRealtime fuel config (Some audioData) w =
    (Thrown (Error ("Speech recognition failed: " +:+
       "Azure OpenAI Realtime endpoint and API key are required for Realtime API")),
     stt_begin w) /\
  sockets (stt_begin w) = sockets w /\ closes (stt_begin w) = closes w /\
  sent (stt_begin w) = sent w /\ audioChars (stt_begin w) = audioChars w /\
  getRealtimeInfo config =
    Throw (Error "Azure OpenAI Realtime endpoint and API key are required for Realtime API").
Proof.
  intros Htext Haudio Hmissing.
  assert (Hcfg : getRealtimeConfig config =
            Throw (Error "Azure OpenAI Realtime endpoint and API key are required for Realtime API")).
  { unfold getRealtimeConfig. cbv zeta. rewrite Hmissing. reflexivity. }
  assert (Hconn : forall w0, createRealtimeClient config w0 =
            (Thrown (Error "Azure OpenAI Realtime endpoint and API key are required for Realtime API"), w0)).
  { intros w0. unfold createRealtimeClient, bind, lift. rewrite Hcfg. reflexivity. }
  split.
  { unfold synthesizeSpeechRealtime, synthesize_with.
    rewrite (proj2 (String.eqb_neq text "") Htext : falsy (Some text) = false).
    unfold try_catch_finally, bind, modify. cbn [default]. unfold id.
    rewrite Hconn. reflexivity. }
  do 4 (split; [reflexivity|]).
  split.
  { unfold recognizeSpeechRealtime.
    rewrite (proj2 (String.eqb_neq audioData "") Haudio : falsy (Some audioData) = false).
    unfold try_catch_finally, bind, modify. rewrite Hconn. reflexivity. }
  do 4 (split; [reflexivity|]).
  unfold getRealtimeInfo. rewrite Hcfg. reflexivity.
Qed.

Lemma missing_credentials_witness :
  synthesizeSpeechRealtime 300 no_credentials (Some "hello") None None
      (scripted punctual handshake) =
    (Thrown (Error ("Speech synthesis failed: " +:+
       "Azure OpenAI Realtime endpoint and API key are required for Realtime API")),
     tts_begin "hello" (scripted punctual handshake)) /\
  audioChars (tts_begin "hello" (scripted punctual handshake))
    = audioChars (scripted punctual handshake) ++ [String.length "hello"] /\
  sockets (tts_begin "hello" (scripted punctual handshake))
    = sockets (scripted punctual handshake) /\
  closes (tts_begin "hello" (scripted punctual handshake))
    = closes (scripted punctual handshake) /\
  sent (tts_begin "hello" (scripted punctual handshake))
    = sent (scripted punctual handshake) /\
  recognizeSpeechRealtime 300 no_credentials (Some "AAAA")
      (scripted punctual handshake) =
    (Thrown (Error ("Speech recognition failed: " +:+
       "Azure OpenAI Realtime endpoint and API key are required for Realtime API")),
     stt_begin (scripted punctual handshake)) /\
  sockets (stt_begin (scripted punctual handshake)) = sockets (scripted punctual handshake) /\
  closes (stt_begin (scripted punctual handshake)) = closes (scripted punctual handshake) /\
  sent (stt_begin (scripted punctual handshake)) = sent (scripted punctual handshake) /\
  audioChars (stt_begin (scripted punctual handshake))
    = audioChars (scripted punctual handshake) /\
  getRealtimeInfo no_credentials =
    Throw (Error "Azure OpenAI Realtime endpoint and API key are required for Realtime API").
Proof.
  apply (missing_credentials 300 no_credentials "hello" "AAAA" None None
           (scripted punctual handshake)).
  - discriminate.
  - discriminate.
  - reflexivity.
Defined.

End MissingCredentials.

Section EveryChunk.
Import Buf Wav Realtime Trace Script.

Lemma chunks_in_app (l1 l2 : list (Z * Occurrence)) :
  chunks_in (l1 ++ l2) = chunks_in l1 ++ chunks_in l2.
Proof. apply flat_map_app. Qed.

Lemma done_is_not_audio (occ : Occurrence) : is_done occ = true -> chunk_of occ = [].
Proof.
  destruct occ as [|e|err]; try reflexivity. cbn. unfold response_done, audio_delta.
  intros H. apply String.eqb_eq in H. rewrite H. reflexivity.
Qed.

(** X14: once the session is open, on a script of server messages (under the
    second variant none of them an error event or an audio delta without
    payload), if the first completion event and all that is scripted before
    it arrive before the 30 s deadline, and no audio is scripted after it,
    the synthesis returns the WAV header followed by the decoded payload of
    every audio delta, in arrival order, however many there are (their total
    length fitting the header); the header announces that length, and the
    session is closed once. *)
Theorem synthesis_concatenates_every_chunk (fuel : nat) (config : Env) (text : string)
    (voiceName voiceGender : option string) (margin : Z)
    (w w1 : World) (v : Variant) (pre post : list (Z * Occurrence))
    (t : Z) (completion : Occurrence) :
  text <> "" -> (300 <= fuel)%nat -> timely margin w ->
  createRealtimeClient config (tts_begin text w) = (Returned v, w1) ->
  arrivals w1 = pre ++ (t, completion) :: post ->
  is_done completion = true -> done_in pre = false ->
  quiet_script v (arrivals w1) ->
  Forall (fun p => is_audio (snd p) = false) post ->
  Forall (fun p => fst p < now w1 + 30000) (pre ++ [(t, completion)]) ->
  36 + Z.of_nat (length (concat (chunks_in pre))) < 2 ^ 32 ->
  exists w',
    synthesizeSpeechRealtime fuel config (Some text) voiceName voiceGender w =
      (Returned (canonical_header (Z.of_nat (length (concat (chunks_in pre)))) 24000 1 16
                 ++ concat (chunks_in pre)), w') /\
    closes w' = S (closes w) /\ sockets w' = S (sockets w).
Proof.
  intros Htext Hfuel Hlag Hconn Harr Hcompl Hfirst Hq Hsilent Hearly Hsize.
  destruct (synthesis_run fuel config text voiceName voiceGender margin w w1 v
              Htext Hfuel Hlag Hconn Hq)
    as (d & w2 & Hsplit & Hsock & Hcl & _ & _ & _ & Hexit & Hrun).
  assert (Hdone : done_in d = true).
  { apply (completion_is_delivered (now w1 + 30000) t completion pre post d w2);
      [rewrite <- Hsplit; apply eq_sym, Harr | exact Hcompl | exact Hearly | exact Hexit]. }
  assert (Hchunks : chunks_in d = chunks_in pre).
  { rewrite Harr in Hsplit. apply app_eq_inv in Hsplit.
    destruct Hsplit as [(k & Hp & Hr)|(k & Hd & Hr)].
    - (* [d] stops inside [pre]: no completion event was delivered *)
      rewrite Hp, done_in_app, Hdone in Hfirst. discriminate Hfirst.
    - (* [d] covers [pre] *)
      destruct k as [|p k].
      + rewrite app_nil_r in Hd. subst d. reflexivity.
      + injection Hr as <- Hpost. subst d.
        rewrite chunks_in_app. cbn [chunks_in flat_map snd].
        fold (chunks_in k). rewrite (done_is_not_audio _ Hcompl).
        rewrite (chunks_in_no_audio k), app_nil_r; [reflexivity|].
        rewrite Hpost in Hsilent. apply Forall_app in Hsilent. apply Hsilent. }
  rewrite Hdone, Hchunks, framed_small in Hrun by exact Hsize.
  exists (close w2). split; [exact Hrun|].
  cbn. split; [rewrite Hcl; reflexivity | exact Hsock].
Qed.

Lemma synthesis_concatenates_every_chunk_witness :
  exists w',
    synthesizeSpeechRealtime 300 ga_config (Some "hello") None None
        (scripted punctual three_chunks) =
      (Returned (canonical_header
                   (Z.of_nat (length (concat (chunks_in
                      [(300, audio chunk100); (450, audio chunk200); (700, audio chunk50)]))))
                   24000 1 16
                 ++ concat (chunks_in
                      [(300, audio chunk100); (450, audio chunk200); (700, audio chunk50)])),
       w') /\
    closes w' = S (closes (scripted punctual three_chunks)) /\
    sockets w' = S (sockets (scripted punctual three_chunks)).
Proof.
  apply (synthesis_concatenates_every_chunk 300 ga_config "hello" None None 0
           (scripted punctual three_chunks) (ready ga_config three_chunks) GA
           [(300, audio chunk100); (450, audio chunk200); (700, audio chunk50)] []
           900 done).
  - discriminate.
  - lia.
  - intros k. unfold scripted, punctual. cbn. lia.
  - vm_compute. reflexivity.
  - vm_compute. reflexivity.
  - reflexivity.
  - reflexivity.
  - vm_compute. repeat constructor.
  - constructor.
  - vm_compute. repeat constructor.
  - vm_compute. reflexivity.
Defined.

End EveryChunk.

(** ** Opening the session *)

Section OpeningLemmas.
Import Buf Realtime Trace Opening.

Lemma same_request_refl (w : World) : same_request w w.
Proof. repeat split. Qed.

Lemma same_request_trans (w1 w2 w3 : World) :
  same_request w1 w2 -> same_request w2 w3 -> same_request w1 w3.
Proof.
  unfold same_request. intros (?&?&?&?&?&?&?) (?&?&?&?&?&?&?). repeat split; congruence.
Qed.

Lemma opening_listeners (v : Variant) (w w' : World) :
  listeners w' = listeners w -> opening v w -> opening v w'.
Proof.
  intros Hl (cs & ce & Hcs & Hce & Hp & Hh). exists cs, ce.
  repeat split; try assumption; try (apply Hp; assumption).
  intros k. rewrite (handlers_of_listeners k w w' Hl). apply Hh.
Qed.

Lemma opening_new_client (w : World) : opening GA (new_client w).
Proof.
  exists [], []. split; [constructor|]. split; [constructor|].
  split; [discriminate|].
  intros k. unfold handlers_of, new_client. cbn. rewrite lookup_empty. cbn.
  unfold connect_handlers. destruct (String.eqb k "session.created"); [reflexivity|].
  destruct (String.eqb k "error"); reflexivity.
Qed.

Lemma opening_preview_client (w : World) :
  opening Preview
    (on "session.created" OnSessionCreated (on "error" OnErrorReject (new_client w))) /\
  subscribed
    (on "session.created" OnSessionCreated (on "error" OnErrorReject (new_client w))).
Proof.
  split.
  - exists [OnSessionCreated], [OnErrorReject].
    split; [repeat constructor|]. split; [repeat constructor|].
    split; [intros _; split; discriminate|].
    intros k. rewrite !handlers_of_on.
    unfold handlers_of, new_client. cbn. rewrite lookup_empty. cbn.
    unfold connect_handlers. by_event; reflexivity.
  - unfold subscribed. rewrite !handlers_of_on. cbn. discriminate.
Qed.

(** Handlers that only log leave everything as it is. *)
Lemma run_log_only (hs : list Handler) (p : Payload) (vs : Vars) :
  Forall (eq OnNonFatalError) hs -> run_handlers hs p vs = (Ok tt, vs).
Proof.
  induction 1 as [|h hs <- _ IH]; [reflexivity|]. cbn. exact IH.
Qed.

(** A harmless occurrence while the promise is unsettled. *)
Lemma harmless_deliver (v : Variant) (occ : Occurrence) (w : World) :
  opening v w -> harmless v occ ->
  exists w',
    deliver v occ w = (None, w') /\ opening v w' /\ same_request w w' /\
    now w' = now w /\ arrivals w' = arrivals w /\
    (subscribed w -> subscribed w') /\
    (v = GA -> is_open occ = true -> subscribed w').
Proof.
  intros Hop Hocc. pose proof Hop as (cs & ce & Hcs & Hce & Hp & Hh).
  destruct occ as [|e|err]; [| |contradiction].
  - destruct v; cbn [deliver].
    + exists (ga_on_open w). split; [reflexivity|]. split.
      { exists (cs ++ [OnSessionCreated]), (ce ++ [OnNonFatalError]).
        split; [apply Forall_app; split; [exact Hcs | repeat constructor]|].
        split; [apply Forall_app; split; [exact Hce | repeat constructor]|].
        split; [discriminate|].
        intros k. unfold ga_on_open.
        assert (Hh' : forall e0, handlers_of e0 (set_socketOpen true w)
                                 = connect_handlers cs ce e0) by (intros e0; apply Hh).
        rewrite !handlers_of_on, !Hh'.
        unfold connect_handlers. by_event; reflexivity. }
      split; [repeat split|]. split; [reflexivity|]. split; [reflexivity|].
      assert (Hsub : subscribed (ga_on_open w)).
      { unfold subscribed, ga_on_open. rewrite !handlers_of_on. cbn.
        intros H. apply app_eq_nil in H. destruct H as [_ H]. discriminate H. }
      split; intros; exact Hsub.
    + exists w. split; [reflexivity|]. split; [exact Hop|].
      split; [apply same_request_refl|]. split; [reflexivity|]. split; [reflexivity|].
      split; [auto | discriminate].
  - destruct Hocc as [H1 H2]. exists w.
    split; [|split; [exact Hop|]; split; [apply same_request_refl|];
             split; [reflexivity|]; split; [reflexivity|]; split; [auto|];
             intros _ H; discriminate H].
    assert (Hany : emit "server.*" (PEvent e) w = (Ok tt, w)).
    { unfold emit. rewrite Hh. cbn. rewrite set_vars_same. reflexivity. }
    destruct v; cbn [deliver].
    + unfold ga_on_message.
      assert (Hemit : emit (ev_type e) (PEvent e) w = (Ok tt, w)).
      { unfold emit. rewrite Hh. unfold connect_handlers.
        rewrite (proj2 (String.eqb_neq _ _) H1).
        destruct (String.eqb (ev_type e) "error").
        - rewrite (run_log_only ce _ _ Hce), set_vars_same. reflexivity.
        - cbn. rewrite set_vars_same. reflexivity. }
      rewrite Hemit, Hany. reflexivity.
    + specialize (H2 eq_refl).
      rewrite (proj2 (String.eqb_neq _ _) H2). unfold sdk_emit, emit.
      rewrite Hh. unfold connect_handlers.
      rewrite (proj2 (String.eqb_neq _ _) H1), (proj2 (String.eqb_neq _ _) H2).
      cbn. rewrite set_vars_same. reflexivity.
Qed.

(** A prefix of harmless occurrences that arrive before [due] is delivered
    without a trace, other than the subscriptions made when the socket
    opens. *)
Lemma harmless_prefix (v : Variant) (due : Z) (rest : list (Z * Occurrence))
    (pre : list (Z * Occurrence)) :
  forall w,
    arrivals w = pre ++ rest -> opening v w -> opened (vars w) = Unsettled ->
    Forall (fun p => harmless v (snd p)) pre ->
    Forall (fun p => fst p < due) pre ->
    exists w',
      deliver_until v (fun w => is_settled (vars w)) due (pre ++ rest) w =
      deliver_until v (fun w => is_settled (vars w)) due rest w' /\
      arrivals w' = rest /\ opening v w' /\ same_request w w' /\
      now w <= now w' /\ Forall (fun p => fst p <= now w') pre /\
      (subscribed w -> subscribed w') /\
      (v = GA -> existsb (fun p => is_open (snd p)) pre = true -> subscribed w').
Proof.
  induction pre as [|[t occ] pre IH]; intros w Harr Hop Hun Hh He.
  - exists w. split; [reflexivity|]. split; [exact Harr|]. split; [exact Hop|].
    split; [apply same_request_refl|]. split; [lia|]. split; [constructor|].
    split; [auto | discriminate].
  - inversion Hh as [|? ? Ho Hh']; subst. inversion He as [|? ? Ht He']; subst.
    cbn in Ht. cbn [app deliver_until]. unfold is_settled at 1. rewrite Hun.
    rewrite (proj2 (Z.ltb_lt _ _) Ht).
    set (w1 := set_now (Z.max (now w) t) (set_arrivals (pre ++ rest) w)).
    destruct (harmless_deliver v occ w1) as (w2 & Ed & Hop2 & Hsame & Hnow & Harr2 & Hs & Hso).
    { apply (opening_listeners v w); [reflexivity | exact Hop]. }
    { exact Ho. }
    rewrite Ed.
    destruct (IH w2) as (w' & Erun & Harr' & Hop' & Hsame' & Hnow' & Hpast & Hs' & Hso').
    { rewrite Harr2. reflexivity. }
    { exact Hop2. }
    { destruct Hsame as (Hv & _). rewrite Hv. exact Hun. }
    { exact Hh'. }
    { exact He'. }
    exists w'. split; [exact Erun|]. split; [exact Harr'|]. split; [exact Hop'|].
    split; [apply (same_request_trans w w2 w'); [exact Hsame | exact Hsame']|].
    cbn in Hnow. split; [lia|].
    split; [constructor; [cbn; lia | exact Hpast]|].
    split.
    + intros H. apply Hs', Hs. exact H.
    + intros Hv Hopen. cbn [existsb snd] in Hopen. apply orb_true_iff in Hopen.
      destruct Hopen as [Hopen|Hopen]; [apply Hs', (Hso Hv Hopen) | exact (Hso' Hv Hopen)].
Qed.


Lemma run_created (cs : list Handler) (p : Payload) (vs : Vars) :
  Forall (eq OnSessionCreated) cs -> cs <> [] -> opened vs = Unsettled ->
  run_handlers cs p vs = (Ok tt, set_opened Resolved vs).
Proof.
  intros Hcs Hne Hun. destruct Hcs as [|h cs <- Hcs]; [contradiction|].
  cbn [run_handlers run_handler]. unfold settle. rewrite Hun.
  assert (Hrest : forall vs', opened vs' = Resolved -> run_handlers cs p vs' = (Ok tt, vs')).
  { clear Hne. induction Hcs as [|h cs <- _ IH]; intros vs' Hr; [reflexivity|].
    cbn [run_handlers run_handler]. unfold settle. rewrite Hr. apply IH, Hr. }
  apply Hrest. reflexivity.
Qed.

Lemma run_rejecting (ce : list Handler) (err : JsError) (vs : Vars) :
  Forall (eq OnErrorReject) ce -> ce <> [] -> opened vs = Unsettled ->
  run_handlers ce (PError err) vs = (Ok tt, set_opened (Rejected err) vs).
Proof.
  intros Hce Hne Hun. destruct Hce as [|h ce <- Hce]; [contradiction|].
  cbn [run_handlers run_handler rethrown]. unfold settle. rewrite Hun.
  assert (Hrest : forall vs', opened vs' = Rejected err ->
                              run_handlers ce (PError err) vs' = (Ok tt, vs')).
  { clear Hne. induction Hce as [|h ce <- _ IH]; intros vs' Hr; [reflexivity|].
    cbn [run_handlers run_handler]. unfold settle. rewrite Hr. apply IH, Hr. }
  apply Hrest. reflexivity.
Qed.

(** The "session.created" message resolves the promise. *)
Lemma created_deliver (v : Variant) (e : ServerEvent) (w : World) :
  opening v w -> subscribed w -> opened (vars w) = Unsettled ->
  ev_type e = "session.created" ->
  deliver v (SockMessage e) w = (None, set_vars (set_opened Resolved (vars w)) w).
Proof.
  intros (cs & ce & Hcs & Hce & Hp & Hh) Hsub Hun He.
  unfold subscribed in Hsub. rewrite Hh in Hsub.
  change (connect_handlers cs ce "session.created") with cs in Hsub.
  assert (Hemit : emit (ev_type e) (PEvent e) w =
                  (Ok tt, set_vars (set_opened Resolved (vars w)) w)).
  { unfold emit. rewrite Hh, He.
    change (connect_handlers cs ce "session.created") with cs.
    rewrite (run_created cs _ _ Hcs Hsub Hun). reflexivity. }
  destruct v; cbn [deliver].
  - unfold ga_on_message. rewrite Hemit. unfold emit.
    rewrite (handlers_of_listeners "server.*" w) by reflexivity.
    rewrite Hh. cbn. reflexivity.
  - rewrite He. cbn. unfold sdk_emit. rewrite <- He, Hemit. reflexivity.
Qed.

(** A socket error rejects the promise; only the first variant closes. *)
Lemma error_deliver (v : Variant) (err : JsError) (w : World) :
  opening v w -> opened (vars w) = Unsettled ->
  deliver v (SockError err) w =
    (None,
     match v with
     | GA => set_vars (set_opened (Rejected err) (vars w)) (close w)
     | Preview => set_vars (set_opened (Rejected err) (vars w)) w
     end).
Proof.
  intros (cs & ce & Hcs & Hce & Hp & Hh) Hun.
  destruct v; cbn [deliver].
  - unfold ga_on_error, emit. rewrite Hh.
    change (connect_handlers cs ce "error") with ce.
    rewrite (run_log_only ce _ _ Hce), set_vars_same.
    unfold settle. cbn. rewrite Hun. reflexivity.
  - destruct (Hp eq_refl) as [_ Hne].
    unfold sdk_emit, emit. rewrite Hh.
    change (connect_handlers cs ce "error") with ce.
    rewrite (run_rejecting ce err _ Hce Hne Hun). reflexivity.
Qed.

Lemma settled_stops (v : Variant) (due : Z) (arr : list (Z * Occurrence)) (w : World) :
  opened (vars w) <> Unsettled ->
  deliver_until v (fun w => is_settled (vars w)) due arr w = (None, w).
Proof.
  intros Hs. destruct arr as [|[t occ] rest]; [reflexivity|].
  cbn [deliver_until]. unfold is_settled.
  destruct (opened (vars w)); [contradiction | reflexivity | reflexivity].
Qed.

(** The wait of [createRealtimeClient] from a client that is opening. *)
Lemma await_session_opens (v : Variant) (w : World)
    (pre post : list (Z * Occurrence)) (t : Z) (created : ServerEvent) :
  opening v w -> opened (vars w) = Unsettled ->
  arrivals w = pre ++ (t, SockMessage created) :: post ->
  ev_type created = "session.created" ->
  Forall (fun p => harmless v (snd p)) pre ->
  (subscribed w \/ v = GA /\ existsb (fun p => is_open (snd p)) pre = true) ->
  Forall (fun p => fst p < now w + 10000 + lag w (timers w))
         (pre ++ [(t, SockMessage created)]) ->
  exists w',
    await_session v w = (Returned v, w') /\
    arrivals w' = post /\ opened (vars w') = Resolved /\
    sockets w' = sockets w /\ closes w' = closes w /\ sent w' = sent w /\
    audioChars w' = audioChars w /\ lag w' = lag w /\
    now w <= now w' /\ t <= now w' /\ Forall (fun p => fst p <= now w') pre.
Proof.
  intros Hop Hun Harr He Hh Hsub Hearly.
  apply Forall_app in Hearly. destruct Hearly as [Hpre Hlast].
  inversion Hlast as [|? ? Ht _]; subst. cbn in Ht.
  unfold await_session, setTimeout, run_until.
  set (due := now w + 10000 + lag w (timers w)) in *.
  set (w0 := set_timers (S (timers w)) w).
  change (arrivals w0) with (arrivals w). rewrite Harr.
  destruct (harmless_prefix v due ((t, SockMessage created) :: post) pre w0)
    as (w1 & Erun & Harr1 & Hop1 & Hsame & Hnow & Hpast & Hs & Hso).
  { exact Harr. }
  { apply (opening_listeners v w); [reflexivity | exact Hop]. }
  { exact Hun. }
  { exact Hh. }
  { exact Hpre. }
  rewrite Erun. destruct Hsame as (Hv & Hl & Htim & Hsock & Hcl & Hsent & Hch).
  assert (Hun1 : opened (vars w1) = Unsettled) by (rewrite Hv; exact Hun).
  assert (Hsub1 : subscribed w1).
  { destruct Hsub as [H|[Hv' H]]; [apply Hs; exact H | exact (Hso Hv' H)]. }
  cbn [deliver_until]. unfold is_settled at 1. rewrite Hun1.
  rewrite (proj2 (Z.ltb_lt _ _) Ht).
  set (w2 := set_now (Z.max (now w1) t) (set_arrivals post w1)).
  rewrite (created_deliver v created w2);
    [| apply (opening_listeners v w1); [reflexivity | exact Hop1]
     | exact Hsub1 | exact Hun1 | exact He ].
  rewrite settled_stops by (cbn; discriminate).
  cbn [opened vars set_vars set_opened].
  eexists. split; [reflexivity|]. cbn.
  cbn in Hnow, Hl, Htim, Hsock, Hcl, Hsent, Hch.
  repeat split; try assumption; try lia.
  eapply Forall_impl; [exact Hpast|]. cbn. intros p Hp. lia.
Qed.

Lemma await_session_rejects (v : Variant) (w : World)
    (pre post : list (Z * Occurrence)) (t : Z) (err : JsError) :
  opening v w -> opened (vars w) = Unsettled ->
  arrivals w = pre ++ (t, SockError err) :: post ->
  Forall (fun p => harmless v (snd p)) pre ->
  Forall (fun p => fst p < now w + 10000 + lag w (timers w))
         (pre ++ [(t, SockError err)]) ->
  exists w',
    await_session v w = (Thrown err, w') /\
    arrivals w' = post /\ opened (vars w') = Rejected err /\
    sockets w' = sockets w /\
    closes w' = match v with GA => S (closes w) | Preview => closes w end /\
    sent w' = sent w /\ audioChars w' = audioChars w /\
    connection (vars w') = connection (vars w).
Proof.
  intros Hop Hun Harr Hh Hearly.
  apply Forall_app in Hearly. destruct Hearly as [Hpre Hlast].
  inversion Hlast as [|? ? Ht _]; subst. cbn in Ht.
  unfold await_session, setTimeout, run_until.
  set (due := now w + 10000 + lag w (timers w)) in *.
  set (w0 := set_timers (S (timers w)) w).
  change (arrivals w0) with (arrivals w). rewrite Harr.
  destruct (harmless_prefix v due ((t, SockError err) :: post) pre w0)
    as (w1 & Erun & Harr1 & Hop1 & Hsame & Hnow & Hpast & Hs & Hso).
  { exact Harr. }
  { apply (opening_listeners v w); [reflexivity | exact Hop]. }
  { exact Hun. }
  { exact Hh. }
  { exact Hpre. }
  rewrite Erun. destruct Hsame as (Hv & Hl & Htim & Hsock & Hcl & Hsent & Hch).
  assert (Hun1 : opened (vars w1) = Unsettled) by (rewrite Hv; exact Hun).
  cbn [deliver_until]. unfold is_settled at 1. rewrite Hun1.
  rewrite (proj2 (Z.ltb_lt _ _) Ht).
  set (w2 := set_now (Z.max (now w1) t) (set_arrivals post w1)).
  rewrite (error_deliver v err w2);
    [| apply (opening_listeners v w1); [reflexivity | exact Hop1] | exact Hun1 ].
  rewrite settled_stops by (destruct v; cbn; discriminate).
  cbn in Hl, Htim, Hsock, Hcl, Hsent, Hch.
  destruct v; cbn [opened vars set_vars set_opened close set_closes];
    (eexists; split; [reflexivity|]); cbn; rewrite Hv;
    repeat split; try assumption; try (f_equal; assumption).
Qed.

End OpeningLemmas.

Section OpeningTheSession.
Import Buf Realtime Trace Opening Script Fixture.

(** X15: with both credentials configured, if "session.created" and all that
    is scripted before it arrive before the 10 s timer fires, and what comes
    before it is harmless (the socket opening and messages other than
    "session.created"; under the second variant other than "error" too), and
    under the first variant the socket has opened by then, the client is
    returned as soon as "session.created" is delivered: nothing after it is
    consumed, one transport has been created, nothing closed or sent. Under
    the first variant error messages of the server before it are only
    logged. *)
Theorem session_opens (config : Env) (cfg : RealtimeConfig) (w : World)
    (pre post : list (Z * Occurrence)) (t : Z) (created : ServerEvent) :
  getRealtimeConfig config = Ok cfg ->
  arrivals w = pre ++ (t, SockMessage created) :: post ->
  ev_type created = "session.created" ->
  Forall (fun p => harmless (variant_of cfg) (snd p)) pre ->
  (variant_of cfg = GA -> existsb (fun p => is_open (snd p)) pre = true) ->
  Forall (fun p => fst p < now w + 10000 + lag w (timers w))
         (pre ++ [(t, SockMessage created)]) ->
  exists w',
    createRealtimeClient config w = (Returned (variant_of cfg), w') /\
    arrivals w' = post /\ opened (vars w') = Resolved /\
    sockets w' = S (sockets w) /\ closes w' = closes w /\ sent w' = sent w /\
    now w <= now w' /\ t <= now w'.
Proof.
  intros Hcfg Harr He Hh Hopen Hearly.
  unfold createRealtimeClient, bind, lift. rewrite Hcfg. cbn [ret].
  unfold variant_of in *. destruct (isGAModel (deployment cfg)); unfold modify.
  - destruct (await_session_opens GA (new_client w) pre post t created)
      as (w' & E & Ha & Ho & Hs & Hc & Hsent & _ & _ & Hn & Ht & _);
      [ apply opening_new_client | reflexivity | exact Harr | exact He | exact Hh
      | right; split; [reflexivity | apply Hopen; reflexivity] | exact Hearly | ].
    exists w'. split; [exact E|]. repeat split; assumption.
  - destruct (opening_preview_client w) as [Hop Hsub].
    destruct (await_session_opens Preview _ pre post t created Hop)
      as (w' & E & Ha & Ho & Hs & Hc & Hsent & _ & _ & Hn & Ht & _);
      [ reflexivity | exact Harr | exact He | exact Hh
      | left; exact Hsub | exact Hearly | ].
    exists w'. split; [exact E|]. repeat split; assumption.
Qed.

Lemma session_opens_witness :
  exists w',
    createRealtimeClient ga_config
        (scripted punctual
           ([(5, SockOpen); (8, event "error"); (12, event "rate_limits.updated")]
            ++ (20, session_created) :: [(30, updated)]))
      = (Returned GA, w') /\
    arrivals w' = [(30, updated)] /\ opened (vars w') = Resolved /\
    sockets w' = 1%nat /\ closes w' = 0%nat /\ sent w' = [] /\
    0 <= now w' /\ 20 <= now w'.
Proof.
  apply (session_opens ga_config
           {| endpoint := "https://resource.openai.azure.com/openai";
              apiKey := "key"; deployment := "gpt-realtime" |}
           (scripted punctual
              ([(5, SockOpen); (8, event "error"); (12, event "rate_limits.updated")]
               ++ (20, session_created) :: [(30, updated)]))
           [(5, SockOpen); (8, event "error"); (12, event "rate_limits.updated")]
           [(30, updated)] 20
           {| ev_type := "session.created"; ev_delta := None; ev_transcript := None |}).
  - reflexivity.
  - reflexivity.
  - reflexivity.
  - repeat constructor; cbn; try discriminate.
  - reflexivity.
  - repeat constructor; cbn; reflexivity.
Defined.

(** X16: if the socket reports an error before the session is created (after
    occurrences that are harmless, all before the 10 s timer fires), the
    connection attempt rejects with that error as soon as it is delivered.
    The first variant closes the socket it created; the second one leaves
    its transport open. A synthesis that was waiting for the connection
    fails with the error's message behind its own prefix, and closes nothing
    more, its [connection] being still [null]. *)
Theorem socket_error_rejects (fuel : nat) (config : Env) (cfg : RealtimeConfig)
    (text : string) (voiceName voiceGender : option string) (w : World)
    (pre post : list (Z * Occurrence)) (t : Z) (err : JsError) :
  getRealtimeConfig config = Ok cfg -> text <> "" ->
  arrivals w = pre ++ (t, SockError err) :: post ->
  Forall (fun p => harmless (variant_of cfg) (snd p)) pre ->
  Forall (fun p => fst p < now w + 10000 + lag w (timers w))
         (pre ++ [(t, SockError err)]) ->
  (exists w',
     createRealtimeClient config w = (Thrown err, w') /\
     arrivals w' = post /\ opened (vars w') = Rejected err /\
     sockets w' = S (sockets w) /\
     closes w' = match variant_of cfg with GA => S (closes w) | Preview => closes w end) /\
  (exists w',
     synthesizeSpeechRealtime fuel config (Some text) voiceName voiceGender w =
       (Thrown (Error ("Speech synthesis failed: " +:+ message err)), w') /\
     sockets w' = S (sockets w) /\ sent w' = sent w /\
     closes w' = match variant_of cfg with GA => S (closes w) | Preview => closes w end).
Proof.
  intros Hcfg Htext Harr Hh Hearly.
  assert (Hconn : forall w0,
    arrivals w0 = arrivals w -> now w0 = now w -> lag w0 = lag w -> timers w0 = timers w ->
    exists w',
      createRealtimeClient config w0 = (Thrown err, w') /\
      arrivals w' = post /\ opened (vars w') = Rejected err /\
      sockets w' = S (sockets w0) /\
      closes w' = match variant_of cfg with GA => S (closes w0) | Preview => closes w0 end /\
      sent w' = sent w0 /\ connection (vars w') = connection (vars w0)).
  { intros w0 Ha Hn Hl Ht.
    unfold createRealtimeClient, bind, lift. rewrite Hcfg. cbn [ret].
    unfold variant_of in *. destruct (isGAModel (deployment cfg)); unfold modify.
    - destruct (await_session_rejects GA (new_client w0) pre post t err)
        as (w' & E & Ha' & Ho & Hs & Hc & Hsent & _ & Hco);
        [ apply opening_new_client | reflexivity | cbn; rewrite Ha; exact Harr | exact Hh
        | cbn; rewrite Hn, Hl, Ht; exact Hearly | ].
      exists w'. split; [exact E|]. repeat split; assumption.
    - destruct (opening_preview_client w0) as [Hop _].
      destruct (await_session_rejects Preview _ pre post t err Hop)
        as (w' & E & Ha' & Ho & Hs & Hc & Hsent & _ & Hco);
        [ reflexivity | cbn; rewrite Ha; exact Harr | exact Hh
        | cbn; rewrite Hn, Hl, Ht; exact Hearly | ].
      exists w'. split; [exact E|]. repeat split; assumption. }
  split.
  - destruct (Hconn w) as (w' & E & Ha & Ho & Hs & Hc & _); try reflexivity.
    exists w'. repeat split; assumption.
  - destruct (Hconn (tts_begin text w)) as (w' & E & Ha & Ho & Hs & Hc & Hsent & Hco);
      try reflexivity.
    exists w'. split.
    + unfold synthesizeSpeechRealtime, synthesize_with.
      rewrite (proj2 (String.eqb_neq text "") Htext : falsy (Some text) = false).
      unfold try_catch_finally, bind, modify. cbn [default]. unfold id.
      rewrite E. unfold throw, close_if_connected. rewrite Hco. reflexivity.
    + repeat split; assumption.
Qed.

Lemma socket_error_rejects_witness :
  (exists w',
     createRealtimeClient preview_config
         (scripted punctual ([(5, SockOpen)] ++ (9, SockError (Error "ECONNRESET")) :: []))
       = (Thrown (Error "ECONNRESET"), w') /\
     arrivals w' = [] /\ opened (vars w') = Rejected (Error "ECONNRESET") /\
     sockets w' = 1%nat /\ closes w' = 0%nat) /\
  (exists w',
     synthesizeSpeechRealtime 300 preview_config (Some "hello") None None
         (scripted punctual ([(5, SockOpen)] ++ (9, SockError (Error "ECONNRESET")) :: []))
       = (Thrown (Error ("Speech synthesis failed: " +:+ message (Error "ECONNRESET"))), w') /\
     sockets w' = 1%nat /\ sent w' = [] /\ closes w' = 0%nat).
Proof.
  apply (socket_error_rejects 300 preview_config preview_settings "hello" None None
           (scripted punctual ([(5, SockOpen)] ++ (9, SockError (Error "ECONNRESET")) :: []))
           [(5, SockOpen)] [] 9 (Error "ECONNRESET")).
  - reflexivity.
  - discriminate.
  - reflexivity.
  - repeat constructor.
  - repeat constructor; cbn; reflexivity.
Defined.

End OpeningTheSession.

(** ** Recognition once the configuration is confirmed *)

Section Listening.
Import Buf Realtime Trace Transcript.

Lemma stt_run_any (cs ce : list Handler) (k : string) (e : ServerEvent) (vs : Vars) :
  Forall (eq OnSessionCreated) cs -> Forall reject_or_log ce ->
  exists r vs',
    run_handlers (stt_handlers cs ce k) (PEvent e) vs = (r, vs') /\
    connection vs' = connection vs /\
    sessionConfigured vs' = sessionConfigured vs || String.eqb k "session.updated" /\
    transcriptText vs' =
      (if String.eqb k transcription_completed then ev_transcript e
       else transcriptText vs) /\
    (k <> "error" -> r = Ok tt).
Proof.
  intros Hcs Hce.
  destruct (run_promise_handlers cs (PEvent e) vs (created_is_promise _ Hcs)) as [o1 E1].
  destruct (run_promise_handlers ce (PEvent e) vs (reject_is_promise _ Hce)) as [o2 E2].
  unfold stt_handlers, transcription_completed.
  by_event.
  - rewrite E1. do 2 eexists. split; [reflexivity|]. cbn. rewrite orb_false_r. auto.
  - rewrite run_handlers_app, E2. do 2 eexists. split; [reflexivity|]. cbn.
    rewrite orb_false_r. repeat split; congruence.
  - do 2 eexists. split; [reflexivity|]. cbn. rewrite orb_true_r. auto.
  - do 2 eexists. split; [reflexivity|]. cbn. rewrite orb_false_r. auto.
  - do 2 eexists. split; [reflexivity|]. cbn. rewrite orb_false_r. auto.
Qed.

Lemma stt_deliver_any (v : Variant) (e : ServerEvent) (w : World) :
  stt_registry w -> quiet v (SockMessage e) ->
  exists vs',
    deliver v (SockMessage e) w = (None, set_vars vs' w) /\
    connection vs' = connection (vars w) /\
    sessionConfigured vs' = sessionConfigured (vars w) || is_updated (SockMessage e) /\
    transcriptText vs' = heard (transcriptText (vars w)) (SockMessage e).
Proof.
  intros (cs & ce & Hcs & Hce & Hh) Hq.
  destruct (stt_run_any cs ce (ev_type e) e (vars w) Hcs Hce)
    as (r & vs' & Erun & Hconn & Hflag & Htr & Hok).
  exists vs'. split; [|split; [exact Hconn | split; [exact Hflag | exact Htr]]].
  destruct v; cbn [deliver].
  - unfold ga_on_message, emit. rewrite Hh, Erun.
    destruct r as [[]|err]; [|reflexivity].
    rewrite (handlers_of_listeners "server.*" w (set_vars vs' w)) by reflexivity.
    rewrite Hh. cbn. reflexivity.
  - cbn in Hq. destruct Hq as [Hne _].
    rewrite (proj2 (String.eqb_neq _ _) Hne).
    unfold sdk_emit, emit. rewrite Hh, Erun, (Hok Hne). reflexivity.
Qed.

Lemma transcript_after_app (l1 l2 : list (Z * Occurrence)) (cur : option string) :
  transcript_after (l1 ++ l2) cur = transcript_after l2 (transcript_after l1 cur).
Proof. apply fold_left_app. Qed.

Lemma updated_in_app (l1 l2 : list (Z * Occurrence)) :
  updated_in (l1 ++ l2) = updated_in l1 || updated_in l2.
Proof. apply existsb_app. Qed.

(** One suspension of the recognition. *)
Lemma stt_suspension (v : Variant) (due : Z) (arr : list (Z * Occurrence)) :
  forall w,
    arrivals w = arr -> stt_registry w -> quiet_script v arr ->
    exists delivered w',
      deliver_until v (fun _ => false) due arr w = (None, w') /\
      arr = delivered ++ arrivals w' /\
      transport_unchanged w w' /\ timers w' = timers w /\
      sessionConfigured (vars w') = sessionConfigured (vars w) || updated_in delivered /\
      transcriptText (vars w') = transcript_after delivered (transcriptText (vars w)) /\
      now w <= now w' <= Z.max (now w) due /\
      Forall (fun p => fst p <= now w') delivered /\
      match arrivals w' with [] => True | (t, _) :: _ => due <= t end.
Proof.
  induction arr as [|[t occ] rest IH]; intros w Harr Hreg Hq.
  - exists [], w. cbn. rewrite Harr, orb_false_r.
    repeat split; try reflexivity; try lia. constructor.
  - cbn [deliver_until]. destruct (t <? due) eqn:Et.
    + apply Z.ltb_lt in Et.
      inversion Hq as [|? ? Hocc Hrest]; subst.
      destruct occ as [|e|err]; try contradiction.
      set (w1 := set_now (Z.max (now w) t) (set_arrivals rest w)).
      assert (Hreg1 : stt_registry w1)
        by (apply (stt_registry_listeners w); [reflexivity | exact Hreg]).
      destruct (stt_deliver_any v e w1 Hreg1 Hocc) as (vs' & Edel & Hconn & Hflag & Htr).
      rewrite Edel.
      destruct (IH (set_vars vs' w1))
        as (d2 & w' & Erun & Hsplit & Hframe & Htim & Hf2 & Ht2 & Hnow & Hpast & Hhead).
      { reflexivity. }
      { apply (stt_registry_listeners w1); [reflexivity | exact Hreg1]. }
      { exact Hrest. }
      exists ((t, SockMessage e) :: d2), w'.
      split; [exact Erun|]. split; [cbn; rewrite <- Hsplit; reflexivity|].
      split.
      { apply (transport_unchanged_trans w (set_vars vs' w1) w'); [|exact Hframe].
        repeat split. exact Hconn. }
      split; [rewrite Htim; reflexivity|].
      split.
      { rewrite Hf2. cbn [vars set_vars]. rewrite Hflag. cbn. apply eq_sym, orb_assoc. }
      split.
      { rewrite Ht2. cbn [vars set_vars]. rewrite Htr. reflexivity. }
      cbn in Hnow. split; [lia|]. split; [|exact Hhead].
      constructor; [cbn; lia | exact Hpast].
    + apply Z.ltb_ge in Et. exists [], w. cbn. rewrite Harr, orb_false_r.
      repeat split; try reflexivity; try lia. constructor.
Qed.

(** One turn of a polling loop of the recognition. *)
Lemma stt_sleep (v : Variant) (delay margin : Z) (w : World) :
  stt_registry w -> quiet_script v (arrivals w) -> timely margin w -> 0 <= delay ->
  exists delivered w',
    sleep v delay w = (None, w') /\
    arrivals w = delivered ++ arrivals w' /\
    transport_unchanged w w' /\
    sessionConfigured (vars w') = sessionConfigured (vars w) || updated_in delivered /\
    transcriptText (vars w') = transcript_after delivered (transcriptText (vars w)) /\
    now w + delay <= now w' <= now w + delay + margin /\
    Forall (fun p => fst p <= now w') delivered /\
    fresh w'.
Proof.
  intros Hreg Hq Hlag Hdelay.
  unfold sleep, setTimeout, run_until.
  set (due := now w + delay + lag w (timers w)).
  set (w1 := set_timers (S (timers w)) w).
  destruct (stt_suspension v due (arrivals w1) w1)
    as (d & w2 & Erun & Hsplit & Hframe & _ & Hf & Ht & Hnow & Hpast & Hhead).
  { reflexivity. }
  { apply (stt_registry_listeners w); [reflexivity | exact Hreg]. }
  { exact Hq. }
  rewrite Erun. exists d, (set_now (Z.max (now w2) due) w2).
  specialize (Hlag (timers w)). cbn in Hnow.
  split; [reflexivity|]. split; [exact Hsplit|].
  split; [exact Hframe|]. split; [exact Hf|]. split; [exact Ht|].
  split; [cbn; subst due; lia|].
  split.
  - eapply Forall_impl; [exact Hpast|]. cbn. intros p Hp. lia.
  - unfold fresh. cbn. destruct (arrivals w2) as [|[t occ] rest]; [exact I|].
    subst due. lia.
Qed.


(** The configuration wait (lines 323-325) ends once the first
    "session.updated" message is delivered: within one turn of its arrival,
    given fuel for the turns until then. *)
Lemma configuration_wait_ends (v : Variant) (margin t : Z) (upd : Occurrence)
    (post : list (Z * Occurrence)) :
  forall (fuel : nat) (pre : list (Z * Occurrence)) (w : World),
    stt_registry w -> quiet_script v (arrivals w) -> timely margin w ->
    arrivals w = pre ++ (t, upd) :: post -> is_updated upd = true ->
    updated_in pre = false -> Forall (fun p => fst p <= t) pre ->
    sessionConfigured (vars w) = false ->
    (1 <= fuel)%nat -> t - now w < 50 * Z.of_nat fuel ->
    exists delivered w',
      poll fuel v stt_unconfigured 50 w = (Returned tt, w') /\
      arrivals w = delivered ++ arrivals w' /\
      (exists k, delivered = pre ++ (t, upd) :: k) /\
      transport_unchanged w w' /\
      sessionConfigured (vars w') = true /\
      transcriptText (vars w') = transcript_after delivered (transcriptText (vars w)) /\
      t <= now w' /\ now w <= now w' <= Z.max (now w) t + 50 + margin /\
      fresh w'.
Proof.
  induction fuel as [|fuel IH]; intros pre w Hreg Hq Hlag Harr Hupd Hpre Hearly Hflag Hf1 Hf2;
    [lia|].
  cbn [poll]. unfold stt_unconfigured at 1. rewrite Hflag. cbn [negb].
  destruct (stt_sleep v 50 margin w Hreg Hq Hlag)
    as (d1 & w1 & Esleep & Hsplit1 & Hframe1 & Hflag1 & Htr1 & Hnow1 & Hpast1 & Hfresh1); [lia|].
  rewrite Esleep. rewrite Hflag in Hflag1. cbn in Hflag1.
  assert (Hl1 : listeners w1 = listeners w) by apply Hframe1.
  assert (Hlag1 : lag w1 = lag w) by apply Hframe1.
  pose proof Hsplit1 as Hcases. rewrite Harr in Hcases. apply app_eq_inv in Hcases.
  destruct (updated_in d1) eqn:Ed1.
  - (* the message was delivered in this turn *)
    destruct Hcases as [(k & Hp & Hr)|(k & Hd & Hr)].
    { rewrite Hp, updated_in_app, Ed1 in Hpre. discriminate Hpre. }
    destruct k as [|p k].
    { rewrite app_nil_r in Hd. rewrite Hd, Hpre in Ed1. discriminate Ed1. }
    injection Hr as <- Hpost.
    exists d1, w1. split.
    { destruct fuel; cbn [poll]; unfold stt_unconfigured; rewrite Hflag1; reflexivity. }
    split; [exact Hsplit1|]. split; [exists k; exact Hd|].
    split; [exact Hframe1|]. split; [exact Hflag1|]. split; [exact Htr1|].
    split.
    { rewrite Hd in Hpast1. apply Forall_app in Hpast1. destruct Hpast1 as [_ Hp1].
      inversion Hp1 as [|? ? Ht _]; subst. exact Ht. }
    split; [lia | exact Hfresh1].
  - (* not yet: the turn ended before it arrived *)
    destruct Hcases as [(k & Hp & Hr)|(k & Hd & Hr)].
    2:{ rewrite Hd, updated_in_app in Ed1. apply orb_false_iff in Ed1.
        destruct Ed1 as [_ Ek]. destruct k as [|p k].
        - rewrite app_nil_r in Hd. cbn in Hr. unfold fresh in Hfresh1.
          rewrite <- Hr in Hfresh1.
          destruct (IH [] w1) as (d2 & w' & Epoll & Hsplit2 & [k2 Hk2] & Hframe2 & Hflag2 & Htr2 & Ht2 & Hnow2 & Hfresh2).
          { apply (stt_registry_listeners w); assumption. }
          { rewrite Hsplit1 in Hq. apply Forall_app in Hq. apply Hq. }
          { unfold timely. rewrite Hlag1. exact Hlag. }
          { symmetry. exact Hr. }
          { exact Hupd. }
          { reflexivity. }
          { constructor. }
          { exact Hflag1. }
          { lia. }
          { lia. }
          exists (d1 ++ d2), w'. split; [exact Epoll|].
          split; [rewrite Hsplit1, Hsplit2, app_assoc; reflexivity|].
          split; [exists k2; rewrite Hk2, Hd; reflexivity|].
          split; [apply (transport_unchanged_trans w w1 w'); assumption|].
          split; [exact Hflag2|].
          split; [rewrite Htr2, Htr1, transcript_after_app; reflexivity|].
          split; [exact Ht2|]. split; [lia | exact Hfresh2].
        - injection Hr as <- _. cbn in Ek. rewrite Hupd in Ek. discriminate Ek. }
    assert (Hk : Forall (fun p => fst p <= t) k).
    { rewrite Hp in Hearly. apply Forall_app in Hearly. apply Hearly. }
    assert (Hlate : now w1 <= t).
    { unfold fresh in Hfresh1. rewrite Hr in Hfresh1.
      destruct k as [|[t' occ'] k]; cbn in Hfresh1; [exact Hfresh1|].
      inversion Hk as [|? ? Ht' _]; subst. cbn in Ht'. lia. }
    destruct (IH k w1) as (d2 & w' & Epoll & Hsplit2 & [k2 Hk2] & Hframe2 & Hflag2 & Htr2 & Ht2 & Hnow2 & Hfresh2).
    { apply (stt_registry_listeners w); assumption. }
    { rewrite Hsplit1 in Hq. apply Forall_app in Hq. apply Hq. }
    { unfold timely. rewrite Hlag1. exact Hlag. }
    { exact Hr. }
    { exact Hupd. }
    { rewrite Hp, updated_in_app in Hpre. apply orb_false_iff in Hpre. apply Hpre. }
    { exact Hk. }
    { exact Hflag1. }
    { lia. }
    { lia. }
    exists (d1 ++ d2), w'. split; [exact Epoll|].
    split; [rewrite Hsplit1, Hsplit2, app_assoc; reflexivity|].
    split; [exists k2; rewrite Hk2, Hp, <- app_assoc; reflexivity|].
    split; [apply (transport_unchanged_trans w w1 w'); assumption|].
    split; [exact Hflag2|].
    split; [rewrite Htr2, Htr1, transcript_after_app; reflexivity|].
    split; [exact Ht2|]. split; [lia | exact Hfresh2].
Qed.

(** The transcription wait (lines 341-343) ends, given fuel for its at most
    [timeout / 100] turns: with a transcript, or with the deadline passed by
    less than one turn. *)
Lemma transcription_wait_ends (v : Variant) (start timeout margin : Z) :
  forall (fuel : nat) (w : World),
    stt_registry w -> quiet_script v (arrivals w) -> timely margin w ->
    (now w - start < timeout \/ fresh w) ->
    now w < start + timeout + 100 + margin ->
    start + timeout - now w <= 100 * Z.of_nat fuel ->
    exists delivered w',
      poll fuel v (stt_waiting start timeout) 100 w = (Returned tt, w') /\
      arrivals w = delivered ++ arrivals w' /\
      transport_unchanged w w' /\
      transcriptText (vars w') = transcript_after delivered (transcriptText (vars w)) /\
      now w <= now w' < start + timeout + 100 + margin /\
      (falsy (transcriptText (vars w')) = true -> start + timeout <= now w' /\ fresh w').
Proof.
  induction fuel as [|fuel IH]; intros w Hreg Hq Hlag Hpre Hnow Hfuel.
  - exists [], w. cbn [poll]. unfold stt_waiting.
    assert (Hlate : (now w - start <? timeout) = false) by (apply Z.ltb_ge; lia).
    rewrite Hlate, andb_false_r. cbn.
    repeat split; try reflexivity; try lia.
    destruct Hpre as [Hpre|Hpre]; [lia | exact Hpre].
  - cbn [poll]. destruct (stt_waiting start timeout w) eqn:Ewait.
    + unfold stt_waiting in Ewait. apply andb_true_iff in Ewait.
      destruct Ewait as [Hnone Hearly]. apply Z.ltb_lt in Hearly.
      destruct (stt_sleep v 100 margin w Hreg Hq Hlag)
        as (d1 & w1 & Esleep & Hsplit1 & Hframe1 & _ & Htr1 & Hnow1 & _ & Hfresh1); [lia|].
      rewrite Esleep.
      assert (Hl1 : listeners w1 = listeners w) by apply Hframe1.
      assert (Hlag1 : lag w1 = lag w) by apply Hframe1.
      destruct (IH w1) as (d2 & w' & Epoll & Hsplit2 & Hframe2 & Htr2 & Hnow2 & Hexit).
      { apply (stt_registry_listeners w); assumption. }
      { rewrite Hsplit1 in Hq. apply Forall_app in Hq. apply Hq. }
      { unfold timely. rewrite Hlag1. exact Hlag. }
      { right. exact Hfresh1. }
      { lia. }
      { lia. }
      exists (d1 ++ d2), w'.
      split; [exact Epoll|].
      split; [rewrite Hsplit1, Hsplit2, app_assoc; reflexivity|].
      split; [apply (transport_unchanged_trans w w1 w'); assumption|].
      split; [rewrite Htr2, Htr1, transcript_after_app; reflexivity|].
      split; [lia | exact Hexit].
    + exists [], w. cbn.
      split; [reflexivity|]. split; [reflexivity|].
      split; [apply transport_unchanged_refl|].
      split; [reflexivity|]. split; [lia|].
      intros Hnone. unfold stt_waiting in Ewait. rewrite Hnone in Ewait. cbn in Ewait.
      apply Z.ltb_ge in Ewait. split; [lia|].
      destruct Hpre as [Hpre|Hpre]; [lia | exact Hpre].
Qed.

End Listening.

Section RecognitionRun.
Import Buf Realtime Trace Transcript Script Fixture.

(** The whole run of a recognition whose session has opened and whose
    configuration is confirmed at time [t], in terms of the prefix of the
    script that the two polling loops delivered. *)
Lemma recognition_run (fuel : nat) (config : Env) (audioData : string) (margin : Z)
    (w w1 : World) (v : Variant) (pre post : list (Z * Occurrence))
    (t : Z) (upd : Occurrence) :
  audioData <> "" -> timely margin w ->
  createRealtimeClient config (stt_begin w) = (Returned v, w1) ->
  quiet_script v (arrivals w1) ->
  arrivals w1 = pre ++ (t, upd) :: post -> is_updated upd = true ->
  updated_in pre = false -> Forall (fun p => fst p <= t) pre ->
  (100 <= fuel)%nat -> t - now w1 < 50 * Z.of_nat fuel ->
  exists delivered w2 start,
    arrivals w1 = delivered ++ arrivals w2 /\
    (exists k, delivered = pre ++ (t, upd) :: k) /\
    sockets w2 = S (sockets w) /\ closes w2 = closes w /\
    sent w2 = sent w ++ [InputAudioBufferAppend audioData; InputAudioBufferCommit] /\
    t <= start /\ now w1 <= start <= Z.max (now w1) t + 50 + margin /\
    start <= now w2 < start + 10000 + 100 + margin /\
    (falsy (transcript_after delivered (Some "")) = true ->
     start + 10000 <= now w2 /\ fresh w2) /\
    recognizeSpeechRealtime fuel config (Some audioData) w =
      ((if falsy (transcript_after delivered (Some ""))
        then Thrown (Error transcription_timeout)
        else Returned (transcript_after delivered (Some ""))),
       close w2).
Proof.
  intros Haudio Hlag Hconn Hq Harr Hupd Hpre Hearly Hfuel Hturns.
  destruct (connect_ready _ _ _ _ Hconn)
    as (Hreg & Hlag1 & Hsock & Hcl & Hsent & _ & Hc & _ & _ & Htr & Hflag & Hnow & _).
  cbn in Hsock, Hcl, Hsent, Htr, Hflag.
  set (wa := stt_subscribe (connected v w1)).
  assert (Hrega : stt_registry wa).
  { apply stt_registry_subscribe.
    apply (connect_registry_listeners w1); [reflexivity | exact Hreg]. }
  assert (Hlaga : timely margin wa).
  { unfold timely. change (lag wa) with (lag w1). rewrite Hlag1. exact Hlag. }
  destruct (configuration_wait_ends v margin t upd post fuel pre wa)
    as (d1 & wb & Epoll1 & Hsplit1 & Hcover & Hframe1 & _ & Htr1 & Ht1 & Hnow1 & Hfresh1);
    [ exact Hrega | exact Hq | exact Hlaga | exact Harr | exact Hupd | exact Hpre
    | exact Hearly | exact Hflag | lia | exact Hturns | ].
  change (now wa) with (now w1) in Hnow1.
  change (transcriptText (vars wa)) with (transcriptText (vars w1)) in Htr1.
  rewrite Htr in Htr1.
  destruct Hframe1 as (Hl1 & Hs1 & Hc1 & Hsent1 & Hli1 & _ & Hconn1).
  set (wc := stt_request audioData wb).
  assert (Hregc : stt_registry wc).
  { apply (stt_registry_listeners wa); [exact Hli1 | exact Hrega]. }
  destruct (transcription_wait_ends v (now wb) 10000 margin fuel wc)
    as (d2 & w2 & Epoll2 & Hsplit2 & Hframe2 & Htr2 & Hnow2 & Hexit).
  { exact Hregc. }
  { change (arrivals wc) with (arrivals wb).
    change (arrivals wa) with (arrivals w1) in Hsplit1.
    unfold quiet_script in Hq. rewrite Hsplit1 in Hq. apply Forall_app in Hq. apply Hq. }
  { unfold timely. change (lag wc) with (lag wb). rewrite Hl1. exact Hlaga. }
  { left. change (now wc) with (now wb). lia. }
  { change (now wc) with (now wb). specialize (Hlag 0%nat). lia. }
  { change (now wc) with (now wb). lia. }
  change (arrivals wa) with (arrivals w1) in Hsplit1.
  change (arrivals wc) with (arrivals wb) in Hsplit2.
  change (now wc) with (now wb) in Hnow2.
  change (transcriptText (vars wc)) with (transcriptText (vars wb)) in Htr2.
  rewrite Htr1, <- transcript_after_app in Htr2.
  destruct Hframe2 as (_ & Hs2 & Hc2 & Hsent2 & _ & _ & Hconn2).
  exists (d1 ++ d2), w2, (now wb).
  split; [rewrite Hsplit1, Hsplit2, app_assoc; reflexivity|].
  split.
  { destruct Hcover as [k Hk]. exists (k ++ d2). rewrite Hk, <- app_assoc. reflexivity. }
  split; [rewrite Hs2; cbn; rewrite Hs1; exact Hsock|].
  split; [rewrite Hc2; cbn; rewrite Hc1; exact Hcl|].
  split.
  { rewrite Hsent2. cbn. rewrite Hsent1. cbn. rewrite Hsent, <- app_assoc. reflexivity. }
  split; [exact Ht1|]. split; [exact Hnow1|]. split; [exact Hnow2|].
  split; [rewrite <- Htr2; exact Hexit|].
  unfold recognizeSpeechRealtime.
  rewrite (proj2 (String.eqb_neq audioData "") Haudio : falsy (Some audioData) = false).
  unfold try_catch_finally, bind, modify, configureRealtimeSession, read, ret.
  cbv beta. rewrite Hconn. cbv beta iota zeta. fold wa.
  rewrite Epoll1. cbv beta iota. cbn [default]. unfold id. fold wc.
  change (now wc) with (now wb). rewrite Epoll2. cbv beta iota.
  unfold stt_result, bind, read. rewrite Htr2.
  assert (Hclose : close_if_connected w2 = close w2).
  { unfold close_if_connected. rewrite Hconn2. cbn. rewrite Hconn1. reflexivity. }
  destruct (falsy (transcript_after (d1 ++ d2) (Some ""))); unfold throw, ret;
    rewrite Hclose; reflexivity.
Qed.

Lemma transcript_after_silent (l : list (Z * Occurrence)) (cur : option string) :
  Forall (fun p => silent (snd p) = true) l -> falsy cur = true ->
  falsy (transcript_after l cur) = true.
Proof.
  intros H. revert cur. induction H as [|[t occ] l Ho _ IH]; intros cur Hcur; [exact Hcur|].
  cbn [transcript_after fold_left snd]. apply IH. cbn in Ho. unfold silent in Ho.
  destruct occ as [|e|err]; try exact Hcur. cbn [heard] in *.
  destruct (String.eqb (ev_type e) transcription_completed); [exact Ho | exact Hcur].
Qed.

Lemma transcript_after_others (l : list (Z * Occurrence)) (cur : option string) :
  Forall (fun p => is_transcription (snd p) = false) l -> transcript_after l cur = cur.
Proof.
  intros H. revert cur. induction H as [|[t occ] l Ho _ IH]; intros cur; [reflexivity|].
  cbn [transcript_after fold_left snd]. fold (transcript_after l (heard cur occ)).
  rewrite IH. destruct occ as [|e|err]; try reflexivity. cbn in Ho |- *.
  rewrite Ho. reflexivity.
Qed.

Lemma updated_is_not_transcription (occ : Occurrence) :
  is_updated occ = true -> is_transcription occ = false.
Proof.
  destruct occ as [|e|err]; try reflexivity. cbn. intros H.
  apply String.eqb_eq in H. rewrite H. reflexivity.
Qed.

(** X17: once the session is open and its configuration is confirmed, on a
    script of server messages (under the second variant none of them an
    error event or an audio delta without payload) in which no transcript
    arrives, or only empty ones, the
    recognition fails with the transcription timeout: no earlier than 10 s
    after the audio was sent and less than one polling turn (100 ms plus
    the lateness of a timer) after that. The audio and the commit were sent,
    in this order, within one turn of the confirmation, and the session is
    closed once. *)
Theorem recognition_times_out (fuel : nat) (config : Env) (audioData : string)
    (margin : Z) (w w1 : World) (v : Variant) (pre post : list (Z * Occurrence))
    (t : Z) (upd : Occurrence) :
  audioData <> "" -> timely margin w ->
  createRealtimeClient config (stt_begin w) = (Returned v, w1) ->
  quiet_script v (arrivals w1) ->
  arrivals w1 = pre ++ (t, upd) :: post -> is_updated upd = true ->
  updated_in pre = false -> Forall (fun p => fst p <= t) pre ->
  (100 <= fuel)%nat -> t - now w1 < 50 * Z.of_nat fuel ->
  Forall (fun p => silent (snd p) = true) (arrivals w1) ->
  exists w' start,
    recognizeSpeechRealtime fuel config (Some audioData) w =
      (Thrown (Error "Speech recognition failed: Transcription timeout - no response received"),
       w') /\
    sent w' = sent w ++ [InputAudioBufferAppend audioData; InputAudioBufferCommit] /\
    closes w' = S (closes w) /\ sockets w' = S (sockets w) /\
    t <= start /\ now w1 <= start <= Z.max (now w1) t + 50 + margin /\
    start + 10000 <= now w' < start + 10000 + 100 + margin.
Proof.
  intros Haudio Hlag Hconn Hq Harr Hupd Hpre Hearly Hfuel Hturns Hsilent.
  destruct (recognition_run fuel config audioData margin w w1 v pre post t upd
              Haudio Hlag Hconn Hq Harr Hupd Hpre Hearly Hfuel Hturns)
    as (d & w2 & start & Hsplit & _ & Hsock & Hcl & Hsent & Ht & Hstart & Hnow & Hexit & Hrun).
  assert (Hnone : falsy (transcript_after d (Some "")) = true).
  { apply transcript_after_silent; [|reflexivity].
    rewrite Hsplit in Hsilent. apply Forall_app in Hsilent. apply Hsilent. }
  rewrite Hnone in Hrun. destruct (Hexit Hnone) as [Hlate _].
  exists (close w2), start. split; [exact Hrun|]. cbn.
  split; [exact Hsent|]. split; [rewrite Hcl; reflexivity|]. split; [exact Hsock|].
  split; [exact Ht|]. split; [exact Hstart | lia].
Qed.

Lemma recognition_times_out_witness :
  exists w' start,
    recognizeSpeechRealtime 400 ga_config (Some "AAAA") (scripted punctual configured) =
      (Thrown (Error "Speech recognition failed: Transcription timeout - no response received"),
       w') /\
    sent w' = sent (scripted punctual configured)
              ++ [InputAudioBufferAppend "AAAA"; InputAudioBufferCommit] /\
    closes w' = S (closes (scripted punctual configured)) /\
    sockets w' = S (sockets (scripted punctual configured)) /\
    30 <= start /\
    now (listening ga_config configured) <= start
      <= Z.max (now (listening ga_config configured)) 30 + 50 + 0 /\
    start + 10000 <= now w' < start + 10000 + 100 + 0.
Proof.
  apply (recognition_times_out 400 ga_config "AAAA" 0
           (scripted punctual configured) (listening ga_config configured) GA
           [] [] 30 updated).
  - discriminate.
  - intros k. unfold scripted, punctual. cbn. lia.
  - vm_compute. reflexivity.
  - vm_compute. repeat constructor.
  - vm_compute. reflexivity.
  - reflexivity.
  - reflexivity.
  - constructor.
  - lia.
  - vm_compute. reflexivity.
  - vm_compute. repeat constructor.
Defined.

(** X18: once the session is open, on a script of server messages (under the
    second variant none of them an error event or an audio delta without
    payload) with one completed transcription, if the configuration is
    confirmed and then that
    transcription, with a non-empty transcript, arrives less than 10 s after
    the confirmation (as does all that is scripted in between), the
    recognition returns that transcript; it has sent the audio and the
    commit, in this order, and closed the session once. *)
Theorem recognition_returns_transcript (fuel : nat) (config : Env) (audioData : string)
    (margin : Z) (w w1 : World) (v : Variant) (pre mid post : list (Z * Occurrence))
    (t1 t2 : Z) (upd : Occurrence) (completed : ServerEvent) (transcript : string) :
  audioData <> "" -> timely margin w ->
  createRealtimeClient config (stt_begin w) = (Returned v, w1) ->
  quiet_script v (arrivals w1) ->
  arrivals w1 = pre ++ (t1, upd) :: mid ++ (t2, SockMessage completed) :: post ->
  is_updated upd = true ->
  updated_in pre = false -> Forall (fun p => fst p <= t1) pre ->
  (100 <= fuel)%nat -> t1 - now w1 < 50 * Z.of_nat fuel ->
  ev_type completed = transcription_completed ->
  ev_transcript completed = Some transcript -> transcript <> "" ->
  Forall (fun p => is_transcription (snd p) = false) (pre ++ mid ++ post) ->
  Forall (fun p => fst p < t1 + 10000) (mid ++ [(t2, SockMessage completed)]) ->
  exists w',
    recognizeSpeechRealtime fuel config (Some audioData) w =
      (Returned (Some transcript), w') /\
    sent w' = sent w ++ [InputAudioBufferAppend audioData; InputAudioBufferCommit] /\
    closes w' = S (closes w) /\ sockets w' = S (sockets w).
Proof.
  intros Haudio Hlag Hconn Hq Harr Hupd Hpre Hearly Hfuel Hturns
         Htype Htext Hne Hothers Hintime.
  destruct (recognition_run fuel config audioData margin w w1 v pre
              (mid ++ (t2, SockMessage completed) :: post) t1 upd
              Haudio Hlag Hconn Hq Harr Hupd Hpre Hearly Hfuel Hturns)
    as (d & w2 & start & Hsplit & [k Hk] & Hsock & Hcl & Hsent & Ht & Hstart & Hnow & Hexit & Hrun).
  apply Forall_app in Hothers. destruct Hothers as [Ho1 Ho23].
  apply Forall_app in Ho23. destruct Ho23 as [Ho2 Ho3].
  assert (Hhead : transcript_after (pre ++ [(t1, upd)]) (Some "") = Some "").
  { apply transcript_after_others. apply Forall_app. split; [exact Ho1|].
    repeat constructor. apply updated_is_not_transcription, Hupd. }
  assert (Hd : transcript_after d (Some "") = Some transcript).
  { rewrite Harr, Hk in Hsplit.
    replace (pre ++ (t1, upd) :: mid ++ (t2, SockMessage completed) :: post)
      with ((pre ++ [(t1, upd)]) ++ mid ++ (t2, SockMessage completed) :: post) in Hsplit
      by (rewrite <- app_assoc; reflexivity).
    replace ((pre ++ (t1, upd) :: k) ++ arrivals w2)
      with ((pre ++ [(t1, upd)]) ++ k ++ arrivals w2) in Hsplit
      by (rewrite <- !app_assoc; reflexivity).
    apply app_inv_head in Hsplit.
    replace d with ((pre ++ [(t1, upd)]) ++ k)
      by (rewrite Hk, <- app_assoc; reflexivity).
    rewrite transcript_after_app, Hhead.
    apply app_eq_inv in Hsplit.
    destruct Hsplit as [(k' & Hm & Hr)|(k' & Hm & Hr)].
    - (* the loop ended with [k' ++ completed :: post] still to come *)
      exfalso.
      assert (Hempty : transcript_after d (Some "") = Some "").
      { replace d with ((pre ++ [(t1, upd)]) ++ k)
          by (rewrite Hk, <- app_assoc; reflexivity).
        rewrite transcript_after_app, Hhead. apply transcript_after_others.
        rewrite Hm in Ho2. apply Forall_app in Ho2. apply Ho2. }
      rewrite Hempty in Hexit. destruct (Hexit eq_refl) as [Hlate Hfresh].
      unfold fresh in Hfresh. rewrite Hr in Hfresh.
      rewrite Hm, <- app_assoc in Hintime. apply Forall_app in Hintime.
      destruct Hintime as [_ Hin].
      destruct k' as [|[t' occ'] k']; cbn in Hfresh, Hin;
        inversion Hin as [|? ? Ht' _]; subst; cbn in Ht'; lia.
    - destruct k' as [|p k'].
      + exfalso. rewrite app_nil_r in Hm. cbn in Hr.
        assert (Hempty : transcript_after d (Some "") = Some "").
        { replace d with ((pre ++ [(t1, upd)]) ++ k)
            by (rewrite Hk, <- app_assoc; reflexivity).
          rewrite transcript_after_app, Hhead. apply transcript_after_others.
          rewrite Hm. exact Ho2. }
        rewrite Hempty in Hexit. destruct (Hexit eq_refl) as [Hlate Hfresh].
        unfold fresh in Hfresh. rewrite <- Hr in Hfresh.
        apply Forall_app in Hintime. destruct Hintime as [_ Hin].
        inversion Hin as [|? ? Ht' _]; subst; cbn in Ht'. lia.
      + injection Hr as <- Hpost. rewrite Hm, transcript_after_app.
        rewrite (transcript_after_others mid) by exact Ho2.
        cbn [transcript_after fold_left snd heard].
        rewrite Htype, String.eqb_refl, Htext.
        apply transcript_after_others.
        rewrite Hpost in Ho3. apply Forall_app in Ho3. apply Ho3. }
  rewrite Hd in Hrun. cbn [falsy] in Hrun.
  rewrite (proj2 (String.eqb_neq transcript "") Hne) in Hrun.
  exists (close w2). split; [exact Hrun|]. cbn.
  split; [exact Hsent|]. split; [rewrite Hcl; reflexivity | exact Hsock].
Qed.

Lemma recognition_returns_transcript_witness :
  exists w',
    recognizeSpeechRealtime 400 ga_config (Some "AAAA") (scripted punctual transcribed) =
      (Returned (Some "hello world"), w') /\
    sent w' = sent (scripted punctual transcribed)
              ++ [InputAudioBufferAppend "AAAA"; InputAudioBufferCommit] /\
    closes w' = S (closes (scripted punctual transcribed)) /\
    sockets w' = S (sockets (scripted punctual transcribed)).
Proof.
  apply (recognition_returns_transcript 400 ga_config "AAAA" 0
           (scripted punctual transcribed) (listening ga_config transcribed) GA
           [] [] [] 30 200 updated
           {| ev_type := "conversation.item.input_audio_transcription.completed";
              ev_delta := None; ev_transcript := Some "hello world" |}
           "hello world").
  - discriminate.
  - intros k. unfold scripted, punctual. cbn. lia.
  - vm_compute. reflexivity.
  - vm_compute. repeat constructor.
  - vm_compute. reflexivity.
  - reflexivity.
  - reflexivity.
  - constructor.
  - lia.
  - vm_compute. reflexivity.
  - reflexivity.
  - reflexivity.
  - discriminate.
  - constructor.
  - repeat constructor.
Defined.

End RecognitionRun.

(** ** Streaming synthesis *)

Section StreamingOutcome.
Import Buf Voice Realtime Trace Script Fixture Stream.

Lemma stream_unfold (fuel : nat) (config : Env) (text : string)
    (voiceName voiceGender : option string) (j : Job) :
  text <> "" -> headersSent (res j) = false ->
  synthesizeSpeechStreamRealtime fuel config (Some text) voiceName voiceGender j =
  job_try_catch
    (stream_attempt fuel config text (selectVoice voiceName voiceGender))
    (fun error => job_modify (stream_failed error))
    (prepared text j).
Proof.
  intros Htext Hfresh. unfold synthesizeSpeechStreamRealtime.
  rewrite (proj2 (String.eqb_neq text "") Htext : falsy (Some text) = false).
  cbn [default]. unfold id.
  unfold job_bind at 1 2 3 4, job_modify at 1 2, setHeader.
  cbn [res in_world set_world]. rewrite Hfresh. cbn [res set_res].
  unfold headersSent in *. rewrite existsb_app, Hfresh. cbn [existsb sends_head orb].
  unfold prepared. rewrite <- app_assoc. reflexivity.
Qed.

(** X19: the streaming synthesis rejects only an empty or absent text, before
    it has touched the response, the statistics or the transport; the route
    then answers with status 500 and a JSON body that carries the validation
    message. *)
Theorem stream_rejects_empty_text (fuel : nat) (config : Env) (body : SynthesizeBody)
    (j : Job) :
  falsy (body_text body) = true -> headersSent (res j) = false ->
  synthesizeSpeechStreamRealtime fuel config (body_text body)
      (body_voiceName body) (body_voiceGender body) j
    = (Thrown (Error "No text provided for synthesis"), j) /\
  post_synthesize_stream fuel config body j
    = (Returned tt,
       set_res (res j ++ [Status 500;
                          Json "Speech synthesis streaming failed (Realtime API)"
                               "No text provided for synthesis"]) j).
Proof.
  intros Hempty Hfresh.
  assert (H : synthesizeSpeechStreamRealtime fuel config (body_text body)
                (body_voiceName body) (body_voiceGender body) j
              = (Thrown (Error "No text provided for synthesis"), j)).
  { unfold synthesizeSpeechStreamRealtime. rewrite Hempty. reflexivity. }
  split; [exact H|].
  unfold post_synthesize_stream, job_try_catch. rewrite H.
  unfold job_modify. rewrite Hfresh. reflexivity.
Qed.

Lemma stream_rejects_empty_text_witness :
  synthesizeSpeechStreamRealtime 100 ga_config
      (body_text {| body_text := Some ""; body_voiceGender := Some "Male";
                    body_voiceName := None |})
      (body_voiceName {| body_text := Some ""; body_voiceGender := Some "Male";
                         body_voiceName := None |})
      (body_voiceGender {| body_text := Some ""; body_voiceGender := Some "Male";
                           body_voiceName := None |})
      (request (scripted punctual handshake))
    = (Thrown (Error "No text provided for synthesis"),
       request (scripted punctual handshake)) /\
  post_synthesize_stream 100 ga_config
      {| body_text := Some ""; body_voiceGender := Some "Male"; body_voiceName := None |}
      (request (scripted punctual handshake))
    = (Returned tt,
       set_res (res (request (scripted punctual handshake))
                ++ [Status 500;
                    Json "Speech synthesis streaming failed (Realtime API)"
                         "No text provided for synthesis"])
         (request (scripted punctual handshake))).
Proof.
  apply (stream_rejects_empty_text 100 ga_config
           {| body_text := Some ""; body_voiceGender := Some "Male"; body_voiceName := None |}
           (request (scripted punctual handshake))).
  - reflexivity.
  - reflexivity.
Defined.

(** X20: on a non-empty text and a fresh response the streaming synthesis
    never rejects: whatever goes wrong after the validation is reported on
    the response or not at all, so the route hands its outcome on unchanged
    and the JSON error of the route is never produced. *)
Theorem stream_never_rejects (fuel : nat) (config : Env) (body : SynthesizeBody)
    (j : Job) (r : Outcome unit) (j' : Job) :
  falsy (body_text body) = false -> headersSent (res j) = false ->
  synthesizeSpeechStreamRealtime fuel config (body_text body)
      (body_voiceName body) (body_voiceGender body) j = (r, j') ->
  (forall e, r <> Thrown e) /\
  post_synthesize_stream fuel config body j = (r, j').
Proof.
  intros Htext Hfresh E.
  assert (Hr : forall e, r <> Thrown e).
  { destruct (body_text body) as [text|]; [|discriminate Htext].
    apply String.eqb_neq in Htext.
    rewrite (stream_unfold _ _ _ _ _ _ Htext Hfresh) in E.
    unfold job_try_catch in E.
    destruct (stream_attempt _ _ _ _ _) as [[[]|e0|e0|] j1];
      injection E as <- _; discriminate. }
  split; [exact Hr|].
  unfold post_synthesize_stream, job_try_catch. rewrite E.
  destruct r as [[]|e|e|]; try reflexivity. exfalso. exact (Hr e eq_refl).
Qed.

Lemma stream_never_rejects_witness :
  (forall e, @Returned unit tt <> Thrown e) /\
  post_synthesize_stream 100 no_credentials
      {| body_text := Some "hi"; body_voiceGender := None; body_voiceName := None |}
      (request (scripted punctual handshake))
    = (Returned tt,
       snd (synthesizeSpeechStreamRealtime 100 no_credentials (Some "hi") None None
              (request (scripted punctual handshake)))).
Proof.
  apply (stream_never_rejects 100 no_credentials
           {| body_text := Some "hi"; body_voiceGender := None; body_voiceName := None |}
           (request (scripted punctual handshake)) (Returned tt)
           (snd (synthesizeSpeechStreamRealtime 100 no_credentials (Some "hi") None None
                   (request (scripted punctual handshake))))).
  - reflexivity.
  - reflexivity.
  - vm_compute. reflexivity.
Defined.

(** X21: when the connection attempt of a streaming synthesis fails, the
    function does not reject: it answers on the response with status 500
    and the text "Synthesis failed: " followed by the error's message, after
    the two headers set before, and returns. It closes nothing, its
    [connection] being still [null], and sends nothing. *)
Theorem stream_connection_failure (fuel : nat) (config : Env) (text : string)
    (voiceName voiceGender : option string) (j : Job) (e : JsError) (w1 : World) :
  text <> "" -> headersSent (res j) = false ->
  createRealtimeClient config (world (prepared text j)) = (Thrown e, w1) ->
  exists j',
    synthesizeSpeechStreamRealtime fuel config (Some text) voiceName voiceGender j
      = (Returned tt, j') /\
    res j' = res j ++ [SetHeader "Content-Type" "audio/pcm";
                       SetHeader "Transfer-Encoding" "chunked";
                       Status 500; Send ("Synthesis failed: " +:+ message e)] /\
    world j' = w1 /\ outbox j' = outbox j /\
    audioChars w1 = audioChars (world j) ++ [String.length text].
Proof.
  intros Htext Hfresh Hconn.
  rewrite (stream_unfold _ _ _ _ _ _ Htext Hfresh).
  unfold job_try_catch, stream_attempt, job_bind at 1, on_session at 1.
  rewrite Hconn.
  destruct (createRealtimeClient_ledger _ _ _ _ Hconn) as (_ & _ & Hch & Hc & _).
  unfold job_modify, stream_failed.
  assert (Hhead : headersSent (res (set_world w1 (prepared text j))) = false).
  { cbn. unfold headersSent in *. rewrite existsb_app, Hfresh. reflexivity. }
  rewrite Hhead. unfold job_close_if_connected, in_world, close_if_connected.
  cbn [world status_send set_res set_world]. rewrite Hc. cbn.
  eexists. split; [reflexivity|]. cbn. rewrite <- app_assoc.
  repeat split. exact Hch.
Qed.

Lemma stream_connection_failure_witness :
  exists j',
    synthesizeSpeechStreamRealtime 100 no_credentials (Some "hi") None None
        (request (scripted punctual handshake))
      = (Returned tt, j') /\
    res j' = res (request (scripted punctual handshake))
             ++ [SetHeader "Content-Type" "audio/pcm";
                 SetHeader "Transfer-Encoding" "chunked";
                 Status 500;
                 Send ("Synthesis failed: " +:+
                       message (Error "Azure OpenAI Realtime endpoint and API key are required for Realtime API"))] /\
    world j' = world (prepared "hi" (request (scripted punctual handshake))) /\
    outbox j' = outbox (request (scripted punctual handshake)) /\
    audioChars (world (prepared "hi" (request (scripted punctual handshake))))
      = audioChars (world (request (scripted punctual handshake)))
        ++ [String.length "hi"].
Proof.
  apply (stream_connection_failure 100 no_credentials "hi" None None
           (request (scripted punctual handshake))
           (Error "Azure OpenAI Realtime endpoint and API key are required for Realtime API")
           (world (prepared "hi" (request (scripted punctual handshake))))).
  - discriminate.
  - reflexivity.
  - vm_compute. reflexivity.
Defined.

End StreamingOutcome.

Section StreamDispatch.
Import Buf Realtime Trace Transcript Stream StreamTrace.

Lemma stream_unchanged_refl (j : Job) : stream_unchanged j j.
Proof. repeat split. Qed.

Lemma stream_unchanged_trans (j1 j2 j3 : Job) :
  stream_unchanged j1 j2 -> stream_unchanged j2 j3 -> stream_unchanged j1 j3.
Proof.
  unfold stream_unchanged. intros (?&?&?&?&?&?) (?&?&?&?&?&?). repeat split; congruence.
Qed.

Lemma job_handlers_of_on (event event' : string) (h : StreamHandler) (j : Job) :
  job_handlers_of event' (job_on event h j) =
  if String.eqb event' event then job_handlers_of event j ++ [h]
  else job_handlers_of event' j.
Proof.
  unfold job_on, job_handlers_of. cbn [registry set_registry].
  destruct (String.eqb_spec event' event) as [ -> | Hne ].
  - rewrite lookup_insert_eq. reflexivity.
  - rewrite lookup_insert_ne by congruence. reflexivity.
Qed.

Lemma job_handlers_of_registry (event : string) (j j' : Job) :
  registry j' = registry j -> job_handlers_of event j' = job_handlers_of event j.
Proof. unfold job_handlers_of. intros ->. reflexivity. Qed.

Lemma stream_registry_same (j j' : Job) :
  registry j' = registry j -> stream_registry j -> stream_registry j'.
Proof.
  intros Hr (cs & ce & Hcs & Hce & Hh). exists cs, ce.
  split; [exact Hcs|]. split; [exact Hce|].
  intros k. rewrite (job_handlers_of_registry k j j' Hr). apply Hh.
Qed.

Lemma job_run_handlers_app (hs1 hs2 : list StreamHandler) (p : Payload) (j : Job) :
  job_run_handlers (hs1 ++ hs2) p j =
  match job_run_handlers hs1 p j with
  | (Ok _, j') => job_run_handlers hs2 p j'
  | (Throw e, j') => (Throw e, j')
  end.
Proof.
  revert j. induction hs1 as [|h hs1 IH]; intros j; [reflexivity|].
  cbn [app job_run_handlers].
  destruct (job_run_handler h p j) as [[[]|e] j']; [apply IH | reflexivity].
Qed.

(** The handlers of the connection promise, run as listeners of the job,
    touch nothing but the promise. *)
Lemma job_run_connect (hs : list Handler) (p : Payload) (j : Job) :
  Forall promise_handler hs ->
  exists o,
    job_run_handlers (map Connect hs) p j =
    (Ok tt, in_world (fun w => set_vars (set_opened o (vars w)) w) j).
Proof.
  intros H. revert j. induction H as [|h hs Hh _ IH]; intros j.
  - exists (opened (vars (world j))). cbn. unfold in_world.
    rewrite set_opened_same, set_vars_same. destruct j; reflexivity.
  - destruct (run_promise_handlers [h] p (vars (world j))) as [o1 E1];
      [apply Forall_cons_2; [exact Hh | apply Forall_nil_2]|].
    cbn [run_handlers] in E1.
    cbn [map job_run_handlers job_run_handler].
    destruct (run_handler h p (vars (world j))) as [[[]|e] vs1]; [|discriminate E1].
    injection E1 as ->.
    destruct (IH (in_world (set_vars (set_opened o1 (vars (world j)))) j)) as [o2 E2].
    exists o2. rewrite E2. reflexivity.
Qed.

(** What the handlers registered for an event do to the job of a streaming
    synthesis. *)
Lemma stream_run (cs ce : list Handler) (k : string) (p : Payload) (j : Job)
    (c : Variant) :
  Forall (eq OnSessionCreated) cs -> Forall reject_or_log ce ->
  connection (vars (world j)) = Some c ->
  exists r j',
    job_run_handlers (stream_handlers cs ce k) p j = (r, j') /\
    stream_unchanged j j' /\
    now (world j') = now (world j) /\ arrivals (world j') = arrivals (world j) /\
    timers (world j') = timers (world j) /\
    res j' = answer k p (res j) /\
    closes (world j') =
      (if String.eqb k response_done then S (closes (world j)) else closes (world j)) /\
    sessionConfigured (vars (world j')) =
      sessionConfigured (vars (world j)) || String.eqb k "session.updated" /\
    ((k = stream_delta -> payload_delta p <> None) -> r = Ok tt).
Proof.
  intros Hcs Hce Hconn.
  destruct (job_run_connect cs p j (created_is_promise _ Hcs)) as [o1 E1].
  destruct (job_run_connect ce p j (reject_is_promise _ Hce)) as [o2 E2].
  unfold stream_handlers, answer, stream_delta, response_done.
  by_event.
  - rewrite E1. do 2 eexists. split; [reflexivity|]. cbn.
    rewrite orb_false_r. repeat split.
  - rewrite job_run_handlers_app, E2. cbn [job_run_handlers job_run_handler].
    cbn [res in_world set_world].
    destruct (headersSent (res j)); do 2 eexists; (split; [reflexivity|]); cbn;
      rewrite orb_false_r; repeat split.
  - do 2 eexists. split; [reflexivity|]. cbn. repeat split.
    rewrite orb_true_r. reflexivity.
  - cbn. destruct (payload_delta p) as [delta|]; do 2 eexists; (split; [reflexivity|]);
      cbn; rewrite orb_false_r; repeat split;
      intros H; first [reflexivity | exfalso; apply H; reflexivity].
  - cbn [job_run_handlers job_run_handler].
    unfold job_close_if_connected, in_world, close_if_connected.
    cbn [world set_res res]. rewrite Hconn.
    do 2 eexists. split; [reflexivity|]. cbn. rewrite orb_false_r. repeat split.
  - do 2 eexists. split; [reflexivity|]. cbn. rewrite orb_false_r. repeat split.
Qed.

(** Dispatch of one quiet message once the streaming synthesis has
    subscribed. *)
Lemma stream_deliver (v : Variant) (e : ServerEvent) (j : Job) (c : Variant) :
  stream_registry j -> connection (vars (world j)) = Some c ->
  stream_quiet v (SockMessage e) ->
  exists j',
    job_deliver v (SockMessage e) j = (None, j') /\
    stream_unchanged j j' /\
    now (world j') = now (world j) /\ arrivals (world j') = arrivals (world j) /\
    timers (world j') = timers (world j) /\
    res j' = respond v (res j) (SockMessage e) /\
    closes (world j') =
      (if is_done (SockMessage e) then S (closes (world j)) else closes (world j)) /\
    sessionConfigured (vars (world j')) =
      sessionConfigured (vars (world j)) || is_updated (SockMessage e).
Proof.
  intros (cs & ce & Hcs & Hce & Hh) Hconn Hq.
  destruct v; cbn [job_deliver].
  - destruct (stream_run cs ce (ev_type e) (PEvent e) j c Hcs Hce Hconn)
      as (r & j1 & Erun & Hsame & Hnow & Harr & Htim & Hres & Hcl & Hflag & _).
    exists j1. split.
    { unfold job_ga_on_message, job_emit. rewrite Hh, Erun.
      destruct r as [[]|err]; [|reflexivity].
      rewrite (job_handlers_of_registry "server.*" j j1) by apply Hsame.
      rewrite Hh. reflexivity. }
    repeat split; try apply Hsame; assumption.
  - destruct (String.eqb (ev_type e) "error") eqn:Ek.
    + apply String.eqb_eq in Ek.
      destruct (stream_run cs ce "error" (PError sdk_error) j c Hcs Hce Hconn)
        as (r & j1 & Erun & Hsame & Hnow & Harr & Htim & Hres & Hcl & Hflag & Hok).
      exists j1. split.
      { unfold job_sdk_emit, job_emit. rewrite Hh, Erun, Hok; [reflexivity|].
        intros H. discriminate H. }
      cbn [respond is_done is_updated payload_of]. rewrite Ek. cbn [String.eqb].
      repeat split; try apply Hsame; assumption.
    + destruct (stream_run cs ce (ev_type e) (PEvent e) j c Hcs Hce Hconn)
        as (r & j1 & Erun & Hsame & Hnow & Harr & Htim & Hres & Hcl & Hflag & Hok).
      exists j1. split.
      { unfold job_sdk_emit, job_emit. rewrite Hh, Erun, Hok; [reflexivity|].
        exact Hq. }
      cbn [respond is_done is_updated payload_of]. rewrite Ek.
      repeat split; try apply Hsame; assumption.
Qed.

Lemma streamed_app (v : Variant) (l1 l2 : list (Z * Occurrence)) (res : Response) :
  streamed v (l1 ++ l2) res = streamed v l2 (streamed v l1 res).
Proof. apply fold_left_app. Qed.

Lemma completions_app (l1 l2 : list (Z * Occurrence)) :
  completions (l1 ++ l2) = (completions l1 + completions l2)%nat.
Proof. unfold completions. rewrite List.filter_app, List.length_app. reflexivity. Qed.

(** One suspension of the streaming synthesis, or of the event loop after
    it: a prefix of the script is dispatched. *)
Lemma stream_suspension (v : Variant) (due : Z) (c : Variant)
    (arr : list (Z * Occurrence)) :
  forall j,
    arrivals (world j) = arr -> stream_registry j ->
    connection (vars (world j)) = Some c -> stream_quiet_script v arr ->
    exists delivered j',
      job_deliver_until v (fun _ => false) due arr j = (None, j') /\
      arr = delivered ++ arrivals (world j') /\
      stream_unchanged j j' /\ timers (world j') = timers (world j) /\
      res j' = streamed v delivered (res j) /\
      closes (world j') = (closes (world j) + completions delivered)%nat /\
      sessionConfigured (vars (world j')) =
        sessionConfigured (vars (world j)) || updated_in delivered /\
      now (world j) <= now (world j') <= Z.max (now (world j)) due /\
      Forall (fun p => fst p <= now (world j')) delivered /\
      Forall (fun p => fst p < due) delivered /\
      match arrivals (world j') with [] => True | (t, _) :: _ => due <= t end.
Proof.
  induction arr as [|[t occ] rest IH]; intros j Harr Hreg Hconn Hq.
  - exists [], j. cbn. rewrite Harr, orb_false_r, Nat.add_0_r.
    repeat split; try reflexivity; try lia; constructor.
  - cbn [job_deliver_until]. destruct (t <? due) eqn:Et.
    + apply Z.ltb_lt in Et.
      inversion Hq as [|? ? Hocc Hrest]; subst.
      destruct occ as [|e|err]; try contradiction.
      set (j1 := in_world (fun w => set_now (Z.max (now w) t) (set_arrivals rest w)) j).
      assert (Hreg1 : stream_registry j1)
        by (apply (stream_registry_same j); [reflexivity | exact Hreg]).
      destruct (stream_deliver v e j1 c Hreg1 Hconn Hocc)
        as (j2 & Edel & Hsame & Hnow2 & Harr2 & Htim2 & Hres2 & Hcl2 & Hflag2).
      rewrite Edel.
      destruct (IH j2)
        as (d2 & j' & Erun & Hsplit & Hsame' & Htim' & Hres' & Hcl' & Hflag' & Hnow' & Hpast & Hearly & Hhead).
      { exact Harr2. }
      { apply (stream_registry_same j1); [apply Hsame | exact Hreg1]. }
      { destruct Hsame as (_ & _ & _ & _ & _ & Hc). rewrite Hc. exact Hconn. }
      { exact Hrest. }
      exists ((t, SockMessage e) :: d2), j'.
      split; [exact Erun|]. split; [cbn; rewrite <- Hsplit; reflexivity|].
      split; [apply (stream_unchanged_trans j j2 j'); [exact Hsame | exact Hsame']|].
      split; [rewrite Htim', Htim2; reflexivity|].
      split; [rewrite Hres', Hres2; reflexivity|].
      split.
      { rewrite Hcl', Hcl2. unfold completions. cbn [List.filter snd].
        destruct (is_done (SockMessage e)); cbn [length j1 in_world world set_world closes set_now set_arrivals]; lia. }
      split.
      { rewrite Hflag', Hflag2. cbn. apply eq_sym, orb_assoc. }
      rewrite Hnow2 in Hnow'. cbn in Hnow'. split; [lia|].
      split; [constructor; [cbn; lia | exact Hpast]|].
      split; [constructor; [exact Et | exact Hearly] | exact Hhead].
    + apply Z.ltb_ge in Et. exists [], j. cbn. rewrite Harr, orb_false_r, Nat.add_0_r.
      repeat split; try reflexivity; try lia; constructor.
Qed.

(** One turn of the configuration wait of the streaming synthesis. *)
Lemma stream_sleep (v : Variant) (delay margin : Z) (c : Variant) (j : Job) :
  stream_registry j -> connection (vars (world j)) = Some c ->
  stream_quiet_script v (arrivals (world j)) -> timely margin (world j) -> 0 <= delay ->
  exists delivered j',
    job_sleep v delay j = (None, j') /\
    arrivals (world j) = delivered ++ arrivals (world j') /\
    stream_unchanged j j' /\
    res j' = streamed v delivered (res j) /\
    closes (world j') = (closes (world j) + completions delivered)%nat /\
    sessionConfigured (vars (world j')) =
      sessionConfigured (vars (world j)) || updated_in delivered /\
    now (world j) + delay <= now (world j') <= now (world j) + delay + margin /\
    Forall (fun p => fst p <= now (world j')) delivered /\
    fresh (world j').
Proof.
  intros Hreg Hconn Hq Hlag Hdelay.
  unfold job_sleep, setTimeout, job_run_until.
  set (due := now (world j) + delay + lag (world j) (timers (world j))).
  set (j1 := set_world (set_timers (S (timers (world j))) (world j)) j).
  destruct (stream_suspension v due c (arrivals (world j1)) j1)
    as (d & j2 & Erun & Hsplit & Hsame & _ & Hres & Hcl & Hflag & Hnow & Hpast & _ & Hhead).
  { reflexivity. }
  { apply (stream_registry_same j); [reflexivity | exact Hreg]. }
  { exact Hconn. }
  { exact Hq. }
  rewrite Erun.
  exists d, (in_world (fun w => set_now (Z.max (now w) due) w) j2).
  specialize (Hlag (timers (world j))). cbn in Hnow.
  split; [reflexivity|]. split; [exact Hsplit|].
  split; [exact Hsame|]. split; [exact Hres|]. split; [exact Hcl|]. split; [exact Hflag|].
  split; [cbn; subst due; lia|].
  split.
  - eapply Forall_impl; [exact Hpast|]. cbn. intros p Hp. lia.
  - unfold fresh. cbn. destruct (arrivals (world j2)) as [|[t occ] rest]; [exact I|].
    subst due. lia.
Qed.

End StreamDispatch.

Section StreamingRun.
Import Buf Voice Realtime Trace Transcript Script Fixture Stream StreamTrace.

Lemma stream_registry_subscribe (j : Job) :
  connect_registry (world j) -> stream_registry (stream_subscribe (adopt j)).
Proof.
  intros (cs & ce & Hcs & Hce & Hh). exists cs, ce.
  split; [exact Hcs|]. split; [exact Hce|].
  intros k. unfold stream_subscribe. rewrite !job_handlers_of_on.
  assert (Ha : forall k0, job_handlers_of k0 (adopt j) = map Connect (handlers_of k0 (world j))).
  { intros k0. unfold job_handlers_of, adopt, handlers_of. cbn [registry set_registry].
    rewrite lookup_fmap. destruct (listeners (world j) !! k0); reflexivity. }
  rewrite !Ha, !Hh.
  unfold connect_handlers, stream_handlers, stream_delta, response_done.
  by_event; reflexivity.
Qed.

(** One turn of the wait, whatever the timers do. *)
Lemma stream_turn (v : Variant) (delay : Z) (c : Variant) (j : Job) :
  stream_registry j -> connection (vars (world j)) = Some c ->
  stream_quiet_script v (arrivals (world j)) ->
  exists delivered j',
    job_sleep v delay j = (None, j') /\
    arrivals (world j) = delivered ++ arrivals (world j') /\
    stream_unchanged j j' /\
    res j' = streamed v delivered (res j) /\
    closes (world j') = (closes (world j) + completions delivered)%nat /\
    sessionConfigured (vars (world j')) =
      sessionConfigured (vars (world j)) || updated_in delivered.
Proof.
  intros Hreg Hconn Hq.
  unfold job_sleep, setTimeout, job_run_until.
  set (due := now (world j) + delay + lag (world j) (timers (world j))).
  set (j1 := set_world (set_timers (S (timers (world j))) (world j)) j).
  destruct (stream_suspension v due c (arrivals (world j1)) j1)
    as (d & j2 & Erun & Hsplit & Hsame & _ & Hres & Hcl & Hflag & _).
  { reflexivity. }
  { apply (stream_registry_same j); [reflexivity | exact Hreg]. }
  { exact Hconn. }
  { exact Hq. }
  rewrite Erun.
  exists d, (in_world (fun w => set_now (Z.max (now w) due) w) j2).
  split; [reflexivity|]. split; [exact Hsplit|].
  split; [exact Hsame|]. split; [exact Hres|]. split; [exact Hcl | exact Hflag].
Qed.

(** The wait of lines 556-558 has no other exit than the flag. *)
Lemma stream_wait_never_ends (v c : Variant) :
  forall (fuel : nat) (j : Job),
    stream_registry j -> connection (vars (world j)) = Some c ->
    stream_quiet_script v (arrivals (world j)) ->
    updated_in (arrivals (world j)) = false ->
    sessionConfigured (vars (world j)) = false ->
    exists delivered j',
      job_poll fuel v stream_unconfigured 50 j = (Pending, j') /\
      arrivals (world j) = delivered ++ arrivals (world j') /\
      stream_unchanged j j' /\
      res j' = streamed v delivered (res j) /\
      closes (world j') = (closes (world j) + completions delivered)%nat.
Proof.
  induction fuel as [|fuel IH]; intros j Hreg Hconn Hq Hnone Hflag.
  - exists [], j. cbn [job_poll]. unfold stream_unconfigured. rewrite Hflag. cbn.
    rewrite Nat.add_0_r. repeat split; reflexivity.
  - cbn [job_poll]. unfold stream_unconfigured at 1. rewrite Hflag. cbn [negb].
    destruct (stream_turn v 50 c j Hreg Hconn Hq)
      as (d1 & j1 & Esleep & Hsplit1 & Hsame1 & Hres1 & Hcl1 & Hflag1).
    rewrite Esleep.
    rewrite Hsplit1, updated_in_app in Hnone. apply orb_false_iff in Hnone.
    destruct Hnone as [Hn1 Hn2].
    rewrite Hflag, Hn1 in Hflag1. cbn in Hflag1.
    destruct (IH j1) as (d2 & j' & Epoll & Hsplit2 & Hsame2 & Hres2 & Hcl2).
    { apply (stream_registry_same j); [apply Hsame1 | exact Hreg]. }
    { destruct Hsame1 as (_ & _ & _ & _ & _ & Hc). rewrite Hc. exact Hconn. }
    { unfold stream_quiet_script in Hq. rewrite Hsplit1 in Hq.
      apply Forall_app in Hq. apply Hq. }
    { exact Hn2. }
    { exact Hflag1. }
    exists (d1 ++ d2), j'. split; [exact Epoll|].
    split; [rewrite Hsplit1 at 1; rewrite Hsplit2 at 1; rewrite app_assoc; reflexivity|].
    split; [apply (stream_unchanged_trans j j1 j'); assumption|].
    split; [rewrite Hres2, Hres1, streamed_app; reflexivity|].
    rewrite Hcl2, Hcl1, completions_app. lia.
Qed.

(** The wait ends once the first "session.updated" message is delivered:
    within one turn of its arrival, given fuel for the turns until then. *)
Lemma stream_wait_ends (v c : Variant) (margin t : Z) (upd : Occurrence)
    (post : list (Z * Occurrence)) :
  forall (fuel : nat) (pre : list (Z * Occurrence)) (j : Job),
    stream_registry j -> connection (vars (world j)) = Some c ->
    stream_quiet_script v (arrivals (world j)) -> timely margin (world j) ->
    arrivals (world j) = pre ++ (t, upd) :: post -> is_updated upd = true ->
    updated_in pre = false -> Forall (fun p => fst p <= t) pre ->
    sessionConfigured (vars (world j)) = false ->
    (1 <= fuel)%nat -> t - now (world j) < 50 * Z.of_nat fuel ->
    exists delivered j',
      job_poll fuel v stream_unconfigured 50 j = (Returned tt, j') /\
      arrivals (world j) = delivered ++ arrivals (world j') /\
      (exists k, delivered = pre ++ (t, upd) :: k) /\
      stream_unchanged j j' /\
      res j' = streamed v delivered (res j) /\
      closes (world j') = (closes (world j) + completions delivered)%nat /\
      now (world j) <= now (world j') <= Z.max (now (world j)) t + 50 + margin /\
      Forall (fun p => fst p <= now (world j')) delivered.
Proof.
  induction fuel as [|fuel IH];
    intros pre j Hreg Hconn Hq Hlag Harr Hupd Hpre Hearly Hflag Hf1 Hf2; [lia|].
  cbn [job_poll]. unfold stream_unconfigured at 1. rewrite Hflag. cbn [negb].
  destruct (stream_sleep v 50 margin c j Hreg Hconn Hq Hlag)
    as (d1 & j1 & Esleep & Hsplit1 & Hsame1 & Hres1 & Hcl1 & Hflag1 & Hnow1 & Hpast1 & Hfresh1);
    [lia|].
  rewrite Esleep. rewrite Hflag in Hflag1. cbn in Hflag1.
  assert (Hreg1 : stream_registry j1)
    by (apply (stream_registry_same j); [apply Hsame1 | exact Hreg]).
  assert (Hconn1 : connection (vars (world j1)) = Some c).
  { destruct Hsame1 as (_ & _ & _ & _ & _ & Hc). rewrite Hc. exact Hconn. }
  assert (Hlag1 : timely margin (world j1)).
  { destruct Hsame1 as (_ & _ & Hl & _). unfold timely. rewrite Hl. exact Hlag. }
  assert (Hq1 : stream_quiet_script v (arrivals (world j1))).
  { unfold stream_quiet_script in Hq. rewrite Hsplit1 in Hq.
    apply Forall_app in Hq. apply Hq. }
  pose proof Hsplit1 as Hcases. rewrite Harr in Hcases. apply app_eq_inv in Hcases.
  destruct (updated_in d1) eqn:Ed1.
  - (* the message was delivered in this turn *)
    destruct Hcases as [(k & Hp & Hr)|(k & Hd & Hr)].
    { rewrite Hp, updated_in_app, Ed1 in Hpre. discriminate Hpre. }
    destruct k as [|p k].
    { rewrite app_nil_r in Hd. rewrite Hd, Hpre in Ed1. discriminate Ed1. }
    injection Hr as <- Hpost.
    exists d1, j1. split.
    { destruct fuel; cbn [job_poll]; unfold stream_unconfigured; rewrite Hflag1; reflexivity. }
    split; [exact Hsplit1|]. split; [exists k; exact Hd|].
    split; [exact Hsame1|]. split; [exact Hres1|]. split; [exact Hcl1|].
    split; [lia | exact Hpast1].
  - (* not yet: the turn ended before it arrived *)
    assert (Hnext : exists pre', arrivals (world j1) = pre' ++ (t, upd) :: post /\
                      pre = d1 ++ pre').
    { destruct Hcases as [(k & Hp & Hr)|(k & Hd & Hr)].
      - exists k. split; [exact Hr | exact Hp].
      - rewrite Hd, updated_in_app in Ed1. apply orb_false_iff in Ed1.
        destruct Ed1 as [_ Ek]. destruct k as [|p k].
        + exists []. rewrite app_nil_r in Hd. cbn in Hr.
          split; [symmetry; exact Hr | rewrite app_nil_r; symmetry; exact Hd].
        + injection Hr as <- _. cbn in Ek. rewrite Hupd in Ek. discriminate Ek. }
    destruct Hnext as (pre' & Harr1 & Hp).
    assert (Hk : Forall (fun p => fst p <= t) pre').
    { rewrite Hp in Hearly. apply Forall_app in Hearly. apply Hearly. }
    assert (Hlate : now (world j1) <= t).
    { unfold fresh in Hfresh1. rewrite Harr1 in Hfresh1.
      destruct pre' as [|[t' occ'] k]; cbn in Hfresh1; [exact Hfresh1|].
      inversion Hk as [|? ? Ht' _]; subst. cbn in Ht'. lia. }
    destruct (IH pre' j1)
      as (d2 & j' & Epoll & Hsplit2 & [k2 Hk2] & Hsame2 & Hres2 & Hcl2 & Hnow2 & Hpast2).
    { exact Hreg1. }
    { exact Hconn1. }
    { exact Hq1. }
    { exact Hlag1. }
    { exact Harr1. }
    { exact Hupd. }
    { rewrite Hp, updated_in_app in Hpre. apply orb_false_iff in Hpre. apply Hpre. }
    { exact Hk. }
    { exact Hflag1. }
    { lia. }
    { lia. }
    exists (d1 ++ d2), j'. split; [exact Epoll|].
    split; [rewrite Hsplit1 at 1; rewrite Hsplit2 at 1; rewrite app_assoc; reflexivity|].
    split; [exists k2; rewrite Hk2, Hp, <- app_assoc; reflexivity|].
    split; [apply (stream_unchanged_trans j j1 j'); assumption|].
    split; [rewrite Hres2, Hres1, streamed_app; reflexivity|].
    split; [rewrite Hcl2, Hcl1, completions_app; lia|].
    split; [lia|].
    apply Forall_app. split; [|exact Hpast2].
    eapply Forall_impl; [exact Hpast1|]. cbn. intros p Hp1. lia.
Qed.

(** The attempt once the session has opened. *)
Lemma stream_attempt_connected (fuel : nat) (config : Env) (text : string)
    (selectedVoice : JsValue) (j0 : Job) (v : Variant) (w1 : World) :
  createRealtimeClient config (world j0) = (Returned v, w1) ->
  stream_attempt fuel config text selectedVoice j0 =
    match job_poll fuel v stream_unconfigured 50
            (stream_subscribe (adopt (in_world (connected v) (set_world w1 j0)))) with
    | (Returned _, jb) => (Returned tt, stream_request text jb)
    | (Thrown e, jb) => (Thrown e, jb)
    | (Crashed e, jb) => (Crashed e, jb)
    | (Pending, jb) => (Pending, jb)
    end.
Proof.
  intros Hconn. destruct j0 as [w0 r0 g0 o0]. cbn [world] in Hconn.
  unfold stream_attempt, job_bind at 1, on_session at 1. cbn [world]. rewrite Hconn.
  reflexivity.
Qed.

(** The job when the wait of lines 556-558 begins. *)
Lemma stream_ready (config : Env) (text : string) (j : Job) (v : Variant) (w1 : World) :
  headersSent (res j) = false ->
  createRealtimeClient config (world (prepared text j)) = (Returned v, w1) ->
  exists ja,
    ja = stream_subscribe (adopt (in_world (connected v) (set_world w1 (prepared text j)))) /\
    stream_registry ja /\ connection (vars (world ja)) = Some v /\
    arrivals (world ja) = arrivals w1 /\ now (world ja) = now w1 /\
    lag (world ja) = lag (world j) /\
    sessionConfigured (vars (world ja)) = false /\
    res ja = res j ++ stream_headers /\ outbox ja = outbox j /\
    closes (world ja) = closes (world j) /\
    sockets (world ja) = S (sockets (world j)) /\
    audioChars (world ja) = audioChars (world j) ++ [String.length text].
Proof.
  intros Hfresh Hconn.
  destruct (connect_ready _ _ _ _ Hconn)
    as (Hreg & Hlag1 & Hsock & Hcl & _ & Hch & _ & _ & _ & _ & Hflag & _).
  eexists. split; [reflexivity|].
  split.
  { apply stream_registry_subscribe.
    apply (connect_registry_listeners w1); [reflexivity | exact Hreg]. }
  split; [reflexivity|]. split; [reflexivity|]. split; [reflexivity|].
  split; [exact Hlag1|]. split; [exact Hflag|].
  split; [reflexivity|]. split; [reflexivity|].
  split; [exact Hcl|]. split; [exact Hsock | exact Hch].
Qed.

(** The whole run of a streaming synthesis whose session has opened and
    whose configuration is confirmed at time [t], in terms of the prefix of
    the script that the wait delivered. *)
Lemma stream_whole_run (fuel : nat) (config : Env) (text : string)
    (voiceName voiceGender : option string) (margin : Z) (j : Job)
    (v : Variant) (w1 : World) (pre post : list (Z * Occurrence))
    (t : Z) (upd : Occurrence) :
  text <> "" -> headersSent (res j) = false -> timely margin (world j) ->
  createRealtimeClient config (world (prepared text j)) = (Returned v, w1) ->
  stream_quiet_script v (arrivals w1) ->
  arrivals w1 = pre ++ (t, upd) :: post -> is_updated upd = true ->
  updated_in pre = false -> Forall (fun p => fst p <= t) pre ->
  (1 <= fuel)%nat -> t - now w1 < 50 * Z.of_nat fuel ->
  exists delivered j',
    synthesizeSpeechStreamRealtime fuel config (Some text) voiceName voiceGender j
      = (Returned tt, j') /\
    arrivals w1 = delivered ++ arrivals (world j') /\
    (exists k, delivered = pre ++ (t, upd) :: k) /\
    outbox j' = outbox j ++ stream_commands text /\
    res j' = streamed v delivered (res j ++ stream_headers) /\
    closes (world j') = (closes (world j) + completions delivered)%nat /\
    sockets (world j') = S (sockets (world j)) /\
    audioChars (world j') = audioChars (world j) ++ [String.length text] /\
    stream_registry j' /\ connection (vars (world j')) = Some v /\
    now w1 <= now (world j') <= Z.max (now w1) t + 50 + margin /\
    Forall (fun p => fst p <= now (world j')) delivered.
Proof.
  intros Htext Hfresh Hlag Hconn Hq Harr Hupd Hpre Hearly Hfuel Hturns.
  destruct (stream_ready config text j v w1 Hfresh Hconn)
    as (ja & Eja & Hreg & Hc & Ha & Hn & Hl & Hflag & Hres & Hout & Hcl & Hsock & Hch).
  destruct (stream_wait_ends v v margin t upd post fuel pre ja)
    as (d & jb & Epoll & Hsplit & Hcover & Hsame & Hresb & Hclb & Hnow & Hpast).
  { exact Hreg. }
  { exact Hc. }
  { rewrite Ha. exact Hq. }
  { unfold timely. rewrite Hl. exact Hlag. }
  { rewrite Ha. exact Harr. }
  { exact Hupd. }
  { exact Hpre. }
  { exact Hearly. }
  { exact Hflag. }
  { exact Hfuel. }
  { rewrite Hn. exact Hturns. }
  destruct Hsame as (Ho & Hg & Hlb & Hsb & Hchb & Hcb).
  exists d, (stream_request text jb).
  split.
  { rewrite (stream_unfold _ _ _ _ _ _ Htext Hfresh). unfold job_try_catch.
    rewrite (stream_attempt_connected _ _ _ _ _ _ _ Hconn), <- Eja, Epoll. reflexivity. }
  split; [rewrite <- Ha; exact Hsplit|]. split; [exact Hcover|].
  split.
  { unfold stream_request, job_send, stream_commands. cbn [outbox set_outbox].
    rewrite Ho, Hout, <- app_assoc. reflexivity. }
  split; [cbn; rewrite Hresb, Hres; reflexivity|].
  split; [cbn; rewrite Hclb, Hcl; reflexivity|].
  split; [cbn; rewrite Hsb; exact Hsock|].
  split; [cbn; rewrite Hchb; exact Hch|].
  split.
  { apply (stream_registry_same jb); [reflexivity|].
    apply (stream_registry_same ja); [exact Hg | exact Hreg]. }
  split; [cbn; rewrite Hcb; exact Hc|].
  rewrite Hn in Hnow. split; [exact Hnow | exact Hpast].
Qed.

(** The event loop after the function has returned. *)
Lemma stream_afterwards (v c : Variant) (horizon : Z) (j : Job) :
  stream_registry j -> connection (vars (world j)) = Some c ->
  stream_quiet_script v (arrivals (world j)) ->
  exists delivered j',
    afterwards v horizon j = (None, j') /\
    arrivals (world j) = delivered ++ arrivals (world j') /\
    stream_unchanged j j' /\
    res j' = streamed v delivered (res j) /\
    closes (world j') = (closes (world j) + completions delivered)%nat /\
    match arrivals (world j') with [] => True | (t, _) :: _ => horizon <= t end.
Proof.
  intros Hreg Hconn Hq. unfold afterwards, job_run_until.
  destruct (stream_suspension v horizon c (arrivals (world j)) j eq_refl Hreg Hconn Hq)
    as (d & j' & Erun & Hsplit & Hsame & _ & Hres & Hcl & _ & _ & _ & _ & Hhead).
  exists d, j'. repeat split; try assumption; apply Hsame.
Qed.

(** Messages other than errors and completions only add their writes. *)
Lemma streamed_ordinary (v : Variant) (script : list (Z * Occurrence)) :
  forall res,
    stream_quiet_script v script ->
    Forall (fun p => ordinary (snd p) = true) script ->
    streamed v script res = res ++ written script /\ completions script = 0%nat.
Proof.
  induction script as [|[t occ] rest IH]; intros res Hq Hplain.
  - cbn. rewrite app_nil_r. split; reflexivity.
  - inversion Hq as [|? ? Hq1 Hq2]; subst. inversion Hplain as [|? ? Hp1 Hp2]; subst.
    cbn [snd] in Hq1, Hp1. destruct occ as [|e|err]; try discriminate Hp1.
    cbn [ordinary] in Hp1. apply andb_true_iff in Hp1. destruct Hp1 as [Hne Hnd].
    apply negb_true_iff in Hne, Hnd.
    destruct (IH (answer (ev_type e) (payload_of v e) res) Hq2 Hp2) as [Hs Hc].
    change (streamed v ((t, SockMessage e) :: rest) res)
      with (streamed v rest (answer (ev_type e) (payload_of v e) res)).
    rewrite Hs. split.
    + assert (Hpay : payload_of v e = PEvent e).
      { destruct v; cbn; [reflexivity | rewrite Hne; reflexivity]. }
      rewrite Hpay. unfold answer, written. cbn [flat_map snd].
      rewrite Hne, Hnd. cbn [payload_delta].
      destruct (String.eqb (ev_type e) stream_delta).
      * destruct (ev_delta e); [rewrite <- app_assoc|]; reflexivity.
      * reflexivity.
    + unfold completions in *. cbn [List.filter snd is_done]. rewrite Hnd. exact Hc.
Qed.

End StreamingRun.

Section StreamingSynthesis.
Import Buf Voice Realtime Trace Transcript Script Fixture Stream StreamTrace StreamFixture.

Lemma written_app (l1 l2 : list (Z * Occurrence)) :
  written (l1 ++ l2) = written l1 ++ written l2.
Proof. apply flat_map_app. Qed.

Lemma written_updated (t : Z) (upd : Occurrence) :
  is_updated upd = true -> written [(t, upd)] = [].
Proof.
  destruct upd as [|e|err]; try discriminate. cbn. intros H.
  apply String.eqb_eq in H. rewrite H. reflexivity.
Qed.

(** X22: the wait for the configuration of a streaming synthesis has no
    timeout. Once the session is open, if no "session.updated" message ever
    arrives, the function has not returned after any number of turns: it has
    sent neither command, and what the server sent meanwhile has gone to the
    listeners. *)
Theorem stream_waits_without_timeout (fuel : nat) (config : Env) (text : string)
    (voiceName voiceGender : option string) (j : Job) (v : Variant) (w1 : World) :
  text <> "" -> headersSent (res j) = false ->
  createRealtimeClient config (world (prepared text j)) = (Returned v, w1) ->
  stream_quiet_script v (arrivals w1) -> updated_in (arrivals w1) = false ->
  exists delivered j',
    synthesizeSpeechStreamRealtime fuel config (Some text) voiceName voiceGender j
      = (Pending, j') /\
    arrivals w1 = delivered ++ arrivals (world j') /\
    outbox j' = outbox j /\
    res j' = streamed v delivered (res j ++ stream_headers) /\
    closes (world j') = (closes (world j) + completions delivered)%nat.
Proof.
  intros Htext Hfresh Hconn Hq Hnone.
  destruct (stream_ready config text j v w1 Hfresh Hconn)
    as (ja & Eja & Hreg & Hc & Ha & Hn & Hl & Hflag & Hres & Hout & Hcl & Hsock & Hch).
  destruct (stream_wait_never_ends v v fuel ja)
    as (d & jb & Epoll & Hsplit & Hsame & Hresb & Hclb).
  { exact Hreg. }
  { exact Hc. }
  { rewrite Ha. exact Hq. }
  { rewrite Ha. exact Hnone. }
  { exact Hflag. }
  exists d, jb. split.
  { rewrite (stream_unfold _ _ _ _ _ _ Htext Hfresh). unfold job_try_catch.
    rewrite (stream_attempt_connected _ _ _ _ _ _ _ Hconn), <- Eja, Epoll. reflexivity. }
  split; [rewrite <- Ha; exact Hsplit|].
  split; [destruct Hsame as (Ho & _); rewrite Ho; exact Hout|].
  split; [rewrite Hresb, Hres; reflexivity|].
  rewrite Hclb, Hcl. reflexivity.
Qed.

Lemma stream_waits_without_timeout_witness :
  exists delivered j',
    synthesizeSpeechStreamRealtime 1000 ga_config (Some "hi") None None
        (request (scripted punctual unconfigured))
      = (Pending, j') /\
    arrivals (streaming ga_config "hi" unconfigured) = delivered ++ arrivals (world j') /\
    outbox j' = outbox (request (scripted punctual unconfigured)) /\
    res j' = streamed GA delivered
               (res (request (scripted punctual unconfigured)) ++ stream_headers) /\
    closes (world j') =
      (closes (world (request (scripted punctual unconfigured)))
       + completions delivered)%nat.
Proof.
  apply (stream_waits_without_timeout 1000 ga_config "hi" None None
           (request (scripted punctual unconfigured)) GA
           (streaming ga_config "hi" unconfigured)).
  - discriminate.
  - reflexivity.
  - vm_compute. reflexivity.
  - vm_compute. repeat constructor.
  - vm_compute. reflexivity.
Defined.

(** X23: once the session is open and its configuration is confirmed, the
    streaming synthesis returns within one turn of the confirmation, having
    sent the text and then the request for an audio response, in this order
    and nothing else; it has opened one transport and recorded the length of
    the text once. It leaves the connection open: the only closes are those
    of completions delivered while it waited. *)
Theorem stream_sends_text_then_request (fuel : nat) (config : Env) (text : string)
    (voiceName voiceGender : option string) (margin : Z) (j : Job)
    (v : Variant) (w1 : World) (pre post : list (Z * Occurrence))
    (t : Z) (upd : Occurrence) :
  text <> "" -> headersSent (res j) = false -> timely margin (world j) ->
  createRealtimeClient config (world (prepared text j)) = (Returned v, w1) ->
  stream_quiet_script v (arrivals w1) ->
  arrivals w1 = pre ++ (t, upd) :: post -> is_updated upd = true ->
  updated_in pre = false -> Forall (fun p => fst p <= t) pre ->
  (1 <= fuel)%nat -> t - now w1 < 50 * Z.of_nat fuel ->
  exists delivered j',
    synthesizeSpeechStreamRealtime fuel config (Some text) voiceName voiceGender j
      = (Returned tt, j') /\
    arrivals w1 = delivered ++ arrivals (world j') /\
    outbox j' = outbox j ++ [Plain (ConversationItemCreate text);
                             ResponseCreateWith ["audio"] "Please respond with speech."] /\
    sockets (world j') = S (sockets (world j)) /\
    audioChars (world j') = audioChars (world j) ++ [String.length text] /\
    closes (world j') = (closes (world j) + completions delivered)%nat /\
    now (world j') <= Z.max (now w1) t + 50 + margin.
Proof.
  intros Htext Hfresh Hlag Hconn Hq Harr Hupd Hpre Hearly Hfuel Hturns.
  destruct (stream_whole_run fuel config text voiceName voiceGender margin j v w1
              pre post t upd Htext Hfresh Hlag Hconn Hq Harr Hupd Hpre Hearly Hfuel Hturns)
    as (d & j' & Erun & Hsplit & _ & Hout & _ & Hcl & Hsock & Hch & _ & _ & Hnow & _).
  exists d, j'. repeat split; try assumption. apply Hnow.
Qed.

Lemma stream_sends_text_then_request_witness :
  exists delivered j',
    synthesizeSpeechStreamRealtime 100 ga_config (Some "hi") None None
        (request (scripted punctual spoken))
      = (Returned tt, j') /\
    arrivals (streaming ga_config "hi" spoken) = delivered ++ arrivals (world j') /\
    outbox j' = outbox (request (scripted punctual spoken))
                ++ [Plain (ConversationItemCreate "hi");
                    ResponseCreateWith ["audio"] "Please respond with speech."] /\
    sockets (world j') = S (sockets (world (request (scripted punctual spoken)))) /\
    audioChars (world j') =
      audioChars (world (request (scripted punctual spoken))) ++ [String.length "hi"] /\
    closes (world j') =
      (closes (world (request (scripted punctual spoken))) + completions delivered)%nat /\
    now (world j') <= Z.max (now (streaming ga_config "hi" spoken)) 30 + 50 + 0.
Proof.
  apply (stream_sends_text_then_request 100 ga_config "hi" None None 0
           (request (scripted punctual spoken)) GA (streaming ga_config "hi" spoken)
           []
           [(100, stream_audio [x01; x02; x03]); (120, stream_audio [x04; x05]); (200, done)]
           30 updated).
  - discriminate.
  - reflexivity.
  - intros k. unfold scripted, punctual. cbn. lia.
  - vm_compute. reflexivity.
  - vm_compute. repeat constructor.
  - vm_compute. reflexivity.
  - reflexivity.
  - reflexivity.
  - constructor.
  - lia.
  - vm_compute. reflexivity.
Defined.

(** X24: when the configuration is confirmed and the server then sends its
    messages and a final "response.done", none of them an error event, the
    response receives, after the two headers, one write for each
    "response.audio.delta" message that carries a payload, decoded from
    base64 and in the order of arrival, and is then ended; the connection
    is closed once, by the completion, after the function has returned. *)
Theorem stream_writes_every_chunk (fuel : nat) (config : Env) (text : string)
    (voiceName voiceGender : option string) (margin horizon : Z) (j : Job)
    (v : Variant) (w1 : World) (pre mid : list (Z * Occurrence))
    (t t2 : Z) (upd : Occurrence) (completion : ServerEvent) :
  text <> "" -> headersSent (res j) = false -> timely margin (world j) ->
  createRealtimeClient config (world (prepared text j)) = (Returned v, w1) ->
  stream_quiet_script v (arrivals w1) ->
  arrivals w1 = pre ++ (t, upd) :: mid ++ [(t2, SockMessage completion)] ->
  is_updated upd = true -> updated_in pre = false ->
  Forall (fun p => fst p <= t) pre ->
  (1 <= fuel)%nat -> t - now w1 < 50 * Z.of_nat fuel ->
  ev_type completion = response_done ->
  Forall (fun p => ordinary (snd p) = true) (pre ++ (t, upd) :: mid) ->
  Forall (fun p => fst p < horizon) (mid ++ [(t2, SockMessage completion)]) ->
  exists j' j'',
    synthesizeSpeechStreamRealtime fuel config (Some text) voiceName voiceGender j
      = (Returned tt, j') /\
    afterwards v horizon j' = (None, j'') /\
    res j'' = res j ++ stream_headers ++ written (pre ++ mid) ++ [End] /\
    closes (world j'') = S (closes (world j)) /\
    outbox j'' = outbox j ++ stream_commands text /\
    arrivals (world j'') = [].
Proof.
  intros Htext Hfresh Hlag Hconn Hq Harr Hupd Hpre Hearly Hfuel Hturns
         Hdone Hplain Hhorizon.
  destruct (stream_whole_run fuel config text voiceName voiceGender margin j v w1
              pre (mid ++ [(t2, SockMessage completion)]) t upd
              Htext Hfresh Hlag Hconn Hq Harr Hupd Hpre Hearly Hfuel Hturns)
    as (d1 & j' & Erun & Hsplit & [k Hk] & Hout & Hres & Hcl & _ & _ & Hreg & Hc & _ & _).
  assert (Hq' : stream_quiet_script v (arrivals (world j'))).
  { unfold stream_quiet_script in Hq. rewrite Hsplit in Hq.
    apply Forall_app in Hq. apply Hq. }
  destruct (stream_afterwards v v horizon j' Hreg Hc Hq')
    as (d2 & j'' & Eafter & Hsplit2 & Hsame & Hres2 & Hcl2 & Hhead).
  assert (Hrest : k ++ d2 ++ arrivals (world j'') = mid ++ [(t2, SockMessage completion)]).
  { rewrite <- Hsplit2. rewrite Harr, Hk in Hsplit.
    replace ((pre ++ (t, upd) :: k) ++ arrivals (world j'))
      with (pre ++ (t, upd) :: k ++ arrivals (world j')) in Hsplit
      by (rewrite <- app_assoc; reflexivity).
    apply app_inv_head in Hsplit. injection Hsplit as Hsplit. symmetry. exact Hsplit. }
  assert (Hnil : arrivals (world j'') = []).
  { destruct (arrivals (world j'')) as [|[t' occ'] rest]; [reflexivity|]. exfalso.
    rewrite <- Hrest in Hhorizon. apply Forall_app in Hhorizon.
    destruct Hhorizon as [_ Hh]. apply Forall_app in Hh. destruct Hh as [_ Hh].
    inversion Hh as [|? ? Ht' _]; subst. cbn in Ht'. lia. }
  rewrite Hnil, app_nil_r in Hrest.
  assert (Hall : d1 ++ d2 = (pre ++ (t, upd) :: mid) ++ [(t2, SockMessage completion)]).
  { rewrite Hk, <- !app_assoc. cbn [app]. rewrite Hrest. reflexivity. }
  assert (Hq0 : stream_quiet_script v (pre ++ (t, upd) :: mid)).
  { unfold stream_quiet_script in Hq. rewrite Harr in Hq.
    replace (pre ++ (t, upd) :: mid ++ [(t2, SockMessage completion)])
      with ((pre ++ (t, upd) :: mid) ++ [(t2, SockMessage completion)]) in Hq
      by (rewrite <- app_assoc; reflexivity).
    apply Forall_app in Hq. apply Hq. }
  destruct (streamed_ordinary v _ (res j ++ stream_headers) Hq0 Hplain) as [Hs Hcount].
  exists j', j''. split; [exact Erun|]. split; [exact Eafter|].
  split.
  { rewrite Hres2, Hres, <- streamed_app, Hall, streamed_app, Hs.
    assert (Hw : written (pre ++ (t, upd) :: mid) = written (pre ++ mid)).
    { change (pre ++ (t, upd) :: mid) with (pre ++ [(t, upd)] ++ mid).
      rewrite !written_app, (written_updated t upd Hupd). reflexivity. }
    rewrite Hw. cbn [streamed fold_left snd respond]. unfold answer.
    rewrite Hdone. cbn [String.eqb Ascii.eqb Bool.eqb response_done stream_delta].
    rewrite <- !app_assoc. reflexivity. }
  split.
  { rewrite Hcl2, Hcl, <- Nat.add_assoc, <- completions_app, Hall, completions_app, Hcount.
    unfold completions. cbn [List.filter snd is_done]. rewrite Hdone.
    cbn. lia. }
  split; [destruct Hsame as (Ho & _); rewrite Ho; exact Hout | exact Hnil].
Qed.

Lemma stream_writes_every_chunk_witness :
  exists j' j'',
    synthesizeSpeechStreamRealtime 100 ga_config (Some "hi") None None
        (request (scripted punctual spoken))
      = (Returned tt, j') /\
    afterwards GA 1000 j' = (None, j'') /\
    res j'' = res (request (scripted punctual spoken)) ++ stream_headers
              ++ written ([] ++ [(100, stream_audio [x01; x02; x03]);
                                 (120, stream_audio [x04; x05])])
              ++ [End] /\
    closes (world j'') = S (closes (world (request (scripted punctual spoken)))) /\
    outbox j'' = outbox (request (scripted punctual spoken)) ++ stream_commands "hi" /\
    arrivals (world j'') = [].
Proof.
  apply (stream_writes_every_chunk 100 ga_config "hi" None None 0 1000
           (request (scripted punctual spoken)) GA (streaming ga_config "hi" spoken)
           []
           [(100, stream_audio [x01; x02; x03]); (120, stream_audio [x04; x05])]
           30 200 updated
           {| ev_type := response_done; ev_delta := None; ev_transcript := None |}).
  - discriminate.
  - reflexivity.
  - intros k. unfold scripted, punctual. cbn. lia.
  - vm_compute. reflexivity.
  - vm_compute. repeat constructor.
  - vm_compute. reflexivity.
  - reflexivity.
  - reflexivity.
  - constructor.
  - lia.
  - vm_compute. reflexivity.
  - reflexivity.
  - vm_compute. repeat constructor.
  - repeat constructor.
Defined.

End StreamingSynthesis.

(** ** The routes *)

Section RouteAnswers.
Import Buf Wav Voice Realtime Trace Routes Script Fixture.

(** X25: the route POST /recognize never rejects. An answer with a transcript
    carries a non-empty one and follows exactly one session, opened and
    closed once. A failure answer has status 500 and the type "Error",
    whatever went wrong, because every exception that reaches the route was
    created by the service itself; its details are the validation message,
    in which case nothing was touched, or begin with
    "Speech recognition failed: ". *)
Theorem recognize_route_answers (fuel : nat) (config : Env) (audioData : option string)
    (w : World) (r : Outcome RecognizeResponse) (w' : World) :
  post_recognize fuel config audioData w = (r, w') ->
  match r with
  | Returned (Recognized text) =>
      falsy text = false /\ sockets w' = S (sockets w) /\ closes w' = S (closes w)
  | Returned (RecognizeFailure status error details type) =>
      status = 500%nat /\ error = "Speech recognition failed (Realtime API)" /\
      type = "Error" /\
      ((details = "No audio data provided" /\ w' = w) \/
       exists m, details = "Speech recognition failed: " +:+ m)
  | Thrown _ => False
  | Crashed _ | Pending => True
  end.
Proof.
  unfold post_recognize, try_catch_finally, bind, ret.
  destruct (falsy audioData) eqn:Hf.
  - unfold recognizeSpeechRealtime. rewrite Hf. unfold throw.
    intros E. injection E as <- <-. cbn.
    repeat split. left. split; reflexivity.
  - destruct audioData as [audio|]; [|discriminate Hf].
    apply String.eqb_neq in Hf.
    destruct (recognizeSpeechRealtime fuel config (Some audio) w) as [r0 w0] eqn:Erun.
    destruct (recognition_ledger fuel config audio w r0 w0 Hf Erun)
      as [_ [([e He] & _)|(Hsock & Hr)]].
    + subst r0. intros E. injection E as <- <-. cbn.
      repeat split. right. exists (message e). reflexivity.
    + destruct r0 as [text|e|e|]; intros E; injection E as <- <-.
      * destruct Hr as (Hcl & _ & _ & Hne). repeat split; assumption.
      * destruct Hr as (_ & _ & ->). cbn. repeat split. right.
        exists "Transcription timeout - no response received". reflexivity.
      * exact I.
      * exact I.
Qed.

Lemma recognize_route_answers_witness :
  falsy (Some "hello world") = false /\
  sockets (snd (post_recognize 400 ga_config (Some "AAAA") (scripted punctual transcribed)))
    = S (sockets (scripted punctual transcribed)) /\
  closes (snd (post_recognize 400 ga_config (Some "AAAA") (scripted punctual transcribed)))
    = S (closes (scripted punctual transcribed)).
Proof.
  apply (recognize_route_answers 400 ga_config (Some "AAAA")
           (scripted punctual transcribed)
           (Returned (Recognized (Some "hello world")))
           (snd (post_recognize 400 ga_config (Some "AAAA")
                   (scripted punctual transcribed)))).
  vm_compute. reflexivity.
Defined.

(** X26: the route POST /synthesize never rejects. An audio answer has the
    content type "audio/wav" and a body that begins with "RIFF" and is at
    least 44 bytes long, after one session opened and closed once. A failure
    answer has status 500; its details are the validation message, in which
    case nothing was touched, or begin with "Speech synthesis failed: ". *)
Theorem synthesize_route_answers (fuel : nat) (config : Env) (body : SynthesizeBody)
    (w : World) (r : Outcome HttpResponse) (w' : World) :
  post_synthesize fuel config body w = (r, w') ->
  match r with
  | Returned (Audio contentType audioBuffer) =>
      contentType = "audio/wav" /\
      (44 <= length audioBuffer)%nat /\
      slice 0 4 audioBuffer = bytes_of_string "RIFF" /\
      sockets w' = S (sockets w) /\ closes w' = S (closes w)
  | Returned (Failure status error details) =>
      status = 500%nat /\ error = "Speech synthesis failed (Realtime API)" /\
      ((details = "No text provided for synthesis" /\ w' = w) \/
       exists m, details = "Speech synthesis failed: " +:+ m)
  | Thrown _ => False
  | Crashed _ | Pending => True
  end.
Proof.
  unfold post_synthesize, synthesize_route, try_catch_finally, bind, ret.
  destruct (falsy (body_text body)) eqn:Hf.
  - unfold synthesizeSpeechRealtime, synthesize_with. rewrite Hf. unfold throw.
    intros E. injection E as <- <-. cbn.
    repeat split. left. split; reflexivity.
  - destruct (body_text body) as [text|]; [|discriminate Hf].
    apply String.eqb_neq in Hf.
    destruct (synthesizeSpeechRealtime fuel config (Some text)
                (body_voiceGender body) (body_voiceName body) w) as [r0 w0] eqn:Erun.
    destruct (synthesis_ledger fuel config text _ _ w r0 w0 Hf Erun)
      as [_ [([e He] & _)|(Hsock & _ & Hr)]].
    + subst r0. intros E. injection E as <- <-. cbn.
      repeat split. right. exists (message e). reflexivity.
    + destruct r0 as [buf|e|e|]; intros E; injection E as <- <-.
      * destruct Hr as (Hcl & Hbuf). split; [reflexivity|].
        split; [rewrite Hbuf, length_app; cbn; lia|].
        split; [rewrite Hbuf; reflexivity|]. split; assumption.
      * destruct Hr as (_ & m & ->). cbn. repeat split. right.
        exists m. reflexivity.
      * exact I.
      * exact I.
Qed.

Lemma synthesize_route_answers_witness :
  "audio/wav" = "audio/wav" /\
  (44 <= length (canonical_header 350 24000 1 16 ++ chunk100 ++ chunk200 ++ chunk50))%nat /\
  slice 0 4 (canonical_header 350 24000 1 16 ++ chunk100 ++ chunk200 ++ chunk50)
    = bytes_of_string "RIFF" /\
  sockets (snd (post_synthesize 300 ga_config both_voices (scripted punctual three_chunks)))
    = S (sockets (scripted punctual three_chunks)) /\
  closes (snd (post_synthesize 300 ga_config both_voices (scripted punctual three_chunks)))
    = S (closes (scripted punctual three_chunks)).
Proof.
  apply (synthesize_route_answers 300 ga_config both_voices
           (scripted punctual three_chunks)
           (Returned (Audio "audio/wav"
                        (canonical_header 350 24000 1 16 ++ chunk100 ++ chunk200 ++ chunk50)))
           (snd (post_synthesize 300 ga_config both_voices
                   (scripted punctual three_chunks)))).
  vm_compute. reflexivity.
Defined.

End RouteAnswers.
